(** * Indexing chunk models ([backend/danswer/indexing/models.py])

    The module declares six pydantic classes ([ChunkEmbedding], the chunk
    hierarchy [BaseChunk] < [DocAwareChunk] < [IndexChunk] <
    [DocMetadataAwareIndexChunk], and [EmbeddingModelDetail]) and three
    methods ([to_short_descriptor], [from_index_chunk], [from_model]).

    The embedding has three layers:
    - Python values ([pyval]) and the exceptions a call can raise;
    - what [pydantic.BaseModel] does with a class declaration: validation of
      keyword arguments at construction, [.dict()], attribute assignment;
    - the declarations and methods of the module, written against that
      layer, and an object store for the statements about mutation.

    The objects of the store are values.  For the statements about what two
    objects share, the same library routines and [from_index_chunk] are
    written a second time over a heap of objects that hold references. *)

From Stdlib Require Import String List ZArith Bool Lia DecimalString SpecFloat.
From Stdlib Require DecimalZ DecimalPos.
From stdpp Require Import list.
Import ListNotations.
Open Scope string_scope.

#[local] Set Warnings "-register-all".

(** ** Python values *)

(** An instance carries its class as the method resolution order, most
    derived class first, so that [isinstance] can be decided on the value.
    [PyModel] is an instance of a [pydantic.BaseModel] subclass, its
    [__dict__] in assignment order; [PyObject] is an instance of any other
    class (a dataclass, an ORM row).  A float is kept as its IEEE-754 value;
    no arithmetic is done on it here. *)
Inductive pyval : Type :=
| PyNone
| PyBool (b : bool)
| PyInt (z : Z)
| PyFloat (f : spec_float)
| PyStr (s : string)
| PyList (xs : list pyval)
| PySet (xs : list pyval)
| PyDict (items : list (pyval * pyval))
| PyModel (mro : list string) (attrs : list (string * pyval))
| PyObject (mro : list string) (attrs : list (string * pyval)).

(** Why a field was refused at construction: pydantic's
    [value_error.missing], or any of its type errors. *)
Inductive error_type := missing | invalid.

Inductive exn :=
| ValidationError (errors : list (string * error_type))
| TypeError (msg : string)
| ValueError (msg : string)
| AttributeError (name : string)
| NotModelled (what : string).

Inductive result (A : Type) :=
| Ok (a : A)
| Raise (e : exn).
Arguments Ok {A} a.
Arguments Raise {A} e.

Definition bind {A B} (r : result A) (k : A -> result B) : result B :=
  match r with
  | Ok a => k a
  | Raise e => Raise e
  end.

#[global] Instance result_ret : MRet result := @Ok.
#[global] Instance result_bind : MBind result := fun A B k r => bind r k.

(** Keyword arguments of a call, and an instance's [__dict__]. *)
Definition kwargs := list (string * pyval).

Fixpoint assoc (name : string) (kw : kwargs) : option pyval :=
  match kw with
  | [] => None
  | (k, v) :: rest => if String.eqb k name then Some v else assoc name rest
  end.

Definition keys (kw : kwargs) : list string := map fst kw.

Definition mem (name : string) (names : list string) : bool :=
  existsb (String.eqb name) names.

Fixpoint distinct_names (names : list string) : bool :=
  match names with
  | [] => true
  | x :: rest => negb (mem x rest) && distinct_names rest
  end.

(** [self.name] *)
Definition getattr (self : pyval) (name : string) : result pyval :=
  match self with
  | PyModel _ attrs | PyObject _ attrs =>
      match assoc name attrs with
      | Some v => Ok v
      | None => Raise (AttributeError name)
      end
  | _ => Raise (AttributeError name)
  end.

(** [isinstance(v, cls)] for a class named [cls]. *)
Definition isinstance (v : pyval) (cls : string) : bool :=
  match v with
  | PyModel mro _ | PyObject mro _ => mem cls mro
  | _ => false
  end.

(** [str(z)] for an int. *)
Definition str_of_int (z : Z) : string := NilZero.string_of_int (Z.to_int z).

(** The text an f-string puts for [{v}], for the values whose [str()] is
    modelled. *)
Definition format_value (v : pyval) : result string :=
  match v with
  | PyNone => Ok "None"
  | PyBool true => Ok "True"
  | PyBool false => Ok "False"
  | PyInt z => Ok (str_of_int z)
  | PyStr s => Ok s
  | _ => Raise (NotModelled "str() of a float, a container or an object")
  end.

(** Structural equality, used for the keys of a dict and the elements of a
    set.  Python also takes [1], [1.0] and [True] for one key; the dicts and
    sets of the module have keys and elements of one type. *)
Fixpoint names_eqb (xs ys : list string) : bool :=
  match xs, ys with
  | [], [] => true
  | x :: xs', y :: ys' => String.eqb x y && names_eqb xs' ys'
  | _, _ => false
  end.

Fixpoint pyval_eqb (a b : pyval) : bool :=
  let fix list_eqb (xs ys : list pyval) : bool :=
    match xs, ys with
    | [], [] => true
    | x :: xs', y :: ys' => pyval_eqb x y && list_eqb xs' ys'
    | _, _ => false
    end in
  let fix items_eqb (xs ys : list (pyval * pyval)) : bool :=
    match xs, ys with
    | [], [] => true
    | (k, x) :: xs', (l, y) :: ys' =>
        pyval_eqb k l && pyval_eqb x y && items_eqb xs' ys'
    | _, _ => false
    end in
  let fix attrs_eqb (xs ys : list (string * pyval)) : bool :=
    match xs, ys with
    | [], [] => true
    | (k, x) :: xs', (l, y) :: ys' =>
        String.eqb k l && pyval_eqb x y && attrs_eqb xs' ys'
    | _, _ => false
    end in
  match a, b with
  | PyNone, PyNone => true
  | PyBool x, PyBool y => Bool.eqb x y
  | PyInt x, PyInt y => Z.eqb x y
  | PyFloat x, PyFloat y =>
      match x, y with
      | S754_zero s, S754_zero t | S754_infinity s, S754_infinity t => Bool.eqb s t
      | S754_nan, S754_nan => true
      | S754_finite s m e, S754_finite t n f =>
          Bool.eqb s t && Pos.eqb m n && Z.eqb e f
      | _, _ => false
      end
  | PyStr x, PyStr y => String.eqb x y
  | PyList xs, PyList ys | PySet xs, PySet ys => list_eqb xs ys
  | PyDict xs, PyDict ys => items_eqb xs ys
  | PyModel c xs, PyModel d ys | PyObject c xs, PyObject d ys =>
      names_eqb c d && attrs_eqb xs ys
  | _, _ => false
  end.

(** ** pydantic's [BaseModel] *)

(** Two behaviours of the library are left open, so that what is proved
    holds whatever they are.  [coerce target v] is the conversion pydantic
    applies to a value that is not already of the annotated type ([None]
    when it reports a type error); it is consulted for such values only.
    [implicit_optional] says whether a field annotated [T | None] that has
    no default is optional with default [None] (pydantic 1) or required
    (pydantic 2). *)
Class Pydantic := {
  coerce : string -> pyval -> option pyval;
  implicit_optional : bool
}.

(** A type annotation, as the validator pydantic compiles it to.
    [validate] is applied to the value supplied for a field; [typed] holds
    of the values of the annotated type, nested values included;
    [allows_none] is set for [T | None]. *)
Record ty := {
  validate : pyval -> option pyval;
  typed : pyval -> bool;
  allows_none : bool
}.

Record config := {
  allow_mutation : bool;
  frozen : bool;
  extra_allow : bool;
  validate_assignment : bool
}.

(** [pydantic.BaseConfig]: what a class that declares no [Config] gets. *)
Definition BaseConfig : config :=
  {| allow_mutation := true; frozen := false;
     extra_allow := false; validate_assignment := false |}.

Record field := {
  f_name : string;
  f_type : ty;
  f_default : option pyval
}.

(** [name: annotation] and [name: annotation = default] in a class body. *)
Definition attr (name : string) (annotation : ty) : field :=
  {| f_name := name; f_type := annotation; f_default := None |}.
Definition attr_default (name : string) (annotation : ty) (default : pyval) : field :=
  {| f_name := name; f_type := annotation; f_default := Some default |}.

Record class_decl := {
  cls_mro : list string;
  cls_fields : list field;
  cls_config : config
}.

Definition cls_name (c : class_decl) : string := hd "" (cls_mro c).
Definition field_names (c : class_decl) : list string := map f_name (cls_fields c).

Definition BaseModel : class_decl :=
  {| cls_mro := ["BaseModel"]; cls_fields := []; cls_config := BaseConfig |}.

(** [class name(base): own]: the fields of the base come first, and the
    [Config] is inherited.  No class of the module declares a field again. *)
Definition subclass (name : string) (base : class_decl) (own : list field) : class_decl :=
  {| cls_mro := name :: cls_mro base;
     cls_fields := (cls_fields base ++ own)%list;
     cls_config := cls_config base |}.

(** [d[k] = v] on the items of a dict, and [s.add(x)] on the elements of a
    set: an equal key keeps its place. *)
Definition dict_setitem (items : list (pyval * pyval)) (k v : pyval) : list (pyval * pyval) :=
  if existsb (fun e => pyval_eqb (fst e) k) items
  then map (fun e => if pyval_eqb (fst e) k then (fst e, v) else e) items
  else (items ++ [(k, v)])%list.

Definition set_add (elems : list pyval) (x : pyval) : list pyval :=
  if existsb (fun y => pyval_eqb y x) elems then elems else (elems ++ [x])%list.

Fixpoint distinct (xs : list pyval) : bool :=
  match xs with
  | [] => true
  | x :: xs' => negb (existsb (pyval_eqb x) xs') && distinct xs'
  end.

(** [self.__dict__[name] = value] *)
Fixpoint setitem (attrs : kwargs) (name : string) (value : pyval) : kwargs :=
  match attrs with
  | [] => [(name, value)]
  | (k, v) :: rest =>
      if String.eqb k name then (k, value) :: rest
      else (k, v) :: setitem rest name value
  end.

(** [BaseModel.dict()] turns nested models into dicts and rebuilds every
    list and dict on the way ([BaseModel._get_value]); anything else is
    returned as it is.  The elements of a set are hashable, hence neither
    models nor containers. *)
Fixpoint dict_value (v : pyval) : pyval :=
  match v with
  | PyModel _ attrs => PyDict (map (fun '(k, x) => (PyStr k, dict_value x)) attrs)
  | PyDict items => PyDict (map (fun '(k, x) => (k, dict_value x)) items)
  | PyList xs => PyList (map dict_value xs)
  | _ => v
  end.

Definition BaseModel_dict (self : pyval) : result kwargs :=
  match self with
  | PyModel _ attrs => Ok (map (fun '(k, x) => (k, dict_value x)) attrs)
  | _ => Raise (AttributeError "dict")
  end.

(** A call [f( **unpacked, k1=v1, ...)]: a keyword given twice is a
    [TypeError] before the callee runs. *)
Definition call_kwargs (unpacked explicit : kwargs) : result kwargs :=
  if existsb (fun k => mem k (keys unpacked)) (keys explicit)
  then Raise (TypeError "got multiple values for keyword argument")
  else Ok (unpacked ++ explicit)%list.

Section Validation.
Context `{Pydantic}.

Definition scalar (target : string) (of_type : pyval -> bool) : ty :=
  {| validate v := if of_type v then Some v else coerce target v;
     typed := of_type;
     allows_none := false |}.

Definition int_ : ty := scalar "int" (fun v => match v with PyInt _ => true | _ => false end).
Definition str_ : ty := scalar "str" (fun v => match v with PyStr _ => true | _ => false end).
Definition bool_ : ty := scalar "bool" (fun v => match v with PyBool _ => true | _ => false end).
Definition float_ : ty := scalar "float" (fun v => match v with PyFloat _ => true | _ => false end).

Fixpoint validate_each (a : ty) (xs : list pyval) : option (list pyval) :=
  match xs with
  | [] => Some []
  | x :: xs' =>
      match validate a x, validate_each a xs' with
      | Some y, Some ys => Some (y :: ys)
      | _, _ => None
      end
  end.

Definition as_list (v : pyval) : option (list pyval) :=
  match v with
  | PyList xs => Some xs
  | _ => match coerce "list" v with Some (PyList xs) => Some xs | _ => None end
  end.

Definition as_set (v : pyval) : option (list pyval) :=
  match v with
  | PySet xs => Some xs
  | _ => match coerce "set" v with Some (PySet xs) => Some xs | _ => None end
  end.

Definition as_dict (v : pyval) : option (list (pyval * pyval)) :=
  match v with
  | PyDict items => Some items
  | PyModel _ attrs => Some (map (fun '(k, x) => (PyStr k, x)) attrs)
  | _ => match coerce "dict" v with Some (PyDict items) => Some items | _ => None end
  end.

(** [list[a]]: every element is validated, into a new list. *)
Definition list_ (a : ty) : ty :=
  {| validate v :=
       match as_list v with
       | Some xs => option_map PyList (validate_each a xs)
       | None => None
       end;
     typed v := match v with PyList xs => forallb (typed a) xs | _ => false end;
     allows_none := false |}.

(** [set[a]]: the validated elements are collected into a new set. *)
Definition set_ (a : ty) : ty :=
  {| validate v :=
       match as_set v with
       | Some xs => option_map (fun ys => PySet (fold_left set_add ys [])) (validate_each a xs)
       | None => None
       end;
     typed v := match v with PySet xs => forallb (typed a) xs && distinct xs | _ => false end;
     allows_none := false |}.

Fixpoint validate_items (k a : ty) (items acc : list (pyval * pyval))
  : option (list (pyval * pyval)) :=
  match items with
  | [] => Some acc
  | (key, x) :: rest =>
      match validate k key, validate a x with
      | Some key', Some x' => validate_items k a rest (dict_setitem acc key' x')
      | _, _ => None
      end
  end.

(** [dict[k, a]]: keys and values are validated, into a new dict. *)
Definition dict_ (k a : ty) : ty :=
  {| validate v :=
       match as_dict v with
       | Some items => option_map PyDict (validate_items k a items [])
       | None => None
       end;
     typed v :=
       match v with
       | PyDict items =>
           forallb (fun e => typed k (fst e) && typed a (snd e)) items
           && distinct (map fst items)
       | _ => false
       end;
     allows_none := false |}.

(** [a | None] *)
Definition Optional (a : ty) : ty :=
  {| validate v := match v with PyNone => Some PyNone | _ => validate a v end;
     typed v := match v with PyNone => true | _ => typed a v end;
     allows_none := true |}.

Definition field_required (f : field) : bool :=
  match f_default f with
  | Some _ => false
  | None => negb (allows_none (f_type f) && implicit_optional)
  end.

Definition field_default (f : field) : pyval :=
  match f_default f with
  | Some d => d
  | None => PyNone
  end.

(** [validate_model]: the fields are taken in declaration order; a
    field that is not among the inputs gets its default, unvalidated, or
    is reported missing; a supplied value is validated; inputs that name
    no field are ignored.  All failures are collected. *)
Fixpoint validate_model (fs : list field) (input : kwargs)
  : kwargs * list (string * error_type) :=
  match fs with
  | [] => ([], [])
  | f :: fs' =>
      let (values, errors) := validate_model fs' input in
      match assoc (f_name f) input with
      | None =>
          if field_required f then (values, (f_name f, missing) :: errors)
          else ((f_name f, field_default f) :: values, errors)
      | Some v =>
          match validate (f_type f) v with
          | Some v' => ((f_name f, v') :: values, errors)
          | None => (values, (f_name f, invalid) :: errors)
          end
      end
  end.

(** What [validate_model] stores for one field: [v] is the validated input,
    or the default of a field that is not required. *)
Definition field_value (input : kwargs) (f : field) (v : pyval) : Prop :=
  match assoc (f_name f) input with
  | Some x => validate (f_type f) x = Some v
  | None => field_required f = false /\ v = field_default f
  end.

(** The call [cls( **input)], that is [BaseModel.__init__]. *)
Definition init (cls : class_decl) (input : kwargs) : result pyval :=
  let (values, errors) := validate_model (cls_fields cls) input in
  match errors with
  | [] => Ok (PyModel (cls_mro cls) values)
  | _ => Raise (ValidationError errors)
  end.

(** The value an input supplies for a field, or the field's default. *)
Definition supplied (input : kwargs) (f : field) : pyval :=
  match assoc (f_name f) input with
  | Some x => x
  | None => field_default f
  end.

(** An input fits a field when it supplies a value of the annotated
    type, or supplies nothing and the field is not required. *)
Definition fits (input : kwargs) (f : field) : bool :=
  match assoc (f_name f) input with
  | Some x => typed (f_type f) x
  | None => negb (field_required f)
  end.

(** The instance whose fields are the supplied values. *)
Definition instance_of (cls : class_decl) (input : kwargs) : pyval :=
  PyModel (cls_mro cls) (map (fun f => (f_name f, supplied input f)) (cls_fields cls)).

Fixpoint kwargs_of_items (items : list (pyval * pyval)) : option kwargs :=
  match items with
  | [] => Some []
  | (PyStr k, v) :: rest => option_map (cons (k, v)) (kwargs_of_items rest)
  | _ => None
  end.

Fixpoint typed_attrs (fs : list field) (attrs : kwargs) : bool :=
  match fs, attrs with
  | [], [] => true
  | f :: fs', (k, v) :: attrs' =>
      String.eqb k (f_name f) && typed (f_type f) v && typed_attrs fs' attrs'
  | _, _ => false
  end.

(** A field annotated with a model class ([Model.validate]): an instance
    of the class or of a subclass is taken as it is, anything that makes a
    dict is passed to the constructor.  A typed value is an instance of
    exactly the class whose [__dict__] has its fields, each typed. *)
Definition model (cls : class_decl) : ty :=
  {| validate v :=
       if match v with PyModel mro _ => mem (cls_name cls) mro | _ => false end
       then Some v
       else
         match as_dict v with
         | Some items =>
             match kwargs_of_items items with
             | Some input =>
                 match init cls input with
                 | Ok self => Some self
                 | Raise _ => None
                 end
             | None => None
             end
         | None => None
         end;
     typed v :=
       match v with
       | PyModel mro attrs =>
           names_eqb mro (cls_mro cls) && typed_attrs (cls_fields cls) attrs
       | _ => false
       end;
     allows_none := false |}.
End Validation.

(** ** The module *)

(** What the module imports from the rest of the repository:
    [Embedding] from [shared_configs.model_server_models], [Document] (with
    its own [to_short_descriptor]) from [danswer.connectors.models] and
    [DocumentAccess] from [danswer.access.models], each annotation as its
    validator. *)
Class Imports := {
  Embedding : ty;
  Document : ty;
  DocumentAccess : ty;
  Document_to_short_descriptor : pyval -> result string
}.

Section Models.
Context `{Pydantic} `{Imports}.

Definition ChunkEmbedding : class_decl :=
  subclass "ChunkEmbedding" BaseModel
    [ attr "full_embedding" Embedding;
      attr "mini_chunk_embeddings" (list_ Embedding) ].

Definition BaseChunk : class_decl :=
  subclass "BaseChunk" BaseModel
    [ attr "chunk_id" int_;
      attr "blurb" str_;
      attr "content" str_;
      attr "source_links" (Optional (dict_ int_ str_));
      attr "section_continuation" bool_ ].

Definition DocAwareChunk : class_decl :=
  subclass "DocAwareChunk" BaseChunk
    [ attr "source_document" Document;
      attr "title_prefix" str_;
      attr "metadata_suffix_semantic" str_;
      attr "metadata_suffix_keyword" str_;
      attr "mini_chunk_texts" (Optional (list_ str_));
      attr_default "large_chunk_reference_ids" (list_ int_) (PyList []) ].

Definition IndexChunk : class_decl :=
  subclass "IndexChunk" DocAwareChunk
    [ attr "embeddings" (model ChunkEmbedding);
      attr "title_embedding" (Optional Embedding) ].

Definition DocMetadataAwareIndexChunk : class_decl :=
  subclass "DocMetadataAwareIndexChunk" IndexChunk
    [ attr "access" DocumentAccess;
      attr "document_sets" (set_ str_);
      attr "boost" int_ ].

Definition EmbeddingModelDetail : class_decl :=
  subclass "EmbeddingModelDetail" BaseModel
    [ attr "model_name" str_;
      attr "model_dim" int_;
      attr "normalize" bool_;
      attr "query_prefix" (Optional str_);
      attr "passage_prefix" (Optional str_);
      attr_default "cloud_provider_id" (Optional int_) PyNone;
      attr_default "cloud_provider_name" (Optional str_) PyNone ].

Definition module_classes : list class_decl :=
  [ ChunkEmbedding; BaseChunk; DocAwareChunk; IndexChunk;
    DocMetadataAwareIndexChunk; EmbeddingModelDetail ].

(** [DocAwareChunk.to_short_descriptor] *)
Definition to_short_descriptor (self : pyval) : result string :=
  chunk_id ← getattr self "chunk_id";
  chunk_id_text ← format_value chunk_id;
  source_document ← getattr self "source_document";
  descriptor ← Document_to_short_descriptor source_document;
  mret ("Chunk ID: '" ++ chunk_id_text ++ "'; " ++ descriptor).

(** [DocMetadataAwareIndexChunk.from_index_chunk] *)
Definition from_index_chunk (cls : class_decl)
    (index_chunk access document_sets boost : pyval) : result pyval :=
  index_chunk_data ← BaseModel_dict index_chunk;
  input ← call_kwargs index_chunk_data
            [ ("access", access);
              ("document_sets", document_sets);
              ("boost", boost) ];
  init cls input.

(** [EmbeddingModelDetail.from_model] *)
Definition from_model (cls : class_decl) (embedding_model : pyval) : result pyval :=
  model_name ← getattr embedding_model "model_name";
  model_dim ← getattr embedding_model "model_dim";
  normalize ← getattr embedding_model "normalize";
  query_prefix ← getattr embedding_model "query_prefix";
  passage_prefix ← getattr embedding_model "passage_prefix";
  cloud_provider_id ← getattr embedding_model "cloud_provider_id";
  init cls
    [ ("model_name", model_name);
      ("model_dim", model_dim);
      ("normalize", normalize);
      ("query_prefix", query_prefix);
      ("passage_prefix", passage_prefix);
      ("cloud_provider_id", cloud_provider_id) ].

(** Modelled from the spec: [danswer.db.models.EmbeddingModel], the live
    embedding-model configuration record, is not among the sources; the
    spec has it expose these six attributes, the prefixes and the cloud
    provider being optional.  A record may have further attributes. *)
Definition EmbeddingModel_columns : list field :=
  [ attr "model_name" str_;
    attr "model_dim" int_;
    attr "normalize" bool_;
    attr "query_prefix" (Optional str_);
    attr "passage_prefix" (Optional str_);
    attr "cloud_provider_id" (Optional int_) ].

Definition is_EmbeddingModel (m : pyval) : bool :=
  forallb
    (fun f => match getattr m (f_name f) with
              | Ok v => typed (f_type f) v
              | Raise _ => false
              end)
    EmbeddingModel_columns.

(** [type(self)], for the classes of the module. *)
Definition type_of (self : pyval) : result class_decl :=
  match self with
  | PyModel (name :: _) _ =>
      match find (fun c => String.eqb (cls_name c) name) module_classes with
      | Some c => Ok c
      | None => Raise (NotModelled "a class of another module")
      end
  | _ => Raise (NotModelled "a class of another module")
  end.

(** [BaseModel.__setattr__], for [self.name = value]. *)
Definition BaseModel_setattr (self : pyval) (name : string) (value : pyval)
  : result pyval :=
  cls ← type_of self;
  let cfg := cls_config cls in
  if negb (extra_allow cfg) && negb (mem name (field_names cls))
  then Raise (ValueError "object has no field")
  else if negb (allow_mutation cfg) || frozen cfg
  then Raise (TypeError "is immutable and does not support item assignment")
  else
    value' ←
      (if validate_assignment cfg
       then match find (fun f => String.eqb (f_name f) name) (cls_fields cls) with
            | Some f =>
                match validate (f_type f) value with
                | Some v => Ok v
                | None => Raise (ValidationError [(name, invalid)])
                end
            | None => Ok value
            end
       else Ok value);
    match self with
    | PyModel mro attrs => Ok (PyModel mro (setitem attrs name value'))
    | _ => Raise (AttributeError name)
    end.
End Models.

(** ** Objects in a store

    A name of the program refers to an object; the store holds the objects,
    by address.  A call either returns or raises, and leaves a store. *)
Definition store := list pyval.
Definition addr := nat.
Definition M (A : Type) : Type := store -> result A * store.

Definition lift {A} (r : result A) : M A := fun σ => (r, σ).

Definition load (l : addr) : M pyval :=
  fun σ =>
    match σ !! l with
    | Some v => (Ok v, σ)
    | None => (Raise (NotModelled "no object at this address"), σ)
    end.

(** A new object gets the next address. *)
Definition alloc (v : pyval) : M addr :=
  fun σ => (Ok (length σ), (σ ++ [v])%list).

(** The object at [l] is replaced, in place. *)
Definition update (l : addr) (v : pyval) : M unit :=
  fun σ => (Ok tt, <[l := v]> σ).

#[global] Instance M_ret : MRet M := fun A a σ => (Ok a, σ).
#[global] Instance M_bind : MBind M := fun A B k m σ =>
  match m σ with
  | (Ok a, σ') => k a σ'
  | (Raise e, σ') => (Raise e, σ')
  end.

(** A computation that only reads the store and adds objects to it. *)
Definition extends {A} (m : M A) : Prop :=
  forall σ r σ', m σ = (r, σ') -> σ `prefix_of` σ'.

(** The operations of the module: the construction of an instance and the
    three methods. *)
Inductive operation :=
| Construct (cls : class_decl) (input : kwargs)
| ToShortDescriptor (self : addr)
| FromIndexChunk (index_chunk : addr) (access document_sets boost : pyval)
| FromModel (embedding_model : addr).

Section Calls.
Context `{Pydantic} `{Imports}.

(** [cls( **input)] *)
Definition new (cls : class_decl) (input : kwargs) : M addr :=
  self ← lift (init cls input);
  alloc self.

(** [self.to_short_descriptor()] *)
Definition call_to_short_descriptor (self : addr) : M string :=
  chunk ← load self;
  lift (to_short_descriptor chunk).

(** [DocMetadataAwareIndexChunk.from_index_chunk(index_chunk, access,
    document_sets, boost)] *)
Definition call_from_index_chunk (index_chunk : addr)
    (access document_sets boost : pyval) : M addr :=
  ic ← load index_chunk;
  chunk ← lift (from_index_chunk DocMetadataAwareIndexChunk ic access document_sets boost);
  alloc chunk.

(** [EmbeddingModelDetail.from_model(embedding_model)] *)
Definition call_from_model (embedding_model : addr) : M addr :=
  m ← load embedding_model;
  detail ← lift (from_model EmbeddingModelDetail m);
  alloc detail.

(** [self.name = value] *)
Definition assign (self : addr) (name : string) (value : pyval) : M unit :=
  obj ← load self;
  obj' ← lift (BaseModel_setattr obj name value);
  update self obj'.

(** The store an operation of the module leaves, whether it returns or
    raises. *)
Definition store_after (op : operation) (σ : store) : store :=
  match op with
  | Construct cls input => snd (new cls input σ)
  | ToShortDescriptor self => snd (call_to_short_descriptor self σ)
  | FromIndexChunk index_chunk access document_sets boost =>
      snd (call_from_index_chunk index_chunk access document_sets boost σ)
  | FromModel embedding_model => snd (call_from_model embedding_model σ)
  end.
End Calls.

(** ** The text that is embedded *)

(** Modelled from the spec: the two search paths, each with its own
    rendering of the metadata.  The text builder of the indexing pipeline
    and the stripping done on retrieval are not in this module, which
    declares the three fields they use. *)
Inductive search_path := semantic | lexical.

Definition metadata_suffix_field (path : search_path) : string :=
  match path with
  | semantic => "metadata_suffix_semantic"
  | lexical => "metadata_suffix_keyword"
  end.

Definition getattr_str (self : pyval) (name : string) : result string :=
  v ← getattr self name;
  match v with
  | PyStr s => Ok s
  | _ => Raise (TypeError "not a str")
  end.

(** Modelled from the spec: the text builder, which is not in this module;
    the text that is embedded is [title_prefix], [content] and the metadata
    suffix of the path, in this order. *)
Definition embedded_text (path : search_path) (chunk : pyval) : result string :=
  title_prefix ← getattr_str chunk "title_prefix";
  content ← getattr_str chunk "content";
  metadata_suffix ← getattr_str chunk (metadata_suffix_field path);
  mret (title_prefix ++ content ++ metadata_suffix).

(** [text.removeprefix(p)] and [text.removesuffix(s)] *)
Fixpoint strip_prefix (p text : string) : option string :=
  match p, text with
  | EmptyString, _ => Some text
  | String a p', String b text' =>
      if Ascii.eqb a b then strip_prefix p' text' else None
  | String _ _, EmptyString => None
  end.

Fixpoint strip_suffix (s text : string) : option string :=
  if String.eqb text s then Some EmptyString
  else match text with
       | EmptyString => None
       | String a text' => option_map (String a) (strip_suffix s text')
       end.

Definition removeprefix (p text : string) : string :=
  match strip_prefix p text with
  | Some rest => rest
  | None => text
  end.

Definition removesuffix (s text : string) : string :=
  match strip_suffix s text with
  | Some rest => rest
  | None => text
  end.

(** Modelled from the spec: the stripping, which is not in this module;
    the known prefix and the known suffix are removed from the text. *)
Definition stripped_text (path : search_path) (chunk : pyval) (text : string)
  : result string :=
  title_prefix ← getattr_str chunk "title_prefix";
  metadata_suffix ← getattr_str chunk (metadata_suffix_field path);
  mret (removesuffix metadata_suffix (removeprefix title_prefix text)).

(** ** Assumptions on the imports, and a sample of them *)

(** A value of a type annotation gives itself back when validated, as it is
    and in its [.dict()] form. *)
Definition sound (t : ty) : Prop :=
  forall v, typed t v = true ->
    validate t v = Some v /\ validate t (dict_value v) = Some v.

(** What is assumed of the imported classes: their values validate to
    themselves, and a document's own [to_short_descriptor] returns. *)
Class ImportsOk `{Pydantic} `{Imports} : Prop := {
  Embedding_sound : sound Embedding;
  Document_sound : sound Document;
  DocumentAccess_sound : sound DocumentAccess;
  Document_to_short_descriptor_returns :
    forall d, typed Document d = true ->
      exists s, Document_to_short_descriptor d = Ok s
}.

(** The classes of the chunk hierarchy, and those that have
    [to_short_descriptor]. *)
Definition chunk_classes `{Pydantic} `{Imports} : list class_decl :=
  [ BaseChunk; DocAwareChunk; IndexChunk; DocMetadataAwareIndexChunk ].
Definition doc_aware_classes `{Pydantic} `{Imports} : list class_decl :=
  [ DocAwareChunk; IndexChunk; DocMetadataAwareIndexChunk ].

Definition required_fields `{Pydantic} (cls : class_decl) : list string :=
  map f_name (List.filter field_required (cls_fields cls)).

(** An environment to run the module in: a pydantic that converts nothing
    and takes [T | None] without default as optional, embeddings that are
    lists of floats, documents with an id and a semantic identifier, and
    access descriptors that are plain objects of their class. *)
Module Sample.
Definition pydantic : Pydantic :=
  {| coerce := fun _ _ => None; implicit_optional := true |}.
#[local] Existing Instance pydantic.

Definition Document_class : class_decl :=
  subclass "Document" BaseModel
    [ attr "id" str_; attr "semantic_identifier" str_ ].

Definition DocumentAccess_type : ty :=
  {| validate v := if isinstance v "DocumentAccess" then Some v else None;
     typed v :=
       match v with
       | PyObject mro _ => mem "DocumentAccess" mro
       | _ => false
       end;
     allows_none := false |}.

Definition imports : Imports :=
  {| Embedding := list_ float_;
     Document := model Document_class;
     DocumentAccess := DocumentAccess_type;
     Document_to_short_descriptor d :=
       id ← getattr_str d "id";
       semantic_identifier ← getattr_str d "semantic_identifier";
       mret ("ID: '" ++ id ++ "'; Semantic ID: '" ++ semantic_identifier ++ "'") |}.
#[local] Existing Instance imports.

Definition D1 : pyval :=
  PyModel ["Document"; "BaseModel"]
    [ ("id", PyStr "D1"); ("semantic_identifier", PyStr "Handbook") ].

(** [0.1] and [0.2] as doubles. *)
Definition f0_1 : pyval := PyFloat (S754_finite false 7205759403792794 (-56)).
Definition f0_2 : pyval := PyFloat (S754_finite false 7205759403792794 (-55)).

Definition base_chunk_input : kwargs :=
  [ ("chunk_id", PyInt 0);
    ("blurb", PyStr "Hello");
    ("content", PyStr "Hello world");
    ("source_links", PyNone);
    ("section_continuation", PyBool false) ].

Definition doc_aware_chunk_input : kwargs :=
  (base_chunk_input ++
   [ ("source_document", D1);
     ("title_prefix", PyStr "");
     ("metadata_suffix_semantic", PyStr "");
     ("metadata_suffix_keyword", PyStr "");
     ("mini_chunk_texts", PyNone) ])%list.

Definition chunk_embedding (minis : list pyval) : pyval :=
  PyModel ["ChunkEmbedding"; "BaseModel"]
    [ ("full_embedding", PyList [f0_1; f0_2]);
      ("mini_chunk_embeddings", PyList minis) ].

Definition index_chunk_input : kwargs :=
  (doc_aware_chunk_input ++
   [ ("embeddings", chunk_embedding []);
     ("title_embedding", PyNone) ])%list.

Definition index_chunk : pyval := instance_of IndexChunk index_chunk_input.

Definition newline : string := String (Ascii.ascii_of_nat 10) EmptyString.

(** A chunk with a title prefix and metadata suffixes. *)
Definition titled_chunk : pyval :=
  instance_of DocAwareChunk
    [ ("chunk_id", PyInt 3);
      ("blurb", PyStr "Leave policy");
      ("content", PyStr "Leave policy: 25 days.");
      ("source_links", PyDict [(PyInt 0, PyStr "https://example.com/handbook#leave")]);
      ("section_continuation", PyBool true);
      ("source_document", D1);
      ("title_prefix", PyStr ("Handbook" ++ newline));
      ("metadata_suffix_semantic", PyStr (newline ++ "Metadata: team - people"));
      ("metadata_suffix_keyword", PyStr (newline ++ "people"));
      ("mini_chunk_texts", PyList [PyStr "Leave policy:"; PyStr "25 days."]) ].

(** The inputs of a [BaseChunk], [content] left out. *)
Definition no_content_input : kwargs :=
  [ ("chunk_id", PyInt 0);
    ("blurb", PyStr "Hello");
    ("source_links", PyNone);
    ("section_continuation", PyBool false) ].

Definition public : pyval :=
  PyObject ["DocumentAccess"; "object"]
    [ ("user_emails", PySet []); ("user_groups", PySet []); ("is_public", PyBool true) ].

(** One mini-chunk text and no mini-chunk embedding. *)
Definition arity_mismatch_input : kwargs :=
  setitem index_chunk_input "mini_chunk_texts" (PyList [PyStr "Hello"]).

(** No title prefix, and a title embedding all the same. *)
Definition untitled_input : kwargs :=
  setitem index_chunk_input "title_embedding" (PyList [f0_1; f0_2]).

Definition embedding_model : pyval :=
  PyObject ["EmbeddingModel"; "Base"; "object"]
    [ ("id", PyInt 7);
      ("model_name", PyStr "intfloat/e5-base-v2");
      ("model_dim", PyInt 768);
      ("normalize", PyBool true);
      ("query_prefix", PyStr "query: ");
      ("passage_prefix", PyStr "passage: ");
      ("cloud_provider_id", PyNone);
      ("index_name", PyStr "danswer_chunk") ].
End Sample.

(** Further sample values: the sample chunk extended with access, document
    sets and boost, a chunk without embeddings, an embedding-model record
    that lacks an attribute. *)
Module More_samples.
#[local] Existing Instance Sample.pydantic.
#[local] Existing Instance Sample.imports.

Definition document_sets : pyval := PySet [PyStr "default"].

Definition extended_chunk : pyval :=
  instance_of DocMetadataAwareIndexChunk
    (Sample.index_chunk_input ++
     [ ("access", Sample.public);
       ("document_sets", document_sets);
       ("boost", PyInt 0) ])%list.

Definition doc_aware_chunk : pyval :=
  instance_of DocAwareChunk Sample.doc_aware_chunk_input.

(** The sample chunk, with another id. *)
Definition next_chunk : pyval :=
  instance_of IndexChunk (setitem Sample.index_chunk_input "chunk_id" (PyInt 1)).

(** A record of an older schema, without [cloud_provider_id]. *)
Definition old_embedding_model : pyval :=
  PyObject ["EmbeddingModel"; "Base"; "object"]
    [ ("id", PyInt 7);
      ("model_name", PyStr "intfloat/e5-base-v2");
      ("model_dim", PyInt 768);
      ("normalize", PyBool true);
      ("query_prefix", PyStr "query: ");
      ("passage_prefix", PyStr "passage: ") ].

Definition detail_input : kwargs :=
  [ ("model_name", PyStr "intfloat/e5-base-v2");
    ("model_dim", PyInt 768);
    ("normalize", PyBool true);
    ("query_prefix", PyNone);
    ("passage_prefix", PyNone) ].

(** The inputs of a [BaseChunk], [source_links] left out. *)
Definition no_links_input : kwargs :=
  [ ("chunk_id", PyInt 0);
    ("blurb", PyStr "Hello");
    ("content", PyStr "Hello world");
    ("section_continuation", PyBool false) ].
End More_samples.

(** ** Objects by reference

    Whether two objects share a part cannot be said of values.  Here an
    object is at an address of a heap and holds references: an immutable
    value (a number, a string, [None]) is held as it is, a list, a set, a
    dict or an instance by its address.  An instance of a [BaseModel]
    subclass refers to its [__dict__], which is a dict of the heap. *)
Inductive ref :=
| RNone
| RBool (b : bool)
| RInt (z : Z)
| RFloat (f : spec_float)
| RStr (s : string)
| RAddr (a : addr).

Inductive object :=
| OList (xs : list ref)
| OSet (xs : list ref)
| ODict (items : list (ref * ref))
| OModel (mro : list string) (dict : addr)
| OObject (mro : list string) (attrs : list (string * ref)).

Definition heap := list object.

(** A computation on the heap returns or raises, and leaves a heap. *)
Definition HM (A : Type) : Type := heap -> result A * heap.

#[global] Instance HM_ret : MRet HM := fun A a h => (Ok a, h).
#[global] Instance HM_bind : MBind HM := fun A B k m h =>
  match m h with
  | (Ok a, h') => k a h'
  | (Raise e, h') => (Raise e, h')
  end.

Definition raise {A} (e : exn) : HM A := fun h => (Raise e, h).

Definition deref (a : addr) : HM object :=
  fun h =>
    match h !! a with
    | Some o => (Ok o, h)
    | None => (Raise (NotModelled "no object at this address"), h)
    end.

(** A new object gets the next address. *)
Definition allocate (o : object) : HM addr :=
  fun h => (Ok (length h), (h ++ [o])%list).

(** The object at [a] is changed in place: whoever refers to [a] sees it. *)
Definition mutate (a : addr) (o : object) : HM unit :=
  fun h => (Ok tt, <[a := o]> h).

(** [xs.append(x)] *)
Definition list_append (xs x : ref) : HM unit :=
  match xs with
  | RAddr a =>
      o ← deref a;
      match o with
      | OList elems => mutate a (OList (elems ++ [x])%list)
      | _ => raise (AttributeError "append")
      end
  | _ => raise (AttributeError "append")
  end.

Section For_each.
Context {A B : Type} (f : A -> HM B).

Fixpoint for_each (xs : list A) : HM (list B) :=
  match xs with
  | [] => mret []
  | x :: xs' => y ← f x; ys ← for_each xs'; mret (y :: ys)
  end.
End For_each.

(** The value an immutable reference holds. *)
Definition immutable (v : ref) : option pyval :=
  match v with
  | RNone => Some PyNone
  | RBool b => Some (PyBool b)
  | RInt z => Some (PyInt z)
  | RFloat f => Some (PyFloat f)
  | RStr s => Some (PyStr s)
  | RAddr _ => None
  end.

(** Equality of the keys of a dict and of the elements of a set: immutable
    values by value, objects by identity. *)
Definition ref_eqb (v w : ref) : bool :=
  match v, w with
  | RAddr a, RAddr b => Nat.eqb a b
  | _, _ =>
      match immutable v, immutable w with
      | Some x, Some y => pyval_eqb x y
      | _, _ => false
      end
  end.

(** A key of a dict and an element of a set are hashable: immutable
    values, or objects of classes that are neither containers nor models.
    Python has no dict or set with another key or element. *)
Definition hashable (v : ref) : HM unit :=
  match v with
  | RAddr a =>
      o ← deref a;
      match o with
      | OObject _ _ => mret tt
      | _ => raise (NotModelled "a key or an element that is not hashable")
      end
  | _ => mret tt
  end.

Definition dict_setitem_at (items : list (ref * ref)) (k v : ref) : list (ref * ref) :=
  if existsb (fun e => ref_eqb (fst e) k) items
  then map (fun e => if ref_eqb (fst e) k then (fst e, v) else e) items
  else (items ++ [(k, v)])%list.

Definition set_add_at (elems : list ref) (x : ref) : list ref :=
  if existsb (fun y => ref_eqb y x) elems then elems else (elems ++ [x])%list.

(** [list(xs)], [set(xs)] and [dict(items)]: a new object each. *)
Definition new_list (xs : list ref) : HM ref :=
  a ← allocate (OList xs); mret (RAddr a).

Definition new_set (xs : list ref) : HM ref :=
  _ ← for_each hashable xs;
  a ← allocate (OSet (fold_left set_add_at xs []));
  mret (RAddr a).

Definition new_dict (items : list (ref * ref)) : HM addr :=
  _ ← for_each hashable (map fst items);
  allocate (ODict (fold_left (fun acc e => dict_setitem_at acc (fst e) (snd e)) items [])).

(** [BaseModel.dict()] and [BaseModel._get_value], which call each other:
    the [__dict__] of the instance is read, each value is taken through
    [_get_value], and the results go into a new dict.  [_get_value] turns a
    model into its [.dict()], rebuilds a dict, a list or a set from the
    elements taken through [_get_value], and returns anything else as it
    is.  The recursion is as deep as the objects are nested; [depth] is the
    recursion limit of the interpreter. *)
Definition rebuild_items (get_value : ref -> HM ref) (items : list (ref * ref)) : HM addr :=
  items' ← for_each (fun e => y ← get_value (snd e); mret (fst e, y)) items;
  new_dict items'.

Definition model_dict (get_value : ref -> HM ref) (dict : addr) : HM addr :=
  fields ← deref dict;
  match fields with
  | ODict items => rebuild_items get_value items
  | _ => raise (NotModelled "a __dict__ that is not a dict")
  end.

Fixpoint get_value (depth : nat) (v : ref) : HM ref :=
  match depth with
  | 0 => raise (NotModelled "RecursionError")
  | S depth' =>
      match v with
      | RAddr a =>
          o ← deref a;
          match o with
          | OModel _ dict => d ← model_dict (get_value depth') dict; mret (RAddr d)
          | ODict items => d ← rebuild_items (get_value depth') items; mret (RAddr d)
          | OList xs => ys ← for_each (get_value depth') xs; new_list ys
          | OSet xs => ys ← for_each (get_value depth') xs; new_set ys
          | OObject _ _ => mret v
          end
      | _ => mret v
      end
  end.

Definition BaseModel_dict_at (depth : nat) (self : ref) : HM addr :=
  match self with
  | RAddr a =>
      o ← deref a;
      match o with
      | OModel _ dict => model_dict (get_value depth) dict
      | _ => raise (AttributeError "dict")
      end
  | _ => raise (AttributeError "dict")
  end.

(** Keyword arguments, by reference. *)
Definition keywords := list (string * ref).

Fixpoint keyword (name : string) (kw : keywords) : option ref :=
  match kw with
  | [] => None
  | (k, v) :: rest => if String.eqb k name then Some v else keyword name rest
  end.

Fixpoint keywords_of_items (items : list (ref * ref)) : option keywords :=
  match items with
  | [] => Some []
  | (RStr k, v) :: rest => option_map (cons (k, v)) (keywords_of_items rest)
  | _ => None
  end.

(** [**d] in a call: the items of the dict become keywords. *)
Definition unpack (d : addr) : HM keywords :=
  o ← deref d;
  match o with
  | ODict items =>
      match keywords_of_items items with
      | Some kw => mret kw
      | None => raise (TypeError "keywords must be strings")
      end
  | _ => raise (TypeError "argument after ** must be a mapping")
  end.

(** A call [f( **unpacked, k1=v1, ...)], as [call_kwargs]. *)
Definition call_keywords (unpacked explicit : keywords) : HM keywords :=
  if existsb (fun k => mem k (map fst unpacked)) (map fst explicit)
  then raise (TypeError "got multiple values for keyword argument")
  else mret (unpacked ++ explicit)%list.

(** The defaults that the fields of the module have. *)
Inductive declared_default := declared_None | declared_empty_list.

Definition default_value (d : declared_default) : pyval :=
  match d with
  | declared_None => PyNone
  | declared_empty_list => PyList []
  end.

(** A type annotation, as it is written.  [AModel] is a [BaseModel]
    subclass, with its fields; [AObject] is any other class, whose
    instances validation hands on as they are. *)
Inductive annotation :=
| AInt
| AStr
| ABool
| AFloat
| AList (a : annotation)
| ASet (a : annotation)
| ADict (k a : annotation)
| AOptional (a : annotation)
| AModel (mro : list string) (fields : list (string * annotation * option declared_default))
| AObject (cls : string).

Definition declared := (string * annotation * option declared_default)%type.

(** A field as validation uses it. *)
Record field_at := {
  fa_name : string;
  fa_validate : ref -> HM ref;
  fa_required : bool;
  fa_default : option declared_default
}.

(** What validation does with a value that is not of the annotated type
    (a conversion or a type error) is modelled on values only, by
    [coerce]. *)
Definition conversion {A} : HM A :=
  raise (NotModelled "validation of a value that is not of the annotated type").

Definition list_at (v : ref) : HM (list ref) :=
  match v with
  | RAddr a =>
      o ← deref a;
      match o with
      | OList xs => mret xs
      | _ => conversion
      end
  | _ => conversion
  end.

Definition set_at (v : ref) : HM (list ref) :=
  match v with
  | RAddr a =>
      o ← deref a;
      match o with
      | OSet xs => mret xs
      | _ => conversion
      end
  | _ => conversion
  end.

(** The items of a dict, or of a model, which [dict(v)] reads field by
    field. *)
Definition items_at (v : ref) : HM (list (ref * ref)) :=
  match v with
  | RAddr a =>
      o ← deref a;
      match o with
      | ODict items => mret items
      | OModel _ dict =>
          fields ← deref dict;
          match fields with
          | ODict items => mret items
          | _ => conversion
          end
      | _ => conversion
      end
  | _ => conversion
  end.

(** The value given for a model field: an instance of the class, or the
    items to construct one from. *)
Definition instance_or_items (cls : string) (v : ref)
  : HM (list string * addr + list (ref * ref)) :=
  match v with
  | RAddr a =>
      o ← deref a;
      match o with
      | OModel mro dict =>
          if mem cls mro then mret (inl (mro, dict))
          else items ← items_at v; mret (inr items)
      | _ => items ← items_at v; mret (inr items)
      end
  | _ => conversion
  end.

(** The default of a field that is left out: [None], or a copy of the
    empty list. *)
Definition default_at (d : option declared_default) : HM ref :=
  match d with
  | Some declared_empty_list => new_list []
  | _ => mret RNone
  end.

(** The errors of a field's validators become an error of the field;
    anything else is raised. *)
Definition attempt (m : HM ref) : HM (ref + error_type) :=
  fun h =>
    match m h with
    | (Ok v, h') => (Ok (inl v), h')
    | (Raise (ValidationError _), h') | (Raise (TypeError _), h')
    | (Raise (ValueError _), h') => (Ok (inr invalid), h')
    | (Raise e, h') => (Raise e, h')
    end.

(** The value of one field: the given value, validated, or the default of
    a field that is left out, unvalidated; a required field that is left
    out is reported missing. *)
Definition validate_field_at (f : field_at) (input : keywords) : HM (ref + error_type) :=
  match keyword (fa_name f) input with
  | None =>
      if fa_required f then mret (inr missing)
      else v ← default_at (fa_default f); mret (inl v)
  | Some v => attempt (fa_validate f v)
  end.

(** [validate_model], field by field in declaration order; the keywords
    that name no field are ignored, and all errors are collected. *)
Fixpoint validate_model_at (fs : list field_at) (input : keywords)
  : HM (keywords * list (string * error_type)) :=
  match fs with
  | [] => mret ([], [])
  | f :: fs' =>
      r ← validate_field_at f input;
      rest ← validate_model_at fs' input;
      mret (match r with
            | inl v => ((fa_name f, v) :: fst rest, snd rest)
            | inr e => (fst rest, (fa_name f, e) :: snd rest)
            end)
  end.

(** [BaseModel.__init__]: the validated values become the [__dict__] of
    the new instance. *)
Definition init_at (mro : list string) (fs : list field_at) (input : keywords) : HM ref :=
  validated ← validate_model_at fs input;
  match snd validated with
  | [] =>
      dict ← allocate (ODict (map (fun e => (RStr (fst e), snd e)) (fst validated)));
      self ← allocate (OModel mro dict);
      mret (RAddr self)
  | errors => raise (ValidationError errors)
  end.

Fixpoint validate_items_at (k a : ref -> HM ref) (items : list (ref * ref))
  : HM (list (ref * ref)) :=
  match items with
  | [] => mret []
  | (key, x) :: rest =>
      key' ← k key;
      x' ← a x;
      rest' ← validate_items_at k a rest;
      mret ((key', x') :: rest')
  end.

Section Validation_at.
Context `{Pydantic}.

Definition allows_none_at (a : annotation) : bool :=
  match a with
  | AOptional _ => true
  | _ => false
  end.

Definition required_at (a : annotation) (d : option declared_default) : bool :=
  match d with
  | Some _ => false
  | None => negb (allows_none_at a && implicit_optional)
  end.

(** The validation of a value for an annotation.  A list, a set or a dict
    is validated element by element into a new object.  An instance given
    for a model field is copied as [Config.copy_on_model_validation =
    'shallow'] has it: the copy is a new instance with the [__dict__] of
    the given one; a dict given for a model field is passed to the
    constructor.  Where an element is refused pydantic goes on to the
    other elements to report every error; here the first is raised. *)
Fixpoint validate_at (a : annotation) (v : ref) {struct a} : HM ref :=
  match a with
  | AInt => match v with RInt _ => mret v | _ => conversion end
  | AStr => match v with RStr _ => mret v | _ => conversion end
  | ABool => match v with RBool _ => mret v | _ => conversion end
  | AFloat => match v with RFloat _ => mret v | _ => conversion end
  | AList e =>
      xs ← list_at v;
      ys ← for_each (validate_at e) xs;
      new_list ys
  | ASet e =>
      xs ← set_at v;
      ys ← for_each (validate_at e) xs;
      new_set ys
  | ADict k e =>
      items ← items_at v;
      items' ← validate_items_at (validate_at k) (validate_at e) items;
      d ← new_dict items';
      mret (RAddr d)
  | AOptional e =>
      match v with
      | RNone => mret RNone
      | _ => validate_at e v
      end
  | AModel mro fields =>
      given ← instance_or_items (hd "" mro) v;
      match given with
      | inl (mro', dict) => copy ← allocate (OModel mro' dict); mret (RAddr copy)
      | inr items =>
          match keywords_of_items items with
          | Some input =>
              init_at mro
                (map (fun f : declared =>
                        let '(name, a', d) := f in
                        {| fa_name := name; fa_validate := validate_at a';
                           fa_required := required_at a' d; fa_default := d |})
                     fields)
                input
          | None => raise (TypeError "keywords must be strings")
          end
      end
  | AObject cls =>
      match v with
      | RAddr p =>
          o ← deref p;
          match o with
          | OObject mro _ => if mem cls mro then mret v else conversion
          | _ => conversion
          end
      | _ => conversion
      end
  end.

Definition fields_at (fields : list declared) : list field_at :=
  map (fun f : declared =>
         let '(name, a, d) := f in
         {| fa_name := name; fa_validate := validate_at a;
            fa_required := required_at a d; fa_default := d |})
      fields.

(** The call [cls( **input)]. *)
Definition construct (cls : annotation) (input : keywords) : HM ref :=
  match cls with
  | AModel mro fields => init_at mro (fields_at fields) input
  | _ => raise (TypeError "not a model class")
  end.

(** [isinstance] as a validator, for the classes that are not models. *)
Definition object_ (cls : string) : ty :=
  {| validate v := if isinstance v cls then Some v else None;
     typed v :=
       match v with
       | PyObject mro _ => mem cls mro
       | _ => false
       end;
     allows_none := false |}.

(** The validator on values that an annotation stands for. *)
Fixpoint ty_of (a : annotation) : ty :=
  match a with
  | AInt => int_
  | AStr => str_
  | ABool => bool_
  | AFloat => float_
  | AList e => list_ (ty_of e)
  | ASet e => set_ (ty_of e)
  | ADict k e => dict_ (ty_of k) (ty_of e)
  | AOptional e => Optional (ty_of e)
  | AModel mro fields =>
      model {| cls_mro := mro;
               cls_fields :=
                 map (fun f : declared =>
                        let '(name, a', d) := f in
                        {| f_name := name; f_type := ty_of a';
                           f_default := option_map default_value d |})
                     fields;
               cls_config := BaseConfig |}
  | AObject cls => object_ cls
  end.
End Validation_at.

(** The annotations of the module.  Those of the imported classes are left
    open. *)
Class Annotations := {
  Embedding_annotation : annotation;
  Document_annotation : annotation;
  DocumentAccess_annotation : annotation
}.

Definition subclass_annotation (name : string) (base : annotation) (own : list declared)
  : annotation :=
  match base with
  | AModel mro fields => AModel (name :: mro) (fields ++ own)%list
  | _ => base
  end.

Definition BaseModel_annotation : annotation := AModel ["BaseModel"] [].

Section Models_at.
Context `{Pydantic} `{Annotations}.

Definition ChunkEmbedding_annotation : annotation :=
  subclass_annotation "ChunkEmbedding" BaseModel_annotation
    [ ("full_embedding", Embedding_annotation, None);
      ("mini_chunk_embeddings", AList Embedding_annotation, None) ].

Definition BaseChunk_annotation : annotation :=
  subclass_annotation "BaseChunk" BaseModel_annotation
    [ ("chunk_id", AInt, None);
      ("blurb", AStr, None);
      ("content", AStr, None);
      ("source_links", AOptional (ADict AInt AStr), None);
      ("section_continuation", ABool, None) ].

Definition DocAwareChunk_annotation : annotation :=
  subclass_annotation "DocAwareChunk" BaseChunk_annotation
    [ ("source_document", Document_annotation, None);
      ("title_prefix", AStr, None);
      ("metadata_suffix_semantic", AStr, None);
      ("metadata_suffix_keyword", AStr, None);
      ("mini_chunk_texts", AOptional (AList AStr), None);
      ("large_chunk_reference_ids", AList AInt, Some declared_empty_list) ].

Definition IndexChunk_annotation : annotation :=
  subclass_annotation "IndexChunk" DocAwareChunk_annotation
    [ ("embeddings", ChunkEmbedding_annotation, None);
      ("title_embedding", AOptional Embedding_annotation, None) ].

Definition DocMetadataAwareIndexChunk_annotation : annotation :=
  subclass_annotation "DocMetadataAwareIndexChunk" IndexChunk_annotation
    [ ("access", DocumentAccess_annotation, None);
      ("document_sets", ASet AStr, None);
      ("boost", AInt, None) ].

(** The imports as validators on values. *)
Definition imports_of (descriptor : pyval -> result string) : Imports :=
  {| Embedding := ty_of Embedding_annotation;
     Document := ty_of Document_annotation;
     DocumentAccess := ty_of DocumentAccess_annotation;
     Document_to_short_descriptor := descriptor |}.

(** [DocMetadataAwareIndexChunk.from_index_chunk], on the heap. *)
Definition from_index_chunk_at (cls : annotation) (depth : nat)
    (index_chunk access document_sets boost : ref) : HM ref :=
  index_chunk_data ← BaseModel_dict_at depth index_chunk;
  unpacked ← unpack index_chunk_data;
  input ← call_keywords unpacked
            [ ("access", access);
              ("document_sets", document_sets);
              ("boost", boost) ];
  construct cls input.

(** [self.name] *)
Definition getattr_at (self : ref) (name : string) : HM ref :=
  match self with
  | RAddr a =>
      o ← deref a;
      match o with
      | OModel _ dict =>
          fields ← deref dict;
          match fields with
          | ODict items =>
              match find (fun e => ref_eqb (fst e) (RStr name)) items with
              | Some e => mret (snd e)
              | None => raise (AttributeError name)
              end
          | _ => raise (AttributeError name)
          end
      | OObject _ attrs =>
          match keyword name attrs with
          | Some v => mret v
          | None => raise (AttributeError name)
          end
      | _ => raise (AttributeError name)
      end
  | _ => raise (AttributeError name)
  end.
End Models_at.

(** The value a reference stands for in a heap: the immutable value, or
    the object with the values of its parts. *)
Section Values.
Context {A B : Type} (f : A -> option B).

Fixpoint all_of (xs : list A) : option (list B) :=
  match xs with
  | [] => Some []
  | x :: xs' =>
      match f x, all_of xs' with
      | Some y, Some ys => Some (y :: ys)
      | _, _ => None
      end
  end.
End Values.

Fixpoint value_at (depth : nat) (h : heap) (v : ref) : option pyval :=
  match v with
  | RAddr a =>
      match depth with
      | 0 => None
      | S depth' =>
          let value := value_at depth' h in
          let items_value items :=
            all_of (fun e : ref * ref =>
                      match value (fst e), value (snd e) with
                      | Some k, Some x => Some (k, x)
                      | _, _ => None
                      end) items in
          let attrs_value (attrs : keywords) :=
            all_of (fun e => option_map (pair (fst e)) (value (snd e))) attrs in
          match h !! a with
          | Some (OList xs) => option_map PyList (all_of value xs)
          | Some (OSet xs) => option_map PySet (all_of value xs)
          | Some (ODict items) => option_map PyDict (items_value items)
          | Some (OModel mro dict) =>
              match h !! dict with
              | Some (ODict items) =>
                  match keywords_of_items items with
                  | Some attrs => option_map (PyModel mro) (attrs_value attrs)
                  | None => None
                  end
              | _ => None
              end
          | Some (OObject mro attrs) => option_map (PyObject mro) (attrs_value attrs)
          | None => None
          end
      end
  | _ => immutable v
  end.

(** A value put on the heap, each of its objects at an address of its
    own. *)
Fixpoint place (v : pyval) : HM ref :=
  match v with
  | PyNone => mret RNone
  | PyBool b => mret (RBool b)
  | PyInt z => mret (RInt z)
  | PyFloat f => mret (RFloat f)
  | PyStr s => mret (RStr s)
  | PyList xs => ys ← for_each place xs; a ← allocate (OList ys); mret (RAddr a)
  | PySet xs => ys ← for_each place xs; a ← allocate (OSet ys); mret (RAddr a)
  | PyDict items =>
      items' ← for_each (fun e => k ← place (fst e); x ← place (snd e); mret (k, x)) items;
      a ← allocate (ODict items');
      mret (RAddr a)
  | PyModel mro attrs =>
      attrs' ← for_each (fun e => x ← place (snd e); mret (RStr (fst e), x)) attrs;
      dict ← allocate (ODict attrs');
      a ← allocate (OModel mro dict);
      mret (RAddr a)
  | PyObject mro attrs =>
      attrs' ← for_each (fun e => x ← place (snd e); mret (fst e, x)) attrs;
      a ← allocate (OObject mro attrs');
      mret (RAddr a)
  end.

(** A computation that only reads the heap and adds objects to it. *)
Definition allocates_only {A} (m : HM A) : Prop :=
  forall h r h', m h = (r, h') -> h `prefix_of` h'.

(** The references an object holds, those of an object of another class
    apart: such an object is handed on as it is, and what it holds is its
    own. *)
Definition parts (o : object) : list ref :=
  match o with
  | OList xs | OSet xs => xs
  | ODict items => (map fst items ++ map snd items)%list
  | OModel _ dict => [RAddr dict]
  | OObject _ _ => []
  end.

Definition is_model (o : object) : bool :=
  match o with
  | OModel _ _ => true
  | _ => false
  end.

(** [made models n h v]: what [v] refers to was made at address [n] or
    later, and so were its parts, down to the immutable values and the
    objects of other classes.  With [models] unset there is no instance of
    a model among them. *)
Inductive made (models : bool) (n : nat) (h : heap) : ref -> Prop :=
| made_immutable v x : immutable v = Some x -> made models n h v
| made_handed_on a mro attrs :
    h !! a = Some (OObject mro attrs) -> made models n h (RAddr a)
| made_new a o :
    n <= a -> h !! a = Some o ->
    (is_model o = true -> models = true) ->
    (forall v, In v (parts o) -> made models n h v) ->
    made models n h (RAddr a).

(** What validation makes of values that [.dict()] has made is made
    anew. *)
Definition validates_anew (n : nat) (validate : ref -> HM ref) : Prop :=
  forall v h r h',
    validate v h = (Ok r, h') -> made false n h v -> n <= length h -> made true n h' r.

(** The sample environment by reference: the annotations of the sample
    imports, and a heap that holds the sample chunk, the public access
    descriptor and a set of document sets, each object at an address of
    its own. *)
Module Sample_heap.
#[local] Existing Instance Sample.pydantic.
#[local] Existing Instance Sample.imports.

Definition annotations : Annotations :=
  {| Embedding_annotation := AList AFloat;
     Document_annotation :=
       AModel ["Document"; "BaseModel"]
         [ ("id", AStr, None); ("semantic_identifier", AStr, None) ];
     DocumentAccess_annotation := AObject "DocumentAccess" |}.
#[local] Existing Instance annotations.

Definition recursion_limit : nat := 1000.

Definition placed : result (ref * ref * ref) * heap :=
  (index_chunk ← place Sample.index_chunk;
   access ← place Sample.public;
   document_sets ← place More_samples.document_sets;
   mret (index_chunk, access, document_sets)) [].

Definition before : heap := snd placed.
Definition index_chunk : ref := RAddr 8.
Definition access : ref := RAddr 11.
Definition document_sets : ref := RAddr 12.

(** [DocMetadataAwareIndexChunk.from_index_chunk(index_chunk, access,
    document_sets, 0)] on that heap. *)
Definition call : result ref * heap :=
  from_index_chunk_at DocMetadataAwareIndexChunk_annotation recursion_limit
    index_chunk access document_sets (RInt 0) before.

Definition after : heap := snd call.
Definition chunk : ref := RAddr 28.

(** [chunk.large_chunk_reference_ids.append(7)] *)
Definition append_to_chunk : HM unit :=
  ids ← getattr_at chunk "large_chunk_reference_ids";
  list_append ids (RInt 7).
End Sample_heap.

(** An [IndexChunk] whose [embeddings] is an instance of a subclass of
    [ChunkEmbedding], with a field of its own. *)
Module Subclass_samples.
#[local] Existing Instance Sample.pydantic.
#[local] Existing Instance Sample.imports.

Definition tagged_embedding : pyval :=
  PyModel ["TaggedEmbedding"; "ChunkEmbedding"; "BaseModel"]
    [ ("full_embedding", PyList [Sample.f0_1; Sample.f0_2]);
      ("mini_chunk_embeddings", PyList []);
      ("tag", PyStr "v2") ].

Definition tagged_input : kwargs :=
  setitem Sample.index_chunk_input "embeddings" tagged_embedding.

Definition tagged_chunk : pyval := instance_of IndexChunk tagged_input.
End Subclass_samples.

(** * Properties *)

(** ** Validation of values that are already of the annotated type *)

Lemma names_eqb_eq xs ys : names_eqb xs ys = true -> xs = ys.
Proof.
  revert ys; induction xs as [|x xs IH]; intros [|y ys]; simpl; try discriminate; auto.
  intros [Hxy Hrest]%andb_prop.
  apply String.eqb_eq in Hxy. f_equal; auto.
Qed.

Lemma names_eqb_refl xs : names_eqb xs xs = true.
Proof. induction xs; simpl; auto. rewrite String.eqb_refl; auto. Qed.

Lemma assoc_app_l name kw kw' v :
  assoc name kw = Some v -> assoc name (kw ++ kw')%list = Some v.
Proof.
  induction kw as [|[k x] kw IH]; simpl; [discriminate|].
  destruct (String.eqb k name); auto.
Qed.

Lemma assoc_app_r name kw kw' :
  assoc name kw = None -> assoc name (kw ++ kw')%list = assoc name kw'.
Proof.
  induction kw as [|[k x] kw IH]; simpl; auto.
  destruct (String.eqb k name); [discriminate|auto].
Qed.

Lemma assoc_None name kw : ~ In name (keys kw) <-> assoc name kw = None.
Proof.
  induction kw as [|[k x] kw IH]; simpl; [tauto|].
  destruct (String.eqb_spec k name) as [->|Hne]; split.
  - intros Hn; exfalso; apply Hn; auto.
  - discriminate.
  - intros Hn. apply IH. tauto.
  - intros Hn [Hk|Hin]; [congruence|]. apply IH in Hn. contradiction.
Qed.

Lemma assoc_In name v kw :
  NoDup (keys kw) -> In (name, v) kw -> assoc name kw = Some v.
Proof.
  induction kw as [|[k x] kw IH]; simpl; [tauto|].
  intros Hnd [Heq|Hin].
  - inversion Heq; subst. now rewrite String.eqb_refl.
  - apply NoDup_cons in Hnd as [Hk Hnd].
    destruct (String.eqb_spec k name) as [->|Hne]; auto.
    exfalso. apply Hk. apply list_elem_of_In. apply (in_map fst _ _ Hin).
Qed.

Lemma mem_In name names : mem name names = true <-> In name names.
Proof.
  unfold mem. rewrite existsb_exists. split.
  - intros (x & Hin & ->%String.eqb_eq). exact Hin.
  - intros Hin. exists name. split; [exact Hin | apply String.eqb_refl].
Qed.

Section Soundness.
Context `{Pydantic}.

Lemma scalar_sound target of_type :
  (forall v, of_type v = true -> dict_value v = v) ->
  sound (scalar target of_type).
Proof.
  intros Hflat v Hv. simpl in *. rewrite (Hflat v Hv), Hv. auto.
Qed.

Lemma int_sound : sound int_.
Proof. apply scalar_sound. intros [] ?; simpl in *; congruence. Qed.

Lemma str_sound : sound str_.
Proof. apply scalar_sound. intros [] ?; simpl in *; congruence. Qed.

Lemma bool_sound : sound bool_.
Proof. apply scalar_sound. intros [] ?; simpl in *; congruence. Qed.

Lemma float_sound : sound float_.
Proof. apply scalar_sound. intros [] ?; simpl in *; congruence. Qed.

Lemma validate_each_typed a xs :
  sound a -> forallb (typed a) xs = true ->
  validate_each a xs = Some xs /\ validate_each a (map dict_value xs) = Some xs.
Proof.
  intros Ha. induction xs as [|x xs IH]; simpl; [auto|].
  intros [Hx Hxs]%andb_prop. destruct (Ha x Hx) as [-> ->].
  destruct (IH Hxs) as [-> ->]. auto.
Qed.

Lemma list_sound a : sound a -> sound (list_ a).
Proof.
  intros Ha [] Hv; simpl in Hv; try discriminate.
  destruct (validate_each_typed a xs Ha Hv) as [H1 H2].
  simpl. rewrite H1, H2. auto.
Qed.

Lemma set_add_all xs : forall acc,
  (forall y x, In y acc -> In x xs -> pyval_eqb y x = false) ->
  distinct xs = true ->
  fold_left set_add xs acc = (acc ++ xs)%list.
Proof.
  induction xs as [|x xs IH]; intros acc Hacc Hd; simpl.
  - now rewrite app_nil_r.
  - simpl in Hd. apply andb_prop in Hd as [Hx Hd].
    apply negb_true_iff in Hx.
    assert (existsb (fun y => pyval_eqb y x) acc = false) as Hnew.
    { apply not_true_is_false. rewrite existsb_exists.
      intros (y & Hy & Hyx). rewrite (Hacc y x Hy) in Hyx; [discriminate | now left]. }
    unfold set_add at 2. rewrite Hnew.
    rewrite IH; [now rewrite <- app_assoc | | exact Hd].
    intros y x' [Hy|Hy]%in_app_or Hx'.
    + apply Hacc; [exact Hy | now right].
    + destruct Hy as [<-|[]].
      apply not_true_is_false. intros Heq.
      assert (existsb (pyval_eqb x) xs = true) as Hex
        by (apply existsb_exists; exists x'; auto).
      congruence.
Qed.

Lemma set_sound a : sound a -> sound (set_ a).
Proof.
  intros Ha [] Hv; simpl in Hv; try discriminate.
  apply andb_prop in Hv as [Hty Hd].
  destruct (validate_each_typed a xs Ha Hty) as [H1 _].
  simpl. rewrite H1. simpl.
  rewrite set_add_all; auto. intros y x [].
Qed.

Lemma dict_setitem_all k a items : forall acc,
  (forall e key, In e acc -> In key (map fst items) -> pyval_eqb (fst e) key = false) ->
  distinct (map fst items) = true ->
  forallb (fun e => typed k (fst e) && typed a (snd e)) items = true ->
  sound k -> sound a ->
  validate_items k a items acc = Some (acc ++ items)%list
  /\ validate_items k a (map (fun '(key, x) => (key, dict_value x)) items) acc
     = Some (acc ++ items)%list.
Proof.
  induction items as [|[key x] items IH]; intros acc Hacc Hd Hty Hk Ha; simpl.
  - now rewrite app_nil_r.
  - simpl in Hd, Hty.
    apply andb_prop in Hd as [Hx Hd]. apply negb_true_iff in Hx.
    apply andb_prop in Hty as [[Hkey Hval]%andb_prop Hty].
    destruct (Hk key Hkey) as [-> _]. destruct (Ha x Hval) as [-> ->].
    assert (dict_setitem acc key x = (acc ++ [(key, x)])%list) as ->.
    { unfold dict_setitem.
      replace (existsb (fun e => pyval_eqb (fst e) key) acc) with false; [reflexivity|].
      symmetry. apply not_true_is_false. rewrite existsb_exists.
      intros (e & He & Hek). rewrite (Hacc e key He) in Hek; [discriminate | now left]. }
    replace (acc ++ (key, x) :: items)%list with ((acc ++ [(key, x)]) ++ items)%list
      by now rewrite <- app_assoc.
    apply IH; auto.
    intros e key' [He|He]%in_app_or Hkey'.
    + apply Hacc; [exact He | now right].
    + destruct He as [<-|[]]. simpl.
      apply not_true_is_false. intros Heq.
      assert (existsb (pyval_eqb key) (map fst items) = true) as Hex
        by (apply existsb_exists; exists key'; auto).
      congruence.
Qed.

Lemma dict_sound k a : sound k -> sound a -> sound (dict_ k a).
Proof.
  intros Hk Ha [] Hv; simpl in Hv; try discriminate.
  apply andb_prop in Hv as [Hty Hd].
  destruct (dict_setitem_all k a items [] ) as [H1 H2]; auto.
  { intros e key []. }
  simpl. rewrite H1, H2. auto.
Qed.

Lemma dict_value_None v : dict_value v = PyNone -> v = PyNone.
Proof. destruct v; simpl; congruence. Qed.

Lemma Optional_sound a : sound a -> sound (Optional a).
Proof.
  intros Ha v Hv.
  destruct (pyval_eqb v PyNone) eqn:Hnone.
  - destruct v; try discriminate. simpl. auto.
  - assert (typed a v = true) as Hty by (destruct v; auto; discriminate).
    destruct (Ha v Hty) as [H1 H2].
    assert (dict_value v <> PyNone) as Hdv
      by (intros ->%dict_value_None; discriminate).
    split; simpl.
    + destruct v; auto; discriminate.
    + destruct (dict_value v); auto; congruence.
Qed.
End Soundness.

(** ** Construction *)

Section Construction.
Context `{Pydantic}.

Lemma validate_model_values fs input values :
  Forall2 (fun f kv => fst kv = f_name f /\ field_value input f (snd kv)) fs values ->
  validate_model fs input = (values, []).
Proof.
  induction 1 as [|f [k v] fs values [Hk Hv] _ IH]; simpl; [reflexivity|].
  rewrite IH. simpl in Hk, Hv. subst k. unfold field_value in Hv.
  destruct (assoc (f_name f) input).
  - now rewrite Hv.
  - destruct Hv as [-> ->]. reflexivity.
Qed.

Lemma validate_model_inv fs input : forall values,
  validate_model fs input = (values, []) ->
  Forall2 (fun f kv => fst kv = f_name f /\ field_value input f (snd kv)) fs values.
Proof.
  induction fs as [|f fs IH]; simpl; intros values Hvm.
  - inversion Hvm. constructor.
  - destruct (validate_model fs input) as [values' errors'].
    unfold field_value.
    destruct (assoc (f_name f) input) as [x|] eqn:Hx.
    + destruct (validate (f_type f) x) as [v|] eqn:Hv; inversion Hvm; subst.
      constructor; [|now apply IH]. simpl. now rewrite Hx.
    + destruct (field_required f) eqn:Hreq; inversion Hvm; subst.
      constructor; [|now apply IH]. simpl. now rewrite Hx.
Qed.

(** A required field that is not among the inputs is reported. *)
Lemma validate_model_missing fs input f :
  In f fs -> field_required f = true -> assoc (f_name f) input = None ->
  In (f_name f, missing) (snd (validate_model fs input)).
Proof.
  intros Hin Hreq Hnone. induction fs as [|g fs IH]; simpl; [contradiction|].
  destruct (validate_model fs input) as [values errors]. simpl in IH.
  destruct Hin as [->|Hin].
  - rewrite Hnone, Hreq. now left.
  - specialize (IH Hin).
    destruct (assoc (f_name g) input) as [x|].
    + destruct (validate (f_type g) x); simpl; auto.
    + destruct (field_required g); simpl; auto.
Qed.

Lemma init_values cls input values :
  Forall2 (fun f kv => fst kv = f_name f /\ field_value input f (snd kv))
    (cls_fields cls) values ->
  init cls input = Ok (PyModel (cls_mro cls) values).
Proof.
  intros Hvals. unfold init. now rewrite (validate_model_values _ _ _ Hvals).
Qed.

Lemma init_inv cls input self :
  init cls input = Ok self ->
  exists values,
    self = PyModel (cls_mro cls) values
    /\ Forall2 (fun f kv => fst kv = f_name f /\ field_value input f (snd kv))
         (cls_fields cls) values.
Proof.
  unfold init. destruct (validate_model (cls_fields cls) input) as [values errors] eqn:Hvm.
  destruct errors; [|discriminate]. intros [= <-].
  exists values. split; [reflexivity | now apply validate_model_inv].
Qed.

(** Constructing from inputs that fit every field succeeds, and stores
    every supplied value as it was given. *)
Lemma init_fits cls input :
  Forall (fun f => sound (f_type f)) (cls_fields cls) ->
  forallb (fits input) (cls_fields cls) = true ->
  init cls input = Ok (instance_of cls input).
Proof.
  intros Hsound Hfits. apply init_values.
  induction (cls_fields cls) as [|f fs IH]; simpl; constructor.
  - split; [reflexivity|]. simpl.
    apply Forall_inv in Hsound. simpl in Hfits.
    apply andb_prop in Hfits as [Hf _]. unfold fits in Hf.
    unfold field_value, supplied.
    destruct (assoc (f_name f) input) as [x|].
    + now destruct (Hsound x Hf).
    + apply negb_true_iff in Hf. auto.
  - apply IH; [now apply Forall_inv_tail in Hsound|].
    simpl in Hfits. now apply andb_prop in Hfits as [_ ?].
Qed.

Lemma typed_attrs_Forall2 fs : forall attrs,
  typed_attrs fs attrs = true ->
  Forall2 (fun f kv => fst kv = f_name f /\ typed (f_type f) (snd kv) = true) fs attrs.
Proof.
  induction fs as [|f fs IH]; intros [|[k v] attrs]; simpl; try discriminate.
  - constructor.
  - intros [[Hk Hv]%andb_prop Hrest]%andb_prop.
    apply String.eqb_eq in Hk. constructor; auto.
Qed.

Lemma typed_attrs_keys fs attrs :
  typed_attrs fs attrs = true -> keys attrs = map f_name fs.
Proof.
  intros Hty%typed_attrs_Forall2.
  induction Hty as [|f [k v] fs attrs [Hk _] _ IH]; simpl; [reflexivity|].
  simpl in Hk. now rewrite Hk, <- IH.
Qed.

Lemma kwargs_of_items_dict attrs :
  kwargs_of_items (map (fun '(k, x) => (PyStr k, dict_value x)) attrs)
  = Some (map (fun '(k, x) => (k, dict_value x)) attrs).
Proof.
  induction attrs as [|[k x] attrs IH]; simpl; [reflexivity|]. now rewrite IH.
Qed.

Lemma assoc_dict_value name attrs :
  assoc name (map (fun '(k, x) => (k, dict_value x)) attrs)
  = option_map dict_value (assoc name attrs).
Proof.
  induction attrs as [|[k x] attrs IH]; simpl; [reflexivity|].
  destruct (String.eqb k name); auto.
Qed.

Lemma field_values_dict fs rest input :
  (forall k v, In (k, v) rest -> assoc k input = Some (dict_value v)) ->
  Forall (fun f => sound (f_type f)) fs ->
  Forall2 (fun f kv => fst kv = f_name f /\ typed (f_type f) (snd kv) = true) fs rest ->
  Forall2 (fun f kv => fst kv = f_name f /\ field_value input f (snd kv)) fs rest.
Proof.
  intros Hget Hsound Hty. revert Hget Hsound.
  induction Hty as [|f [k v] fs rest [Hk Hv] _ IH]; intros Hget Hsound;
    constructor.
  - split; [exact Hk|]. simpl in *. subst k.
    unfold field_value. rewrite (Hget (f_name f) v); [|now left].
    apply Forall_inv in Hsound. now destruct (Hsound v Hv).
  - apply IH; [|now apply Forall_inv_tail in Hsound].
    intros k' v' Hin. apply Hget. now right.
Qed.

Lemma assoc_typed_attrs fs attrs k v :
  NoDup (map f_name fs) ->
  typed_attrs fs attrs = true ->
  In (k, v) attrs -> assoc k attrs = Some v.
Proof.
  intros Hnd Hty Hin. apply assoc_In; [|exact Hin].
  now rewrite (typed_attrs_keys _ _ Hty).
Qed.

(** The [.dict()] of a typed instance, given back to the constructor of
    its class, makes an equal instance. *)
Lemma init_dict cls attrs :
  NoDup (field_names cls) ->
  Forall (fun f => sound (f_type f)) (cls_fields cls) ->
  typed_attrs (cls_fields cls) attrs = true ->
  init cls (map (fun '(k, x) => (k, dict_value x)) attrs)
  = Ok (PyModel (cls_mro cls) attrs).
Proof.
  intros Hnd Hsound Hty. apply init_values.
  apply field_values_dict; [|exact Hsound|now apply typed_attrs_Forall2].
  intros k v Hin. rewrite assoc_dict_value.
  now rewrite (assoc_typed_attrs _ _ _ _ Hnd Hty Hin).
Qed.

Lemma fields_get (P : field -> pyval -> Prop) fs attrs f :
  NoDup (map f_name fs) ->
  Forall2 (fun g kv => fst kv = f_name g /\ P g (snd kv)) fs attrs ->
  In f fs ->
  exists v, assoc (f_name f) attrs = Some v /\ P f v.
Proof.
  intros Hnd HF Hin.
  assert (keys attrs = map f_name fs) as Hkeys.
  { clear Hnd Hin. induction HF as [|g [k w] fs attrs [Hk _] _ IH]; simpl; [reflexivity|].
    simpl in Hk. now rewrite Hk, <- IH. }
  assert (exists v, In (f_name f, v) attrs /\ P f v) as (v & Hv & HP).
  { clear Hnd Hkeys.
    induction HF as [|g [k w] fs attrs [Hk Hw] _ IH]; [contradiction|].
    destruct Hin as [->|Hin].
    - exists w. simpl in Hk. subst k. split; [now left | exact Hw].
    - destruct (IH Hin) as (v & Hv & HP). exists v. split; [now right | exact HP]. }
  exists v. split; [|exact HP].
  apply assoc_In; [now rewrite Hkeys | exact Hv].
Qed.

(** A typed instance has every field of its class, with a value of the
    field's type. *)
Lemma typed_attrs_get fs attrs f :
  NoDup (map f_name fs) ->
  typed_attrs fs attrs = true ->
  In f fs ->
  exists v, assoc (f_name f) attrs = Some v /\ typed (f_type f) v = true.
Proof.
  intros Hnd Hty%typed_attrs_Forall2 Hin.
  exact (fields_get (fun g v => typed (f_type g) v = true) fs attrs f Hnd Hty Hin).
Qed.

Lemma model_sound cls :
  cls_mro cls <> [] ->
  NoDup (field_names cls) ->
  Forall (fun f => sound (f_type f)) (cls_fields cls) ->
  sound (model cls).
Proof.
  intros Hmro Hnd Hsound [] Hv; simpl in Hv; try discriminate.
  apply andb_prop in Hv as [Hcls Hty]. apply names_eqb_eq in Hcls. subst mro.
  assert (mem (cls_name cls) (cls_mro cls) = true) as Hinst.
  { apply mem_In. unfold cls_name. destruct (cls_mro cls); [congruence | now left]. }
  split.
  - simpl. now rewrite Hinst.
  - simpl. rewrite kwargs_of_items_dict, init_dict; auto.
Qed.
End Construction.

(** ** The classes of the module *)

Lemma distinct_names_NoDup names : distinct_names names = true -> NoDup names.
Proof.
  induction names as [|x rest IH]; simpl; [constructor|].
  intros [Hx Hrest]%andb_prop. apply NoDup_cons. split; [|auto].
  rewrite list_elem_of_In, <- mem_In. now destruct (mem x rest).
Qed.

Lemma keys_dict_value attrs :
  keys (map (fun '(k, x) => (k, dict_value x)) attrs) = keys attrs.
Proof.
  unfold keys. rewrite map_map. apply map_ext. now intros [k x].
Qed.

Lemma assoc_Some_key name kw : In name (keys kw) -> exists v, assoc name kw = Some v.
Proof.
  intros Hin. destruct (assoc name kw) as [v|] eqn:Hv; [eauto|].
  apply assoc_None in Hv. contradiction.
Qed.

(** Membership in a list that is written out. *)
Ltac in_list := simpl; repeat first [left; reflexivity | right].

Section Module_facts.
Context `{Pydantic} `{Imports}.

Lemma IndexChunk_field_names :
  field_names IndexChunk
  = [ "chunk_id"; "blurb"; "content"; "source_links"; "section_continuation";
      "source_document"; "title_prefix"; "metadata_suffix_semantic";
      "metadata_suffix_keyword"; "mini_chunk_texts"; "large_chunk_reference_ids";
      "embeddings"; "title_embedding" ].
Proof. reflexivity. Qed.

Lemma DocMetadataAwareIndexChunk_fields :
  cls_fields DocMetadataAwareIndexChunk
  = (cls_fields IndexChunk ++
     [ attr "access" DocumentAccess;
       attr "document_sets" (set_ str_);
       attr "boost" int_ ])%list.
Proof. reflexivity. Qed.

Lemma module_field_names_NoDup cls :
  In cls (BaseModel :: module_classes) -> NoDup (field_names cls).
Proof.
  simpl. intros Hin. apply distinct_names_NoDup.
  repeat (destruct Hin as [<-|Hin]; [reflexivity|]). contradiction.
Qed.

Context `{!ImportsOk}.

Lemma ChunkEmbedding_sound : sound (model ChunkEmbedding).
Proof.
  apply model_sound; [discriminate | | ].
  - apply module_field_names_NoDup. in_list.
  - pose proof Embedding_sound.
    repeat first [apply List.Forall_nil | apply List.Forall_cons]; simpl;
      auto using list_sound.
Qed.

Lemma module_fields_sound cls :
  In cls module_classes -> Forall (fun f => sound (f_type f)) (cls_fields cls).
Proof.
  pose proof Embedding_sound. pose proof Document_sound.
  pose proof DocumentAccess_sound. pose proof ChunkEmbedding_sound.
  simpl. intros Hin.
  repeat (destruct Hin as [<-|Hin];
          [repeat first [apply List.Forall_nil | apply List.Forall_cons]; simpl;
           auto using int_sound, str_sound, bool_sound, list_sound, set_sound,
                      dict_sound, Optional_sound|]).
  contradiction.
Qed.

(** A typed instance of a class of the module, taken apart. *)
Lemma typed_model_inv cls v :
  typed (model cls) v = true ->
  exists attrs, v = PyModel (cls_mro cls) attrs
             /\ typed_attrs (cls_fields cls) attrs = true.
Proof.
  destruct v; simpl; try discriminate.
  intros [->%names_eqb_eq Hty]%andb_prop. eauto.
Qed.
End Module_facts.

(** ** [from_index_chunk] *)

Section From_index_chunk.
Context `{Pydantic} `{Imports} `{!ImportsOk}.

(** What [from_index_chunk] returns for a typed [IndexChunk]: the fields
    of the chunk, followed by the three given values. *)
Lemma from_index_chunk_value attrs access document_sets boost :
  typed_attrs (cls_fields IndexChunk) attrs = true ->
  typed DocumentAccess access = true ->
  typed (set_ str_) document_sets = true ->
  typed int_ boost = true ->
  from_index_chunk DocMetadataAwareIndexChunk
    (PyModel (cls_mro IndexChunk) attrs) access document_sets boost
  = Ok (PyModel (cls_mro DocMetadataAwareIndexChunk)
          (attrs ++ [ ("access", access);
                      ("document_sets", document_sets);
                      ("boost", boost) ])%list).
Proof.
  intros Hty Hacc Hsets Hboost.
  pose proof (typed_attrs_keys _ _ Hty) as Hkeys.
  fold (field_names IndexChunk) in Hkeys. rewrite IndexChunk_field_names in Hkeys.
  assert (NoDup (field_names IndexChunk)) as Hnd
    by (apply module_field_names_NoDup; in_list).
  unfold from_index_chunk. simpl BaseModel_dict.
  change (?x ≫= ?k) with (bind x k). simpl bind at 1.
  unfold call_kwargs. rewrite keys_dict_value, Hkeys.
  simpl existsb. cbv iota. simpl bind.
  apply init_values. rewrite DocMetadataAwareIndexChunk_fields.
  apply Forall2_app.
  - apply field_values_dict.
    + intros k v Hin. apply assoc_app_l. rewrite assoc_dict_value.
      now rewrite (assoc_typed_attrs _ _ _ _ Hnd Hty Hin).
    + apply module_fields_sound. in_list.
    + now apply typed_attrs_Forall2.
  - assert (forall name, ~ In name (keys attrs) ->
              assoc name (map (fun '(k, x) => (k, dict_value x)) attrs) = None) as Hnot.
    { intros name Hname. apply assoc_None. now rewrite keys_dict_value. }
    rewrite Hkeys in Hnot.
    repeat constructor; simpl; unfold field_value; simpl f_name;
      (rewrite assoc_app_r; [simpl | apply Hnot; simpl; intuition discriminate]).
    + apply DocumentAccess_sound, Hacc.
    + now apply (set_sound str_ str_sound).
    + now apply int_sound.
Qed.

(** C1, as the code has it.  [from_index_chunk], applied to an instance
    of [IndexChunk] itself whose fields hold values of exactly their
    annotated types, an access descriptor, a set of document sets and a
    boost, returns a chunk in which each of the thirteen fields of the
    [IndexChunk] has the value it has in the argument, and [access],
    [document_sets] and [boost] are the given values.  An instance of a
    subclass is not covered: the method raises on a
    [DocMetadataAwareIndexChunk], and does not keep a field that holds an
    instance of a subclass of the annotated class. *)
Theorem from_index_chunk_extends ic access document_sets boost :
  typed (model IndexChunk) ic = true ->
  typed DocumentAccess access = true ->
  typed (set_ str_) document_sets = true ->
  typed int_ boost = true ->
  exists chunk,
    from_index_chunk DocMetadataAwareIndexChunk ic access document_sets boost = Ok chunk
    /\ (forall name,
          In name [ "chunk_id"; "blurb"; "content"; "source_links";
                    "section_continuation"; "source_document"; "title_prefix";
                    "metadata_suffix_semantic"; "metadata_suffix_keyword";
                    "mini_chunk_texts"; "large_chunk_reference_ids";
                    "embeddings"; "title_embedding" ] ->
          exists v, getattr ic name = Ok v /\ getattr chunk name = Ok v)
    /\ getattr chunk "access" = Ok access
    /\ getattr chunk "document_sets" = Ok document_sets
    /\ getattr chunk "boost" = Ok boost.
Proof.
  intros (attrs & -> & Hty)%typed_model_inv Hacc Hsets Hboost.
  eexists. split; [now apply from_index_chunk_value|].
  pose proof (typed_attrs_keys _ _ Hty) as Hkeys.
  fold (field_names IndexChunk) in Hkeys. rewrite IndexChunk_field_names in Hkeys.
  assert (forall name, ~ In name (keys attrs) -> assoc name attrs = None) as Hnot
    by (intros name; apply assoc_None).
  rewrite Hkeys in Hnot.
  split; [|repeat split; unfold getattr;
             (rewrite assoc_app_r; [reflexivity | apply Hnot; simpl; intuition discriminate])].
  intros name Hname. rewrite <- Hkeys in Hname.
  destruct (assoc_Some_key _ _ Hname) as [v Hv]. exists v.
  unfold getattr. now rewrite (assoc_app_l _ _ _ _ Hv), Hv.
Qed.
End From_index_chunk.

(** ** [to_short_descriptor] *)

Lemma typed_int_inv `{Pydantic} v : typed int_ v = true -> exists z, v = PyInt z.
Proof. destruct v; simpl; try discriminate. eauto. Qed.

Lemma typed_str_inv `{Pydantic} v : typed str_ v = true -> exists s, v = PyStr s.
Proof. destruct v; simpl; try discriminate. eauto. Qed.

(** A call on an object of the store reads the object and runs the
    method on it. *)
Lemma call_to_short_descriptor_eq `{Pydantic} `{Imports} (σ : store) self chunk :
  σ !! self = Some chunk ->
  call_to_short_descriptor self σ = (to_short_descriptor chunk, σ).
Proof.
  intros Hself. unfold call_to_short_descriptor, mbind, M_bind, load, lift.
  rewrite Hself. now destruct (to_short_descriptor chunk).
Qed.

Section To_short_descriptor.
Context `{Pydantic} `{Imports} `{!ImportsOk}.

(** A typed instance of a class of the module has each field of the
    class, with a value of the field's type. *)
Lemma typed_getattr cls f chunk :
  In cls module_classes ->
  In f (cls_fields cls) ->
  typed (model cls) chunk = true ->
  exists v, getattr chunk (f_name f) = Ok v /\ typed (f_type f) v = true.
Proof.
  intros Hcls Hf (attrs & -> & Hty)%typed_model_inv.
  assert (NoDup (map f_name (cls_fields cls))) as Hnd
    by (apply module_field_names_NoDup; right; exact Hcls).
  destruct (typed_attrs_get _ _ f Hnd Hty Hf) as (v & Hv & Htv).
  exists v. simpl. now rewrite Hv.
Qed.

(** C3.  On a typed instance of [DocAwareChunk] or of a subclass,
    [to_short_descriptor] returns, and what it returns is
    ["Chunk ID: '"], the decimal chunk id, ["'; "] and the document's own
    short descriptor.  Called on the object in a store, it returns this
    string and leaves the store as it was, so a second call returns the
    same string. *)
Theorem to_short_descriptor_returns cls chunk :
  In cls doc_aware_classes ->
  typed (model cls) chunk = true ->
  exists chunk_id source_document descriptor,
    getattr chunk "chunk_id" = Ok (PyInt chunk_id)
    /\ getattr chunk "source_document" = Ok source_document
    /\ Document_to_short_descriptor source_document = Ok descriptor
    /\ to_short_descriptor chunk
       = Ok ("Chunk ID: '" ++ str_of_int chunk_id ++ "'; " ++ descriptor)
    /\ forall (σ : store) self, σ !! self = Some chunk ->
         (first ← call_to_short_descriptor self;
          second ← call_to_short_descriptor self;
          mret (first, second)) σ
         = (Ok ("Chunk ID: '" ++ str_of_int chunk_id ++ "'; " ++ descriptor,
                "Chunk ID: '" ++ str_of_int chunk_id ++ "'; " ++ descriptor), σ).
Proof.
  intros Hcls Hty.
  assert (In cls module_classes) as Hmod
    by (simpl in Hcls; decompose [or] Hcls; subst; try contradiction; in_list).
  destruct (typed_getattr cls (attr "chunk_id" int_) chunk Hmod) as (v & Hid & Hv);
    [simpl in Hcls; decompose [or] Hcls; subst; try contradiction; in_list | exact Hty |].
  destruct (typed_getattr cls (attr "source_document" Document) chunk Hmod)
    as (d & Hdoc & Hd);
    [simpl in Hcls; decompose [or] Hcls; subst; try contradiction; in_list | exact Hty |].
  simpl in Hid, Hv, Hdoc, Hd.
  destruct (typed_int_inv v Hv) as [z ->].
  destruct (Document_to_short_descriptor_returns d Hd) as [s Hs].
  assert (to_short_descriptor chunk = Ok ("Chunk ID: '" ++ str_of_int z ++ "'; " ++ s)) as Hcall.
  { unfold to_short_descriptor. rewrite Hid. simpl. rewrite Hdoc. simpl. now rewrite Hs. }
  exists z, d, s. repeat split; auto.
  intros σ self Hself.
  unfold mbind, M_bind.
  rewrite (call_to_short_descriptor_eq _ _ _ Hself), Hcall. cbv beta iota.
  now rewrite (call_to_short_descriptor_eq _ _ _ Hself), Hcall.
Qed.
End To_short_descriptor.

(** ** [from_model] *)

Section From_model.
Context `{Pydantic}.

(** C4.  For a configuration record with the six attributes of the
    spec, [from_model] returns a detail whose [model_name], [model_dim],
    [normalize], [query_prefix], [passage_prefix] and [cloud_provider_id]
    are the record's, and whose [cloud_provider_name] is [None]. *)
Theorem from_model_copies m :
  is_EmbeddingModel m = true ->
  exists detail,
    from_model EmbeddingModelDetail m = Ok detail
    /\ (forall name,
          In name [ "model_name"; "model_dim"; "normalize"; "query_prefix";
                    "passage_prefix"; "cloud_provider_id" ] ->
          exists v, getattr m name = Ok v /\ getattr detail name = Ok v)
    /\ getattr detail "cloud_provider_name" = Ok PyNone.
Proof.
  unfold is_EmbeddingModel, EmbeddingModel_columns.
  cbn [forallb f_name f_type attr]. intros Hm.
  repeat (apply andb_prop in Hm as [? Hm]). clear Hm.
  unfold from_model.
  repeat match goal with
         | Hx : match getattr m ?n with Ok _ => _ | Raise _ => false end = true |- _ =>
             let v := fresh "v" in let Hv := fresh "Hv" in
             destruct (getattr m n) as [v|] eqn:Hv; [|discriminate]
         end.
  cbn [mbind result_bind bind].
  erewrite init_fits.
  - eexists. split; [reflexivity|]. split; [|reflexivity].
    intros name Hname. simpl in Hname.
    repeat (destruct Hname as [<-|Hname];
            [eexists; split; [eassumption | reflexivity]|]).
    contradiction.
  - repeat first [apply List.Forall_nil | apply List.Forall_cons];
      cbn [f_type attr attr_default];
      auto using int_sound, str_sound, bool_sound, Optional_sound.
  - cbn -[typed Optional str_ int_ bool_]. unfold fits.
    cbn -[typed Optional str_ int_ bool_].
    repeat match goal with Hx : typed _ _ = true |- _ => rewrite Hx; clear Hx end.
    reflexivity.
Qed.
End From_model.

(** ** Construction of the classes of the module *)

Section Fields.
Context `{Pydantic}.

(** Every field of a constructed instance holds what [validate_model]
    made of the input for it. *)
Lemma init_getattr cls input self f :
  NoDup (field_names cls) ->
  init cls input = Ok self ->
  In f (cls_fields cls) ->
  exists v, getattr self (f_name f) = Ok v /\ field_value input f v.
Proof.
  intros Hnd (values & -> & HF)%init_inv Hin.
  destruct (fields_get _ _ _ f Hnd HF Hin) as (v & Hv & HP).
  exists v. simpl. now rewrite Hv.
Qed.

Lemma getattr_instance_of cls input f :
  NoDup (field_names cls) ->
  In f (cls_fields cls) ->
  getattr (instance_of cls input) (f_name f) = Ok (supplied input f).
Proof.
  intros Hnd Hin. unfold instance_of, getattr.
  rewrite (assoc_In (f_name f) (supplied input f)); [reflexivity| |].
  - unfold keys. rewrite map_map. exact Hnd.
  - apply in_map_iff. now exists f.
Qed.
End Fields.

Section Construction_of_chunks.
Context `{Pydantic} `{Imports}.

Lemma chunk_id_and_content_required cls :
  In cls chunk_classes ->
  In "chunk_id" (required_fields cls) /\ In "content" (required_fields cls).
Proof.
  simpl. intros Hin.
  repeat (destruct Hin as [<-|Hin]; [split; in_list|]). contradiction.
Qed.

(** C8.  Constructing an instance of a class of the module from inputs
    that lack a required field raises a validation error that reports the
    field as missing; no instance is made. *)
Theorem missing_required_field_raises cls name input :
  In cls module_classes ->
  In name (required_fields cls) ->
  assoc name input = None ->
  exists errors,
    init cls input = Raise (ValidationError errors)
    /\ In (name, missing) errors.
Proof.
  intros _ Hreq Hnone.
  apply in_map_iff in Hreq as (f & <- & Hf).
  apply filter_In in Hf as [Hin Hreq].
  pose proof (validate_model_missing _ input f Hin Hreq Hnone) as Hmiss.
  unfold init. destruct (validate_model (cls_fields cls) input) as [values errors].
  simpl in Hmiss. exists errors. split; [|exact Hmiss].
  destruct errors; [contradiction | reflexivity].
Qed.

(** C9.  An instance of [DocAwareChunk], or of a subclass, constructed
    from inputs that do not supply [large_chunk_reference_ids] has the
    empty list there. *)
Theorem large_chunk_reference_ids_defaults_empty cls input chunk :
  In cls doc_aware_classes ->
  assoc "large_chunk_reference_ids" input = None ->
  init cls input = Ok chunk ->
  getattr chunk "large_chunk_reference_ids" = Ok (PyList []).
Proof.
  intros Hcls Hnone Hinit.
  assert (In cls (BaseModel :: module_classes)) as Hmod
    by (simpl in Hcls; decompose [or] Hcls; subst; try contradiction; in_list).
  destruct (init_getattr cls input chunk
              (attr_default "large_chunk_reference_ids" (list_ int_) (PyList []))
              (module_field_names_NoDup cls Hmod) Hinit)
    as (v & Hv & Hval).
  { simpl in Hcls; decompose [or] Hcls; subst; try contradiction; in_list. }
  unfold field_value in Hval. simpl in Hval, Hv. rewrite Hnone in Hval.
  destruct Hval as [_ ->]. exact Hv.
Qed.

Context `{!ImportsOk}.

(** Constructing an [IndexChunk] from inputs that fit its fields
    succeeds, and each field holds the supplied value. *)
Lemma IndexChunk_init_fits input f :
  forallb (fits input) (cls_fields IndexChunk) = true ->
  In f (cls_fields IndexChunk) ->
  exists chunk,
    init IndexChunk input = Ok chunk
    /\ getattr chunk (f_name f) = Ok (supplied input f).
Proof.
  intros Hfits Hin. exists (instance_of IndexChunk input). split.
  - apply init_fits; [|exact Hfits]. apply module_fields_sound. in_list.
  - apply getattr_instance_of; [|exact Hin].
    apply module_field_names_NoDup. in_list.
Qed.

(** C2, as the code has it.  The constructor of [IndexChunk] does not
    compare the number of mini-chunk embeddings with the number of
    mini-chunk texts: from inputs that fit the fields it makes a chunk
    that holds [mini_chunk_texts] and [embeddings] as they were supplied,
    whatever their lengths. *)
Theorem IndexChunk_keeps_texts_and_embeddings input texts embeddings :
  forallb (fits input) (cls_fields IndexChunk) = true ->
  assoc "mini_chunk_texts" input = Some texts ->
  assoc "embeddings" input = Some embeddings ->
  exists chunk,
    init IndexChunk input = Ok chunk
    /\ getattr chunk "mini_chunk_texts" = Ok texts
    /\ getattr chunk "embeddings" = Ok embeddings.
Proof.
  intros Hfits Htexts Hemb.
  destruct (IndexChunk_init_fits input (attr "mini_chunk_texts" (Optional (list_ str_))) Hfits)
    as (chunk & Hinit & Hget1); [in_list|].
  destruct (IndexChunk_init_fits input (attr "embeddings" (model ChunkEmbedding)) Hfits)
    as (chunk' & Hinit' & Hget2); [in_list|].
  rewrite Hinit in Hinit'. injection Hinit' as <-.
  unfold supplied in Hget1, Hget2. simpl f_name in Hget1, Hget2.
  rewrite Htexts in Hget1. rewrite Hemb in Hget2.
  exists chunk. auto.
Qed.

(** C7, as the code has it.  The constructor of [IndexChunk] does not
    look at [title_prefix] when it takes [title_embedding]: from inputs
    that fit the fields it makes a chunk that holds both as they were
    supplied, so the title embedding is [None] when [None] was supplied
    and present when one was supplied, with an empty prefix too. *)
Theorem IndexChunk_keeps_title_embedding input title_prefix title_embedding :
  forallb (fits input) (cls_fields IndexChunk) = true ->
  assoc "title_prefix" input = Some title_prefix ->
  assoc "title_embedding" input = Some title_embedding ->
  exists chunk,
    init IndexChunk input = Ok chunk
    /\ getattr chunk "title_prefix" = Ok title_prefix
    /\ getattr chunk "title_embedding" = Ok title_embedding.
Proof.
  intros Hfits Hprefix Hemb.
  destruct (IndexChunk_init_fits input (attr "title_prefix" str_) Hfits)
    as (chunk & Hinit & Hget1); [in_list|].
  destruct (IndexChunk_init_fits input (attr "title_embedding" (Optional Embedding)) Hfits)
    as (chunk' & Hinit' & Hget2); [in_list|].
  rewrite Hinit in Hinit'. injection Hinit' as <-.
  unfold supplied in Hget1, Hget2. simpl f_name in Hget1, Hget2.
  rewrite Hprefix in Hget1. rewrite Hemb in Hget2.
  exists chunk. auto.
Qed.
End Construction_of_chunks.

(** ** The embedded text *)

Lemma strip_prefix_app p text : strip_prefix p (p ++ text) = Some text.
Proof.
  induction p as [|a p IH]; simpl; [reflexivity|].
  now rewrite Ascii.eqb_refl.
Qed.

Lemma length_append (s t : string) :
  String.length (s ++ t) = String.length s + String.length t.
Proof. induction s as [|a s IH]; simpl; [reflexivity|]. now rewrite IH. Qed.

Lemma strip_suffix_app s text : strip_suffix s (text ++ s) = Some text.
Proof.
  induction text as [|a text IH].
  - simpl. destruct s; simpl; [reflexivity|].
    now rewrite Ascii.eqb_refl, String.eqb_refl.
  - change (String a text ++ s) with (String a (text ++ s)).
    cbn [strip_suffix].
    destruct (String.eqb_spec (String a (text ++ s)) s) as [Heq|_].
    + apply (f_equal String.length) in Heq. simpl in Heq.
      rewrite length_append in Heq. lia.
    + now rewrite IH.
Qed.

Section Embedded_text.
Context `{Pydantic} `{Imports}.

Lemma typed_getattr_str cls name chunk :
  In cls module_classes ->
  In (attr name str_) (cls_fields cls) ->
  typed (model cls) chunk = true ->
  exists s, getattr chunk name = Ok (PyStr s) /\ getattr_str chunk name = Ok s.
Proof.
  intros Hcls Hf Hty.
  destruct (typed_getattr cls (attr name str_) chunk Hcls Hf Hty) as (v & Hv & Htv).
  destruct (typed_str_inv v Htv) as [s ->]. simpl in Hv.
  exists s. split; [exact Hv|]. unfold getattr_str. now rewrite Hv.
Qed.

(** C5.  For a typed instance of [DocAwareChunk] or of a subclass, and
    either search path: the text made of [title_prefix], [content] and the
    metadata suffix of the path, with that prefix and that suffix removed,
    is [content]. *)
Theorem embedded_text_round_trip cls path chunk :
  In cls doc_aware_classes ->
  typed (model cls) chunk = true ->
  exists content text,
    getattr chunk "content" = Ok (PyStr content)
    /\ embedded_text path chunk = Ok text
    /\ stripped_text path chunk text = Ok content.
Proof.
  intros Hcls Hty.
  assert (In cls module_classes) as Hmod
    by (simpl in Hcls; decompose [or] Hcls; subst; try contradiction; in_list).
  assert (forall name,
            In name [ "title_prefix"; "content"; "metadata_suffix_semantic";
                      "metadata_suffix_keyword" ] ->
            exists s, getattr chunk name = Ok (PyStr s) /\ getattr_str chunk name = Ok s)
    as Hstr.
  { intros name Hname. apply (typed_getattr_str cls); [exact Hmod | | exact Hty].
    simpl in Hcls, Hname.
    decompose [or] Hcls; subst; try contradiction;
      decompose [or] Hname; subst; try contradiction; in_list. }
  destruct (Hstr "title_prefix") as (p & _ & Hp); [in_list|].
  destruct (Hstr "content") as (c & Hc & Hc'); [in_list|].
  destruct (Hstr (metadata_suffix_field path)) as (m & _ & Hm);
    [destruct path; in_list|].
  exists c, (p ++ c ++ m). split; [exact Hc|].
  unfold embedded_text, stripped_text. rewrite Hp, Hc', Hm.
  cbn [mbind result_bind bind mret result_ret]. split; [reflexivity|].
  unfold removeprefix, removesuffix.
  now rewrite strip_prefix_app, strip_suffix_app.
Qed.
End Embedded_text.

(** ** Objects in the store *)

Section Frame.
Context `{Pydantic} `{Imports}.

Lemma lift_extends {A} (r : result A) : extends (lift r).
Proof. intros σ r' σ' [= _ <-]. reflexivity. Qed.

Lemma load_extends l : extends (load l).
Proof. intros σ r σ'. unfold load. destruct (σ !! l); intros [= _ <-]; reflexivity. Qed.

Lemma alloc_extends v : extends (alloc v).
Proof. intros σ r σ' [= _ <-]. now apply prefix_app_r. Qed.

Lemma bind_extends {A B} (m : M A) (k : A -> M B) :
  extends m -> (forall a, extends (k a)) -> extends (m ≫= k).
Proof.
  intros Hm Hk σ r σ'. unfold mbind, M_bind.
  destruct (m σ) as [[a|e] σ1] eqn:Hrun.
  - intros Hrun'. etransitivity; [exact (Hm _ _ _ Hrun) | exact (Hk _ _ _ _ Hrun')].
  - intros [= _ <-]. exact (Hm _ _ _ Hrun).
Qed.

Lemma operation_extends op σ : σ `prefix_of` store_after op σ.
Proof.
  destruct op; simpl;
    match goal with |- _ `prefix_of` snd (?m σ) =>
      assert (extends m) as Hm; [|destruct (m σ) eqn:Hrun; exact (Hm _ _ _ Hrun)]
    end;
    repeat first [apply bind_extends; [|intros ?] | apply load_extends
                 | apply lift_extends | apply alloc_extends].
Qed.

Lemma assoc_setitem attrs name value other :
  assoc other (setitem attrs name value)
  = if String.eqb name other then Some value else assoc other attrs.
Proof.
  induction attrs as [|[k v] attrs IH]; simpl.
  - reflexivity.
  - destruct (String.eqb_spec k name) as [->|Hk]; simpl.
    + now destruct (String.eqb name other).
    + rewrite IH. destruct (String.eqb_spec k other) as [->|_]; [|reflexivity].
      destruct (String.eqb_spec name other) as [->|_]; [contradiction | reflexivity].
Qed.

Lemma type_of_inv obj cls :
  type_of obj = Ok cls ->
  In cls module_classes /\ exists mro attrs, obj = PyModel mro attrs.
Proof.
  unfold type_of. destruct obj as [| | | | | | | |[|name mro] attrs|]; try discriminate.
  destruct (find _ module_classes) as [c|] eqn:Hfind; [|discriminate].
  intros [= <-]. apply find_some in Hfind as [Hin _]. eauto.
Qed.

Lemma module_classes_config cls : In cls module_classes -> cls_config cls = BaseConfig.
Proof.
  simpl. intros Hin.
  repeat (destruct Hin as [<-|Hin]; [reflexivity|]). contradiction.
Qed.

(** What an assignment to a declared field of an object of the module
    does: the object has the value there afterwards, and its other fields
    are as before. *)
Lemma assign_declared_field (σ : store) self obj cls name value :
  σ !! self = Some obj ->
  type_of obj = Ok cls ->
  In name (field_names cls) ->
  exists obj',
    assign self name value σ = (Ok tt, <[self := obj']> σ)
    /\ getattr obj' name = Ok value
    /\ forall other, other <> name -> getattr obj' other = getattr obj other.
Proof.
  intros Hself Hcls Hname.
  destruct (type_of_inv _ _ Hcls) as (Hmod & mro & attrs & ->).
  exists (PyModel mro (setitem attrs name value)). split; [|split].
  - unfold assign, mbind, M_bind, load, lift, update. rewrite Hself.
    unfold BaseModel_setattr. rewrite Hcls. cbn [mbind result_bind bind].
    rewrite (module_classes_config _ Hmod). cbn [BaseConfig extra_allow allow_mutation
      frozen validate_assignment negb andb orb].
    apply mem_In in Hname. now rewrite Hname.
  - simpl. now rewrite assoc_setitem, String.eqb_refl.
  - intros other Hother. simpl. rewrite assoc_setitem.
    destruct (String.eqb_spec name other) as [->|_]; [contradiction | reflexivity].
Qed.

(** C6, as the code has it.  No operation of the module (constructing an
    instance, [to_short_descriptor], [from_index_chunk], [from_model])
    changes an object that is already in the store: whatever the
    operation and whether it returns or raises, the object at every
    address is afterwards what it was before.  The objects are not frozen:
    an assignment to a declared field of an object of the module is
    carried out, and the object has the assigned value there afterwards. *)
Theorem objects_change_by_assignment_only (σ : store) l obj :
  σ !! l = Some obj ->
  (forall op, store_after op σ !! l = Some obj)
  /\ (forall cls name value,
        type_of obj = Ok cls ->
        In name (field_names cls) ->
        exists obj',
          assign l name value σ = (Ok tt, <[l := obj']> σ)
          /\ <[l := obj']> σ !! l = Some obj'
          /\ getattr obj' name = Ok value).
Proof.
  intros Hl. split.
  - intros op. exact (prefix_lookup_Some _ _ _ _ Hl (operation_extends op σ)).
  - intros cls name value Hcls Hname.
    destruct (assign_declared_field σ l obj cls name value Hl Hcls Hname)
      as (obj' & Hrun & Hget & _).
    exists obj'. repeat split; [exact Hrun | | exact Hget].
    apply list_lookup_insert_eq. now apply lookup_lt_Some in Hl.
Qed.
End Frame.

(** ** Objects by reference *)

Lemma annotation_nested_ind (P : annotation -> Prop) :
  P AInt -> P AStr -> P ABool -> P AFloat ->
  (forall e, P e -> P (AList e)) ->
  (forall e, P e -> P (ASet e)) ->
  (forall k e, P k -> P e -> P (ADict k e)) ->
  (forall e, P e -> P (AOptional e)) ->
  (forall mro fields, Forall (fun f : declared => P (snd (fst f))) fields ->
                      P (AModel mro fields)) ->
  (forall cls, P (AObject cls)) ->
  forall a, P a.
Proof.
  intros HInt HStr HBool HFloat HList HSet HDict HOpt HModel HObj.
  refine (fix IH (a : annotation) : P a :=
            match a with
            | AInt => HInt | AStr => HStr | ABool => HBool | AFloat => HFloat
            | AList e => HList e (IH e)
            | ASet e => HSet e (IH e)
            | ADict k e => HDict k e (IH k) (IH e)
            | AOptional e => HOpt e (IH e)
            | AModel mro fields =>
                HModel mro fields
                  ((fix go (fs : list declared) : Forall (fun f : declared => P (snd (fst f))) fs :=
                      match fs with
                      | [] => @List.Forall_nil _ _
                      | f :: fs' =>
                          @List.Forall_cons _ _ f fs'
                            (match f as f0 return P (snd (fst f0)) with
                             | (p, d) => match p as p0 return P (snd (fst (p0, d))) with
                                         | (name, a') => IH a'
                                         end
                             end)
                            (go fs')
                      end) fields)
            | AObject cls => HObj cls
            end).
Qed.

Lemma raise_allocates {A} e : allocates_only (@raise A e).
Proof. intros h r h' [= _ <-]. reflexivity. Qed.

Lemma mret_allocates {A} (a : A) : allocates_only (mret a).
Proof. intros h r h' [= _ <-]. reflexivity. Qed.

Lemma deref_allocates a : allocates_only (deref a).
Proof. intros h r h'. unfold deref. destruct (h !! a); intros [= _ <-]; reflexivity. Qed.

Lemma allocate_allocates o : allocates_only (allocate o).
Proof. intros h r h' [= _ <-]. now apply prefix_app_r. Qed.

Lemma bind_allocates {A B} (m : HM A) (k : A -> HM B) :
  allocates_only m -> (forall a, allocates_only (k a)) -> allocates_only (m ≫= k).
Proof.
  intros Hm Hk h r h'. unfold mbind, HM_bind.
  destruct (m h) as [[a|e] h1] eqn:Hrun.
  - intros Hrun'. etransitivity; [exact (Hm _ _ _ Hrun) | exact (Hk _ _ _ _ Hrun')].
  - intros [= _ <-]. exact (Hm _ _ _ Hrun).
Qed.

Lemma for_each_allocates {A B} (f : A -> HM B) xs :
  (forall x, In x xs -> allocates_only (f x)) -> allocates_only (for_each f xs).
Proof.
  induction xs as [|x xs IH]; intros Hf; simpl.
  - apply mret_allocates.
  - apply bind_allocates; [apply Hf; now left|intros y].
    apply bind_allocates; [apply IH; intros; apply Hf; now right|intros ys].
    apply mret_allocates.
Qed.

Create HintDb allocates.
#[local] Hint Resolve raise_allocates mret_allocates deref_allocates allocate_allocates
  : allocates.

Ltac allocates :=
  repeat first
    [ solve [auto with allocates]
    | match goal with
      | |- allocates_only (_ ≫= _) => apply bind_allocates; [|intros ?]
      | |- allocates_only (for_each _ _) => apply for_each_allocates; intros ? ?
      | |- allocates_only (match ?x with _ => _ end) => destruct x
      | |- allocates_only (if ?x then _ else _) => destruct x
      | |- allocates_only conversion => apply raise_allocates
      end ].

Lemma hashable_allocates v : allocates_only (hashable v).
Proof. unfold hashable. allocates. Qed.
#[local] Hint Resolve hashable_allocates : allocates.

Lemma new_list_allocates xs : allocates_only (new_list xs).
Proof. unfold new_list. allocates. Qed.

Lemma new_set_allocates xs : allocates_only (new_set xs).
Proof. unfold new_set. allocates. Qed.

Lemma new_dict_allocates items : allocates_only (new_dict items).
Proof. unfold new_dict. allocates. Qed.
#[local] Hint Resolve new_list_allocates new_set_allocates new_dict_allocates : allocates.

Lemma rebuild_items_allocates get items :
  (forall v, allocates_only (get v)) -> allocates_only (rebuild_items get items).
Proof. intros Hget. unfold rebuild_items. allocates. Qed.
#[local] Hint Resolve rebuild_items_allocates : allocates.

Lemma model_dict_allocates get dict :
  (forall v, allocates_only (get v)) -> allocates_only (model_dict get dict).
Proof. intros Hget. unfold model_dict. allocates. Qed.
#[local] Hint Resolve model_dict_allocates : allocates.

Lemma get_value_allocates depth v : allocates_only (get_value depth v).
Proof.
  revert v. induction depth as [|depth IH]; intros v; simpl; allocates.
Qed.
#[local] Hint Resolve get_value_allocates : allocates.

Lemma BaseModel_dict_at_allocates depth self : allocates_only (BaseModel_dict_at depth self).
Proof. unfold BaseModel_dict_at. allocates. Qed.

Lemma unpack_allocates d : allocates_only (unpack d).
Proof. unfold unpack. allocates. Qed.

Lemma call_keywords_allocates unpacked explicit :
  allocates_only (call_keywords unpacked explicit).
Proof. unfold call_keywords. allocates. Qed.

Lemma list_at_allocates v : allocates_only (list_at v).
Proof. unfold list_at. allocates. Qed.

Lemma set_at_allocates v : allocates_only (set_at v).
Proof. unfold set_at. allocates. Qed.

Lemma items_at_allocates v : allocates_only (items_at v).
Proof. unfold items_at. allocates. Qed.
#[local] Hint Resolve BaseModel_dict_at_allocates unpack_allocates call_keywords_allocates
  list_at_allocates set_at_allocates items_at_allocates : allocates.

Lemma instance_or_items_allocates cls v : allocates_only (instance_or_items cls v).
Proof. unfold instance_or_items. allocates. Qed.

Lemma default_at_allocates d : allocates_only (default_at d).
Proof. unfold default_at. allocates. Qed.

Lemma attempt_allocates m : allocates_only m -> allocates_only (attempt m).
Proof.
  intros Hm h r h'. unfold attempt.
  destruct (m h) as [[v|[]] h1] eqn:Hrun; intros [= _ <-]; exact (Hm _ _ _ Hrun).
Qed.
#[local] Hint Resolve instance_or_items_allocates default_at_allocates attempt_allocates
  : allocates.

Lemma validate_field_at_allocates f input :
  (forall v, allocates_only (fa_validate f v)) -> allocates_only (validate_field_at f input).
Proof. intros Hf. unfold validate_field_at. allocates. Qed.
#[local] Hint Resolve validate_field_at_allocates : allocates.

Lemma validate_model_at_allocates fs input :
  Forall (fun f => forall v, allocates_only (fa_validate f v)) fs ->
  allocates_only (validate_model_at fs input).
Proof.
  induction 1 as [|f fs Hf _ IH]; simpl; allocates.
Qed.
#[local] Hint Resolve validate_model_at_allocates : allocates.

Lemma init_at_allocates mro fs input :
  Forall (fun f => forall v, allocates_only (fa_validate f v)) fs ->
  allocates_only (init_at mro fs input).
Proof. intros Hfs. unfold init_at. allocates. Qed.

Lemma validate_items_at_allocates k a items :
  (forall v, allocates_only (k v)) -> (forall v, allocates_only (a v)) ->
  allocates_only (validate_items_at k a items).
Proof.
  intros Hk Ha. induction items as [|[key x] items IH]; simpl; allocates.
Qed.
#[local] Hint Resolve init_at_allocates validate_items_at_allocates : allocates.

Section Frame_at.
Context `{Pydantic}.

Lemma validate_at_allocates a : forall v, allocates_only (validate_at a v).
Proof.
  induction a as [| | | |e IH|e IH|k e IHk IHe|e IH|mro fields IH|cls]
    using annotation_nested_ind; intros v; simpl.
  1-8: allocates.
  - allocates.
    all: apply init_at_allocates; apply List.Forall_map.
    all:
    eapply List.Forall_impl; [|exact IH]. intros [[name a'] d] Ha'. exact Ha'.
  - allocates.
Qed.

Lemma fields_at_allocates fields :
  Forall (fun f => forall v, allocates_only (fa_validate f v)) (fields_at fields).
Proof.
  unfold fields_at. apply List.Forall_map, List.Forall_forall.
  intros [[name a] d] _. apply validate_at_allocates.
Qed.

Lemma construct_allocates cls input : allocates_only (construct cls input).
Proof.
  unfold construct. destruct cls; try apply raise_allocates.
  apply init_at_allocates, fields_at_allocates.
Qed.

Lemma from_index_chunk_at_allocates `{Annotations} cls depth index_chunk access document_sets boost :
  allocates_only (from_index_chunk_at cls depth index_chunk access document_sets boost).
Proof.
  unfold from_index_chunk_at. allocates. apply construct_allocates.
Qed.
End Frame_at.

Lemma made_prefix models n h h' v :
  h `prefix_of` h' -> made models n h v -> made models n h' v.
Proof.
  intros Hh. induction 1 as [v x Hx|a mro attrs Ha|a o Hn Ha Hm _ IH].
  - eapply made_immutable, Hx.
  - eapply made_handed_on, prefix_lookup_Some, Hh. exact Ha.
  - eapply made_new; [exact Hn | eapply prefix_lookup_Some, Hh; exact Ha | exact Hm | exact IH].
Qed.

Lemma made_le models n n' h v : n' <= n -> made models n h v -> made models n' h v.
Proof.
  intros Hn. induction 1 as [v x Hx|a mro attrs Ha|a o Hn' Ha Hm _ IH].
  - eapply made_immutable, Hx.
  - eapply made_handed_on, Ha.
  - eapply made_new; [lia | exact Ha | exact Hm | exact IH].
Qed.

Lemma made_models n h v : made false n h v -> made true n h v.
Proof.
  induction 1 as [v x Hx|a mro attrs Ha|a o Hn' Ha Hm _ IH].
  - eapply made_immutable, Hx.
  - eapply made_handed_on, Ha.
  - eapply made_new; [exact Hn' | exact Ha | reflexivity | exact IH].
Qed.

Lemma bind_Ok {A B} (m : HM A) (k : A -> HM B) h b h' :
  (m ≫= k) h = (Ok b, h') ->
  exists a h1, m h = (Ok a, h1) /\ k a h1 = (Ok b, h').
Proof.
  unfold mbind, HM_bind. destruct (m h) as [[a|e] h1]; [eauto | discriminate].
Qed.

Lemma mret_Ok {A} (a b : A) (h h' : heap) :
  (mret a : HM A) h = (Ok b, h') -> b = a /\ h' = h.
Proof. now intros [= <- <-]. Qed.

Lemma deref_Ok a h o h' : deref a h = (Ok o, h') -> h' = h /\ h !! a = Some o.
Proof. unfold deref. destruct (h !! a); [now intros [= <- <-] | discriminate]. Qed.

Lemma allocate_Ok o h a h' :
  allocate o h = (Ok a, h') -> a = length h /\ h' = (h ++ [o])%list.
Proof. now intros [= <- <-]. Qed.

Lemma lookup_allocated (h : heap) o : (h ++ [o])%list !! length h = Some o.
Proof. now apply list_lookup_middle. Qed.

Tactic Notation "step" hyp(Hrun) "as" simple_intropattern(a) ident(h) ident(Hr) :=
  apply bind_Ok in Hrun as (a & h & Hr & Hrun).

(** The elements, one after the other: what holds of an element in the
    heap it is met in holds of the result in the heap that is left. *)
Lemma for_each_Ok {A B} (f : A -> HM B) (P : heap -> A -> Prop) (Q : heap -> B -> Prop)
    xs h ys h' :
  for_each f xs h = (Ok ys, h') ->
  (forall x, In x xs -> allocates_only (f x)) ->
  (forall x h1 h2, h1 `prefix_of` h2 -> P h1 x -> P h2 x) ->
  (forall y h1 h2, h1 `prefix_of` h2 -> Q h1 y -> Q h2 y) ->
  (forall x h1 y h2, In x xs -> h `prefix_of` h1 -> f x h1 = (Ok y, h2) -> P h1 x -> Q h2 y) ->
  (forall x, In x xs -> P h x) ->
  forall y, In y ys -> Q h' y.
Proof.
  intros Hrun Hf HP HQ Hstep Hxs. revert h ys Hrun Hf Hstep Hxs.
  induction xs as [|x xs IH]; simpl; intros h ys Hrun Hf Hstep Hxs y Hy.
  - apply mret_Ok in Hrun as [-> _]. destruct Hy.
  - step Hrun as y0 h0 Hx. step Hrun as ys0 h1 Hrest. apply mret_Ok in Hrun as [-> ->].
    assert (h `prefix_of` h0) as Hh0 by (eapply Hf; [now left | exact Hx]).
    assert (h0 `prefix_of` h1) as Hh1.
    { eapply (for_each_allocates f xs); [|exact Hrest]. intros x' Hx'. apply Hf. now right. }
    destruct Hy as [<-|Hy].
    + eapply HQ; [exact Hh1|]. eapply Hstep; [now left | reflexivity | exact Hx |].
      apply Hxs. now left.
    + eapply (IH h0 ys0 Hrest); [| | |exact Hy].
      * intros; apply Hf; now right.
      * intros x' h2 y' h3 Hx' Hh2. apply Hstep; [now right | now transitivity h0].
      * intros x' Hx'. eapply HP; [exact Hh0|]. apply Hxs. now right.
Qed.

Lemma hashable_Ok v h u h' :
  hashable v h = (Ok u, h') -> h' = h /\ forall models n, made models n h v.
Proof.
  unfold hashable. destruct v; try (intros [= _ <-]; split; [reflexivity|];
    intros; eapply made_immutable; reflexivity).
  intros Hrun. step Hrun as o h0 Ho. apply deref_Ok in Ho as [-> Ha].
  destruct o; try discriminate. apply mret_Ok in Hrun as [_ ->].
  split; [reflexivity|]. intros. eapply made_handed_on, Ha.
Qed.

Lemma for_each_hashable_Ok xs h us h' :
  for_each hashable xs h = (Ok us, h') ->
  h' = h /\ forall x, In x xs -> forall models n, made models n h x.
Proof.
  revert h us. induction xs as [|x xs IH]; simpl; intros h us Hrun.
  - apply mret_Ok in Hrun as [_ ->]. split; [reflexivity | intros x []].
  - step Hrun as u h0 Hx. step Hrun as us0 h1 Hxs. apply mret_Ok in Hrun as [_ ->].
    apply hashable_Ok in Hx as [-> Hx]. apply IH in Hxs as [-> Hxs].
    split; [reflexivity|]. intros y [<-|Hy]; [exact Hx | now apply Hxs].
Qed.

Lemma In_set_add_at elems x y : In y (set_add_at elems x) -> In y elems \/ y = x.
Proof.
  unfold set_add_at. destruct (existsb _ elems); [now left|].
  rewrite in_app_iff. simpl. intuition.
Qed.

Lemma In_fold_set_add_at xs acc y :
  In y (fold_left set_add_at xs acc) -> In y acc \/ In y xs.
Proof.
  revert acc. induction xs as [|x xs IH]; simpl; intros acc Hy; [now left|].
  apply IH in Hy as [Hy|Hy]; [|now right; right].
  apply In_set_add_at in Hy as [Hy| ->]; [now left | right; now left].
Qed.

Lemma In_dict_setitem_at items k v e :
  In e (dict_setitem_at items k v) ->
  (In (fst e) (map fst items) \/ fst e = k) /\ (In (snd e) (map snd items) \/ snd e = v).
Proof.
  unfold dict_setitem_at. destruct (existsb _ items).
  - rewrite in_map_iff. intros (e' & <- & He').
    destruct (ref_eqb (fst e') k); simpl.
    + split; [left; now apply in_map | now right].
    + split; left; now apply in_map.
  - rewrite in_app_iff. simpl. intros [He|[<-|[]]].
    + split; left; now apply in_map.
    + split; now right.
Qed.

Lemma In_fold_dict_setitem_at items acc e :
  In e (fold_left (fun acc e => dict_setitem_at acc (fst e) (snd e)) items acc) ->
  (In (fst e) (map fst acc) \/ In (fst e) (map fst items))
  /\ (In (snd e) (map snd acc) \/ In (snd e) (map snd items)).
Proof.
  revert acc. induction items as [|[k v] items IH]; simpl; intros acc He.
  - split; left; now apply in_map.
  - apply IH in He as [Hk Hv]. split.
    + destruct Hk as [Hk|Hk]; [|now right; right].
      apply in_map_iff in Hk as (e' & <- & He').
      apply In_dict_setitem_at in He' as [[Hk| ->] _]; [now left | right; now left].
    + destruct Hv as [Hv|Hv]; [|now right; right].
      apply in_map_iff in Hv as (e' & <- & He').
      apply In_dict_setitem_at in He' as [_ [Hv| ->]]; [now left | right; now left].
Qed.

Lemma new_list_made models n xs h r h' :
  new_list xs h = (Ok r, h') ->
  n <= length h ->
  (forall x, In x xs -> made models n h x) ->
  made models n h' r.
Proof.
  unfold new_list. intros Hrun Hn Hxs. step Hrun as a h0 Ha.
  apply allocate_Ok in Ha as [-> ->]. apply mret_Ok in Hrun as [-> ->].
  eapply made_new; [exact Hn | apply lookup_allocated | discriminate |].
  intros x Hx. eapply made_prefix; [now apply prefix_app_r | now apply Hxs].
Qed.

Lemma new_set_made models n xs h r h' :
  new_set xs h = (Ok r, h') ->
  n <= length h ->
  made models n h' r.
Proof.
  unfold new_set. intros Hrun Hn. step Hrun as us h0 Hxs. step Hrun as a h1 Ha.
  apply for_each_hashable_Ok in Hxs as [-> Hxs].
  apply allocate_Ok in Ha as [-> ->]. apply mret_Ok in Hrun as [-> ->].
  eapply made_new; [exact Hn | apply lookup_allocated | discriminate |].
  simpl. intros x [[]|Hx]%In_fold_set_add_at.
  eapply made_prefix; [now apply prefix_app_r | now apply Hxs].
Qed.

Lemma new_dict_made models n items h d h' :
  new_dict items h = (Ok d, h') ->
  n <= length h ->
  (forall x, In x (map snd items) -> made models n h x) ->
  made models n h' (RAddr d).
Proof.
  unfold new_dict. intros Hrun Hn Hitems. step Hrun as us h0 Hkeys.
  apply for_each_hashable_Ok in Hkeys as [-> Hkeys].
  apply allocate_Ok in Hrun as [-> ->].
  eapply made_new; [exact Hn | apply lookup_allocated | discriminate |].
  simpl. intros x Hx. eapply made_prefix; [now apply prefix_app_r|].
  apply in_app_iff in Hx as [Hx|Hx]; apply in_map_iff in Hx as (e & <- & He);
    apply In_fold_dict_setitem_at in He as [Hk Hv].
  - destruct Hk as [[]|Hk]. now apply Hkeys.
  - destruct Hv as [[]|Hv]. now apply Hitems.
Qed.

Lemma made_parts models n h a o v :
  made models n h (RAddr a) -> h !! a = Some o -> In v (parts o) -> made models n h v.
Proof.
  intros Hmade Ho Hv.
  inversion Hmade as [? ? Hx|? mro attrs Ha|? o' Hn Ha Hm Hparts]; subst.
  - discriminate.
  - assert (Some o = Some (OObject mro attrs)) as [= ->] by (now transitivity (h !! a)).
    destruct Hv.
  - assert (Some o' = Some o) as [= ->] by (now transitivity (h !! a)).
    now apply Hparts.
Qed.

Lemma made_not_model n h a mro dict :
  made false n h (RAddr a) -> h !! a = Some (OModel mro dict) -> False.
Proof.
  intros Hmade Ho.
  inversion Hmade as [? ? Hx|? mro' attrs Ha|? o' Hn Ha Hm Hparts]; subst.
  - discriminate.
  - assert (Some (OObject mro' attrs) = Some (OModel mro dict)) as [=]
      by (now transitivity (h !! a)).
  - assert (Some o' = Some (OModel mro dict)) as [= ->] by (now transitivity (h !! a)).
    specialize (Hm eq_refl). discriminate.
Qed.

(** What [.dict()] and [_get_value] return is made anew, and has no
    instance of a model. *)
Lemma rebuild_items_made get items h d h' :
  (forall v, allocates_only (get v)) ->
  (forall v h1 r h2, get v h1 = (Ok r, h2) -> made false (length h1) h2 r) ->
  rebuild_items get items h = (Ok d, h') ->
  made false (length h) h' (RAddr d).
Proof.
  intros Hframe Hget Hrun. unfold rebuild_items in Hrun. step Hrun as items' h0 Hitems.
  assert (h `prefix_of` h0) as Hh0.
  { eapply (for_each_allocates _ items); [|exact Hitems]. intros; cbv beta; allocates. }
  eapply new_dict_made; [exact Hrun | now apply prefix_length |].
  intros x (e & <- & He)%in_map_iff.
  eapply (for_each_Ok _ (fun _ _ => True) (fun h1 e => made false (length h) h1 (snd e)));
    [exact Hitems | intros; cbv beta; allocates | auto | | | auto | exact He].
  - intros y h1 h2 Hh. now apply made_prefix.
  - intros e' h1 y h2 _ Hh1 Hrun' _. step Hrun' as y' h3 Hy'.
    apply mret_Ok in Hrun' as [-> ->].
    simpl. eapply made_le; [apply prefix_length, Hh1 | eapply Hget, Hy'].
Qed.

Lemma model_dict_made get dict h d h' :
  (forall v, allocates_only (get v)) ->
  (forall v h1 r h2, get v h1 = (Ok r, h2) -> made false (length h1) h2 r) ->
  model_dict get dict h = (Ok d, h') ->
  made false (length h) h' (RAddr d).
Proof.
  intros Hframe Hget Hrun. unfold model_dict in Hrun. step Hrun as fields h0 Hfields.
  apply deref_Ok in Hfields as [-> _]. destruct fields; try discriminate.
  now apply (rebuild_items_made get items).
Qed.

Lemma get_value_made depth v h r h' :
  get_value depth v h = (Ok r, h') -> made false (length h) h' r.
Proof.
  revert v h r h'. induction depth as [|depth IH]; intros v h r h'; simpl; [discriminate|].
  destruct v; try (intros [-> ->]%mret_Ok; eapply made_immutable; reflexivity).
  intros Hrun. step Hrun as o h0 Ho. apply deref_Ok in Ho as [-> Ha].
  destruct o as [xs|xs|items|mro dict|mro attrs].
  - step Hrun as ys h0 Hys.
    assert (h `prefix_of` h0) as Hh0.
    { eapply (for_each_allocates _ xs); [|exact Hys]. intros; apply get_value_allocates. }
    eapply new_list_made; [exact Hrun | now apply prefix_length |].
    eapply (for_each_Ok _ (fun _ _ => True) (fun h1 y => made false (length h) h1 y));
      [exact Hys | intros; apply get_value_allocates | auto | | | auto].
    + intros y h1 h2 Hh. now apply made_prefix.
    + intros x h1 y h2 _ Hh1 Hrun' _.
      eapply made_le; [apply prefix_length, Hh1 | eapply IH, Hrun'].
  - step Hrun as ys h0 Hys.
    assert (h `prefix_of` h0) as Hh0.
    { eapply (for_each_allocates _ xs); [|exact Hys]. intros; apply get_value_allocates. }
    eapply new_set_made; [exact Hrun | now apply prefix_length].
  - step Hrun as d h0 Hd. apply mret_Ok in Hrun as [-> ->].
    eapply rebuild_items_made; [apply get_value_allocates | exact IH | exact Hd].
  - step Hrun as d h0 Hd. apply mret_Ok in Hrun as [-> ->].
    eapply model_dict_made; [apply get_value_allocates | exact IH | exact Hd].
  - apply mret_Ok in Hrun as [-> ->]. eapply made_handed_on, Ha.
Qed.

Lemma BaseModel_dict_at_made depth self h d h' :
  BaseModel_dict_at depth self h = (Ok d, h') -> made false (length h) h' (RAddr d).
Proof.
  unfold BaseModel_dict_at. destruct self; try discriminate.
  intros Hrun. step Hrun as o h0 Ho. apply deref_Ok in Ho as [-> _].
  destruct o; try discriminate.
  eapply model_dict_made; [apply get_value_allocates | | exact Hrun].
  intros v h1 r h2. apply get_value_made.
Qed.

Lemma keywords_of_items_In items kw name v :
  keywords_of_items items = Some kw ->
  keyword name kw = Some v ->
  In v (map snd items).
Proof.
  revert kw. induction items as [|[k x] items IH]; simpl; intros kw.
  - intros [= <-]. discriminate.
  - destruct k; try discriminate.
    destruct (keywords_of_items items) as [kw'|]; [|discriminate].
    intros [= <-]. simpl. destruct (String.eqb s name).
    + intros [= <-]. now left.
    + intros Hv. right. now apply (IH kw').
Qed.

Lemma default_at_made n d h r h' :
  default_at d h = (Ok r, h') -> n <= length h -> made true n h' r.
Proof.
  unfold default_at. destruct d as [[]|].
  1,3: intros [-> ->]%mret_Ok _; eapply made_immutable; reflexivity.
  intros Hrun Hn. eapply new_list_made; [exact Hrun | exact Hn | intros x []].
Qed.

Lemma attempt_Ok m h r h' :
  attempt m h = (Ok (inl r), h') -> m h = (Ok r, h').
Proof.
  unfold attempt. destruct (m h) as [[v|[]] h1]; try discriminate.
  now intros [= <- <-].
Qed.

Lemma validate_model_at_made n fs input :
  Forall (fun f => forall v, allocates_only (fa_validate f v)) fs ->
  Forall (fun f => validates_anew n (fa_validate f)) fs ->
  forall h validated h',
    validate_model_at fs input h = (Ok validated, h') ->
    n <= length h ->
    forall name r,
      In (name, r) (fst validated) ->
      (forall v, keyword name input = Some v -> made false n h v) ->
      made true n h' r.
Proof.
  intros Hframe Hfs. induction fs as [|f fs IH]; simpl; intros h validated h' Hrun Hn name r Hin Hname.
  - apply mret_Ok in Hrun as [-> _]. destruct Hin.
  - apply Forall_cons in Hframe as [Hf Hframe]. apply Forall_cons in Hfs as [Hanew Hfs].
    specialize (IH Hframe Hfs).
    step Hrun as first h0 Hfirst. step Hrun as rest h1 Hrest.
    apply mret_Ok in Hrun as [-> ->].
    assert (h `prefix_of` h0) as Hh0
      by (eapply (validate_field_at_allocates f input Hf), Hfirst).
    assert (h0 `prefix_of` h1) as Hh1
      by (eapply (validate_model_at_allocates fs input Hframe), Hrest).
    assert (In (name, r) (fst rest) -> made true n h1 r) as Hothers.
    { intros Hin'. eapply (IH h0 rest h1 Hrest); [|exact Hin'|].
      - apply prefix_length in Hh0. lia.
      - intros v Hv. eapply made_prefix; [exact Hh0 | now apply Hname]. }
    destruct first as [v|e]; simpl in Hin; [|now apply Hothers].
    destruct Hin as [[= <- <-]|Hin]; [|now apply Hothers].
    eapply made_prefix; [exact Hh1|]. unfold validate_field_at in Hfirst.
    destruct (keyword (fa_name f) input) as [x|] eqn:Hx.
    + apply attempt_Ok in Hfirst. eapply Hanew; [exact Hfirst | now apply Hname | exact Hn].
    + destruct (fa_required f); [now apply mret_Ok in Hfirst as [[=] _]|].
      step Hfirst as d h2 Hd. apply mret_Ok in Hfirst as [[= <-] ->].
      eapply default_at_made; [exact Hd | exact Hn].
Qed.

(** With no error every field has its value, in declaration order. *)
Lemma validate_model_at_names fs input h validated h' :
  validate_model_at fs input h = (Ok validated, h') ->
  snd validated = [] ->
  map fst (fst validated) = map fa_name fs.
Proof.
  revert h validated h'. induction fs as [|f fs IH]; simpl; intros h validated h' Hrun.
  - now apply mret_Ok in Hrun as [-> _].
  - step Hrun as first h0 Hfirst. step Hrun as rest h1 Hrest.
    apply mret_Ok in Hrun as [-> ->].
    destruct first as [v|e]; simpl; [|discriminate].
    intros Herr. f_equal. eapply IH; [exact Hrest | exact Herr].
Qed.

Lemma init_at_made n mro fs input h r h' :
  Forall (fun f => forall v, allocates_only (fa_validate f v)) fs ->
  Forall (fun f => validates_anew n (fa_validate f)) fs ->
  init_at mro fs input h = (Ok r, h') ->
  n <= length h ->
  (forall name v, keyword name input = Some v -> made false n h v) ->
  made true n h' r.
Proof.
  intros Hframe Hfs Hrun Hn Hinput. unfold init_at in Hrun.
  step Hrun as validated h0 Hvalidated.
  destruct (snd validated) eqn:Herr; [|discriminate].
  step Hrun as dict h1 Hdict. step Hrun as self h2 Hself. apply mret_Ok in Hrun as [-> ->].
  apply allocate_Ok in Hdict as [-> ->]. apply allocate_Ok in Hself as [-> ->].
  assert (h `prefix_of` h0) as Hh0
    by (eapply (validate_model_at_allocates fs input Hframe), Hvalidated).
  apply prefix_length in Hh0 as Hlen.
  eapply made_new; [rewrite length_app; lia | apply lookup_allocated | reflexivity |].
  intros v [<-|[]].
  eapply made_prefix; [now apply prefix_app_r|].
  eapply made_new; [lia | apply lookup_allocated | discriminate |].
  intros v Hv. eapply made_prefix; [now apply prefix_app_r|].
  simpl in Hv. rewrite !map_map in Hv. apply in_app_iff in Hv as [Hv|Hv];
    apply in_map_iff in Hv as ([name x] & <- & Hx); simpl.
  - eapply made_immutable. reflexivity.
  - eapply (validate_model_at_made n fs input Hframe Hfs h validated h0 Hvalidated Hn
              name x Hx).
    apply Hinput.
Qed.

Lemma validate_items_at_made n k a items :
  (forall v, allocates_only (k v)) -> (forall v, allocates_only (a v)) ->
  validates_anew n a ->
  forall h items' h',
    validate_items_at k a items h = (Ok items', h') ->
    n <= length h ->
    (forall x, In x (map snd items) -> made false n h x) ->
    forall x, In x (map snd items') -> made true n h' x.
Proof.
  intros Hk Ha Hanew. induction items as [|[key x] items IH]; simpl;
    intros h items' h' Hrun Hn Hitems y Hy.
  - apply mret_Ok in Hrun as [-> _]. destruct Hy.
  - step Hrun as key' h0 Hkey. step Hrun as x' h1 Hx. step Hrun as rest h2 Hrest.
    apply mret_Ok in Hrun as [-> ->].
    assert (h `prefix_of` h0) as Hh0 by (eapply Hk, Hkey).
    assert (h0 `prefix_of` h1) as Hh1 by (eapply Ha, Hx).
    assert (h1 `prefix_of` h2) as Hh2
      by (eapply (validate_items_at_allocates k a items Hk Ha), Hrest).
    apply prefix_length in Hh0 as Hlen0. apply prefix_length in Hh1 as Hlen1.
    destruct Hy as [<-|Hy].
    + eapply made_prefix; [exact Hh2|]. eapply Hanew; [exact Hx | | lia].
      eapply made_prefix; [exact Hh0|]. apply Hitems. now left.
    + eapply (IH h1 rest h2 Hrest); [lia | | exact Hy].
      intros z Hz. eapply (made_prefix _ _ h); [now transitivity h0|]. apply Hitems. now right.
Qed.

Lemma list_at_Ok v h xs h' :
  list_at v h = (Ok xs, h') -> h' = h /\ exists a, v = RAddr a /\ h !! a = Some (OList xs).
Proof.
  unfold list_at. destruct v; try discriminate. intros Hrun. step Hrun as o h0 Ho.
  apply deref_Ok in Ho as [-> Ha]. destruct o; try discriminate.
  apply mret_Ok in Hrun as [-> ->]. eauto.
Qed.

Lemma set_at_Ok v h xs h' :
  set_at v h = (Ok xs, h') -> h' = h /\ exists a, v = RAddr a /\ h !! a = Some (OSet xs).
Proof.
  unfold set_at. destruct v; try discriminate. intros Hrun. step Hrun as o h0 Ho.
  apply deref_Ok in Ho as [-> Ha]. destruct o; try discriminate.
  apply mret_Ok in Hrun as [-> ->]. eauto.
Qed.

(** The items of a dict that [.dict()] has made: of the dict itself, which
    is no model. *)
Lemma items_at_Ok n v h items h' :
  items_at v h = (Ok items, h') ->
  made false n h v ->
  h' = h /\ exists a, v = RAddr a /\ h !! a = Some (ODict items).
Proof.
  unfold items_at. destruct v; try discriminate. intros Hrun Hv. step Hrun as o h0 Ho.
  apply deref_Ok in Ho as [-> Ha]. destruct o; try discriminate.
  - apply mret_Ok in Hrun as [-> ->]. eauto.
  - destruct (made_not_model _ _ _ _ _ Hv Ha).
Qed.

Section Validation_makes.
Context `{Pydantic}.

Lemma validate_at_made n a : validates_anew n (validate_at a).
Proof.
  induction a as [| | | |e IH|e IH|k e IHk IHe|e IH|mro fields IH|cls]
    using annotation_nested_ind; intros v h r h'; simpl.
  1-4: destruct v; try discriminate; intros [-> ->]%mret_Ok _ _;
       eapply made_immutable; reflexivity.
  - intros Hrun Hv Hn. step Hrun as xs h0 Hxs. step Hrun as ys h1 Hys.
    apply list_at_Ok in Hxs as [-> (p & -> & Hp)].
    assert (h `prefix_of` h1) as Hh1.
    { eapply (for_each_allocates _ xs); [|exact Hys]. intros; apply validate_at_allocates. }
    apply prefix_length in Hh1 as Hlen.
    eapply new_list_made; [exact Hrun | lia |].
    eapply (for_each_Ok _ (fun h1 x => made false n h1 x) (fun h1 y => made true n h1 y));
      [exact Hys | intros; apply validate_at_allocates | | | |].
    + intros x h2 h3 Hh. now apply made_prefix.
    + intros y h2 h3 Hh. now apply made_prefix.
    + intros x h2 y h3 _ Hh2 Hrun' Hx. eapply IH; [exact Hrun' | exact Hx |].
      apply prefix_length in Hh2. lia.
    + intros x Hx. eapply made_parts; [exact Hv | exact Hp | exact Hx].
  - intros Hrun Hv Hn. step Hrun as xs h0 Hxs. step Hrun as ys h1 Hys.
    apply set_at_Ok in Hxs as [-> (p & -> & Hp)].
    assert (h `prefix_of` h1) as Hh1.
    { eapply (for_each_allocates _ xs); [|exact Hys]. intros; apply validate_at_allocates. }
    apply prefix_length in Hh1 as Hlen.
    eapply new_set_made; [exact Hrun | lia].
  - intros Hrun Hv Hn. step Hrun as items h0 Hitems. step Hrun as items' h1 Hitems'.
    step Hrun as d h2 Hd. apply mret_Ok in Hrun as [-> ->].
    apply (items_at_Ok n) in Hitems as [-> (p & -> & Hp)]; [|exact Hv].
    assert (h `prefix_of` h1) as Hh1.
    { eapply (validate_items_at_allocates _ _ items); [| |exact Hitems'];
        intros; apply validate_at_allocates. }
    apply prefix_length in Hh1 as Hlen.
    eapply new_dict_made; [exact Hd | lia |].
    eapply (validate_items_at_made n _ _ items); [| | exact IHe | exact Hitems' | exact Hn |];
      try (intros; apply validate_at_allocates).
    intros x Hx. eapply made_parts; [exact Hv | exact Hp |].
    simpl. apply in_app_iff. now right.
  - destruct v; try apply IH.
    intros [-> ->]%mret_Ok _ _. eapply made_immutable. reflexivity.
  - intros Hrun Hv Hn. step Hrun as given h0 Hgiven.
    unfold instance_or_items in Hgiven. destruct v as [| | | | |p]; try discriminate.
    step Hgiven as o h1 Ho. apply deref_Ok in Ho as [-> Hp].
    assert (exists items, given = inr items /\ h0 = h /\ h !! p = Some (ODict items))
      as (items & -> & -> & Hitems).
    { assert ((its ← items_at (RAddr p); mret (inr its)) h = (Ok given, h0) ->
              exists items, given = inr items /\ h0 = h /\ h !! p = Some (ODict items))
        as Hcase.
      { intros Hrun'. step Hrun' as its h2 Hits.
        apply (items_at_Ok n) in Hits as [-> (q & [= <-] & Hq)]; [|exact Hv].
        apply mret_Ok in Hrun' as [-> ->]. eauto. }
      destruct o as [xs|xs|its|mro' dict|mro' attrs]; try (now apply Hcase).
      destruct (made_not_model _ _ _ _ _ Hv Hp). }
    destruct (keywords_of_items items) as [input|] eqn:Hinput; [|discriminate].
    eapply init_at_made; [| |exact Hrun | exact Hn |].
    + apply List.Forall_map, List.Forall_forall.
      intros [[name a'] d] _. apply validate_at_allocates.
    + apply List.Forall_map. eapply List.Forall_impl; [|exact IH].
      intros [[name a'] d] Ha'. exact Ha'.
    + intros name x Hx. eapply made_parts; [exact Hv | exact Hitems |].
      simpl. apply in_app_iff. right. eapply keywords_of_items_In; [exact Hinput | exact Hx].
  - destruct v as [| | | | |p]; try discriminate. intros Hrun Hv Hn. step Hrun as o h0 Ho.
    apply deref_Ok in Ho as [-> Hp]. destruct o; try discriminate.
    destruct (mem cls mro); [|discriminate]. apply mret_Ok in Hrun as [-> ->].
    eapply made_handed_on, Hp.
Qed.

Lemma fields_at_made n fields :
  Forall (fun f => validates_anew n (fa_validate f)) (fields_at fields).
Proof.
  unfold fields_at. apply List.Forall_map, List.Forall_forall.
  intros [[name a] d] _. apply validate_at_made.
Qed.
End Validation_makes.

Lemma heap_lookup_prefix (h h' : heap) (a : addr) o :
  h `prefix_of` h' -> h !! a = Some o -> h' !! a = Some o.
Proof. intros Hh Ha. exact (prefix_lookup_Some _ _ _ _ Ha Hh). Qed.

Lemma all_of_impl {A B} (f g : A -> option B) xs ys :
  (forall x y, In x xs -> f x = Some y -> g x = Some y) ->
  all_of f xs = Some ys -> all_of g xs = Some ys.
Proof.
  revert ys. induction xs as [|x xs IH]; simpl; intros ys Hfg; [auto|].
  destruct (f x) as [y|] eqn:Hy; [|discriminate].
  destruct (all_of f xs) as [ys'|] eqn:Hys; [|discriminate].
  intros [= <-]. rewrite (Hfg x y (or_introl eq_refl) Hy).
  now rewrite (IH ys' (fun x' y' Hx' => Hfg x' y' (or_intror Hx')) eq_refl).
Qed.

(** The value of a reference is the same in a heap that has more
    objects. *)
Lemma value_at_prefix depth (h h' : heap) v value :
  h `prefix_of` h' -> value_at depth h v = Some value -> value_at depth h' v = Some value.
Proof.
  intros Hh. revert v value. induction depth as [|depth IH]; intros v value.
  - destruct v; simpl; auto.
  - destruct v as [| | | | |a]; try (simpl; auto; fail).
    simpl. destruct (h !! a) as [o|] eqn:Ha; [|discriminate].
    rewrite (heap_lookup_prefix _ _ _ _ Hh Ha).
    destruct o as [xs|xs|items|mro dict|mro attrs].
    + destruct (all_of (value_at depth h) xs) as [ys|] eqn:Hys; [|discriminate].
      now rewrite (all_of_impl _ (value_at depth h') xs ys (fun x y _ => IH x y) Hys).
    + destruct (all_of (value_at depth h) xs) as [ys|] eqn:Hys; [|discriminate].
      now rewrite (all_of_impl _ (value_at depth h') xs ys (fun x y _ => IH x y) Hys).
    + match goal with |- option_map _ (all_of ?f items) = _ -> _ =>
        destruct (all_of f items) as [ys|] eqn:Hys; [|discriminate] end.
      erewrite all_of_impl; [eauto | | exact Hys].
      intros [k x] y _. simpl.
      destruct (value_at depth h k) as [k'|] eqn:Hk; [|discriminate].
      destruct (value_at depth h x) as [x'|] eqn:Hx; [|discriminate].
      now rewrite (IH _ _ Hk), (IH _ _ Hx).
    + destruct (h !! dict) as [[| |items| |]|] eqn:Hdict; try discriminate.
      rewrite (heap_lookup_prefix _ _ _ _ Hh Hdict).
      destruct (keywords_of_items items) as [attrs|]; [|discriminate].
      match goal with |- option_map _ (all_of ?f attrs) = _ -> _ =>
        destruct (all_of f attrs) as [ys|] eqn:Hys; [|discriminate] end.
      erewrite all_of_impl; [eauto | | exact Hys].
      intros [k x] y _. simpl.
      destruct (value_at depth h x) as [x'|] eqn:Hx; [|discriminate].
      now rewrite (IH _ _ Hx).
    + match goal with |- option_map _ (all_of ?f attrs) = _ -> _ =>
        destruct (all_of f attrs) as [ys|] eqn:Hys; [|discriminate] end.
      erewrite all_of_impl; [eauto | | exact Hys].
      intros [k x] y _. simpl.
      destruct (value_at depth h x) as [x'|] eqn:Hx; [|discriminate].
      now rewrite (IH _ _ Hx).
Qed.

Lemma deref_prefix a (h h' : heap) o :
  h `prefix_of` h' -> deref a h = (Ok o, h) -> deref a h' = (Ok o, h').
Proof.
  intros Hh [_ Ha]%deref_Ok. unfold deref. now rewrite (heap_lookup_prefix _ _ _ _ Hh Ha).
Qed.

Lemma unpack_Ok d h kw h' :
  unpack d h = (Ok kw, h') ->
  h' = h /\ exists items, h !! d = Some (ODict items) /\ keywords_of_items items = Some kw.
Proof.
  unfold unpack. intros Hrun. step Hrun as o h0 Ho. apply deref_Ok in Ho as [-> Hd].
  destruct o; try discriminate.
  destruct (keywords_of_items items) as [kw'|] eqn:Hkw; [|discriminate].
  apply mret_Ok in Hrun as [-> ->]. eauto.
Qed.

Lemma call_keywords_Ok unpacked explicit h input h' :
  call_keywords unpacked explicit h = (Ok input, h') ->
  h' = h /\ input = (unpacked ++ explicit)%list.
Proof.
  unfold call_keywords. destruct (existsb _ _); [discriminate|].
  now intros [-> ->]%mret_Ok.
Qed.

Lemma keyword_app name kw1 kw2 :
  keyword name (kw1 ++ kw2)%list
  = match keyword name kw1 with
    | Some v => Some v
    | None => keyword name kw2
    end.
Proof.
  induction kw1 as [|[k v] kw1 IH]; simpl; [reflexivity|].
  now destruct (String.eqb k name).
Qed.

Lemma init_at_Ok mro fs input h r h' :
  init_at mro fs input h = (Ok r, h') ->
  exists values h0,
    validate_model_at fs input h = (Ok (values, []), h0)
    /\ h' = ((h0 ++ [ODict (map (fun e => (RStr (fst e), snd e)) values)])
             ++ [OModel mro (length h0)])%list
    /\ r = RAddr (S (length h0)).
Proof.
  unfold init_at. intros Hrun. step Hrun as validated h0 Hvalidated.
  destruct validated as [values errors]. simpl in Hrun.
  destruct errors; [|discriminate].
  step Hrun as dict h1 Hdict. step Hrun as self h2 Hself. apply mret_Ok in Hrun as [-> ->].
  apply allocate_Ok in Hdict as [-> ->]. apply allocate_Ok in Hself as [-> ->].
  exists values, h0. repeat split; [exact Hvalidated|].
  rewrite length_app. simpl. f_equal. lia.
Qed.

Section Attributes.
Context `{Pydantic} `{Annotations}.

Lemma getattr_at_prefix self name (h : heap) v (h1 h' : heap) :
  getattr_at self name h = (Ok v, h1) ->
  h `prefix_of` h' ->
  h1 = h /\ getattr_at self name h' = (Ok v, h').
Proof.
  unfold getattr_at. destruct self as [| | | | |a]; try discriminate.
  intros Hrun Hh. step Hrun as o h0 Ho. apply deref_Ok in Ho as [-> Ha].
  unfold mbind, HM_bind, deref. rewrite (heap_lookup_prefix _ _ _ _ Hh Ha).
  destruct o as [| | |mro dict|mro attrs]; try discriminate.
  - step Hrun as fields h0 Hfields. apply deref_Ok in Hfields as [-> Hdict].
    rewrite (heap_lookup_prefix _ _ _ _ Hh Hdict).
    destruct fields; try discriminate.
    destruct (find _ items); [|discriminate].
    now apply mret_Ok in Hrun as [-> ->].
  - destruct (keyword name attrs); [|discriminate].
    now apply mret_Ok in Hrun as [-> ->].
Qed.

Lemma find_attribute name (values : keywords) :
  In name (map fst values) ->
  exists v,
    find (fun e => ref_eqb (fst e) (RStr name)) (map (fun e => (RStr (fst e), snd e)) values)
    = Some (RStr name, v)
    /\ In (name, v) values.
Proof.
  induction values as [|[k x] values IH]; simpl; [intros []|].
  change (ref_eqb (RStr k) (RStr name)) with (String.eqb k name).
  destruct (String.eqb_spec k name) as [->|Hk].
  - intros _. exists x. split; [reflexivity | now left].
  - intros [Hname|Hname]; [contradiction|].
    destruct (IH Hname) as (v & Hfind & Hin). exists v. split; [exact Hfind | now right].
Qed.

Lemma getattr_at_new (h : heap) mro values name :
  In name (map fst values) ->
  let h' := ((h ++ [ODict (map (fun e => (RStr (fst e), snd e)) values)])
             ++ [OModel mro (length h)])%list in
  exists v, getattr_at (RAddr (S (length h))) name h' = (Ok v, h') /\ In (name, v) values.
Proof.
  intros Hname h'. destruct (find_attribute name values Hname) as (v & Hfind & Hin).
  exists v. split; [|exact Hin].
  assert (deref (S (length h)) h' = (Ok (OModel mro (length h)), h')) as Hself.
  { unfold deref, h'. replace (S (length h)) with
      (length (h ++ [ODict (map (fun e => (RStr (fst e), snd e)) values)])%list)
      by (rewrite length_app; simpl; lia).
    now rewrite lookup_allocated. }
  assert (deref (length h) h'
          = (Ok (ODict (map (fun e => (RStr (fst e), snd e)) values)), h')) as Hdict.
  { unfold deref, h'.
    now rewrite (prefix_lookup_Some _ _ _ _ (lookup_allocated h _) (prefix_app_r _ _ _ (reflexivity _))). }
  unfold getattr_at, mbind, HM_bind. now rewrite Hself, Hdict, Hfind.
Qed.

Lemma DocMetadataAwareIndexChunk_annotation_fields :
  DocMetadataAwareIndexChunk_annotation
  = AModel [ "DocMetadataAwareIndexChunk"; "IndexChunk"; "DocAwareChunk"; "BaseChunk";
             "BaseModel" ]
      [ ("chunk_id", AInt, None);
        ("blurb", AStr, None);
        ("content", AStr, None);
        ("source_links", AOptional (ADict AInt AStr), None);
        ("section_continuation", ABool, None);
        ("source_document", Document_annotation, None);
        ("title_prefix", AStr, None);
        ("metadata_suffix_semantic", AStr, None);
        ("metadata_suffix_keyword", AStr, None);
        ("mini_chunk_texts", AOptional (AList AStr), None);
        ("large_chunk_reference_ids", AList AInt, Some declared_empty_list);
        ("embeddings", ChunkEmbedding_annotation, None);
        ("title_embedding", AOptional Embedding_annotation, None);
        ("access", DocumentAccess_annotation, None);
        ("document_sets", ASet AStr, None);
        ("boost", AInt, None) ].
Proof. reflexivity. Qed.

(** The deep declaration stands for the class as it is declared above. *)
Lemma DocMetadataAwareIndexChunk_annotation_stands descriptor :
  ty_of DocMetadataAwareIndexChunk_annotation
  = model (@DocMetadataAwareIndexChunk _ (imports_of descriptor)).
Proof. reflexivity. Qed.

Theorem from_index_chunk_leaves_argument depth (h : heap)
    index_chunk access document_sets boost outcome h' :
  from_index_chunk_at DocMetadataAwareIndexChunk_annotation depth
    index_chunk access document_sets boost h = (outcome, h') ->
  (forall a o, h !! a = Some o -> h' !! a = Some o)
  /\ (forall name v,
        getattr_at index_chunk name h = (Ok v, h) ->
        getattr_at index_chunk name h' = (Ok v, h')
        /\ forall depth' value,
             value_at depth' h v = Some value -> value_at depth' h' v = Some value)
  /\ (forall chunk,
        outcome = Ok chunk ->
        (exists c, chunk = RAddr c /\ length h <= c)
        /\ forall name,
             In name [ "chunk_id"; "blurb"; "content"; "source_links";
                       "section_continuation"; "source_document"; "title_prefix";
                       "metadata_suffix_semantic"; "metadata_suffix_keyword";
                       "mini_chunk_texts"; "large_chunk_reference_ids";
                       "embeddings"; "title_embedding" ] ->
             exists v, getattr_at chunk name h' = (Ok v, h')
                       /\ made true (length h) h' v).
Proof.
  intros Hrun.
  assert (h `prefix_of` h') as Hh
    by (eapply from_index_chunk_at_allocates, Hrun).
  split; [|split].
  - intros a o Ha. exact (prefix_lookup_Some _ _ _ _ Ha Hh).
  - intros name v Hv. split.
    + now apply (getattr_at_prefix _ _ _ _ _ _ Hv Hh).
    + intros depth' value. now apply value_at_prefix.
  - intros chunk ->. unfold from_index_chunk_at in Hrun.
    step Hrun as data h1 Hdata. step Hrun as unpacked h2 Hunpacked.
    step Hrun as input h3 Hinput.
    assert (h `prefix_of` h1) as Hh1 by (eapply BaseModel_dict_at_allocates, Hdata).
    apply prefix_length in Hh1 as Hlen1.
    apply BaseModel_dict_at_made in Hdata.
    apply unpack_Ok in Hunpacked as [-> (items & Hitems & Hkw)].
    apply call_keywords_Ok in Hinput as [-> ->].
    rewrite DocMetadataAwareIndexChunk_annotation_fields in Hrun. unfold construct in Hrun.
    apply init_at_Ok in Hrun as (values & h0 & Hvalidated & -> & ->).
    assert (h1 `prefix_of` h0) as Hh0
      by (eapply validate_model_at_allocates, Hvalidated; apply fields_at_allocates).
    apply prefix_length in Hh0 as Hlen0.
    split; [exists (S (length h0)); split; [reflexivity | lia]|].
    intros name Hname.
    pose proof (validate_model_at_names _ _ _ _ _ Hvalidated eq_refl) as Hnames.
    simpl in Hnames.
    destruct (getattr_at_new h0
                [ "DocMetadataAwareIndexChunk"; "IndexChunk"; "DocAwareChunk"; "BaseChunk";
                  "BaseModel" ] values name) as (v & Hget & Hin).
    { rewrite Hnames. simpl in Hname |- *. intuition. }
    exists v. split; [exact Hget|].
    eapply made_prefix; [etransitivity; apply prefix_app_r; reflexivity|].
    eapply (validate_model_at_made (length h) _ _ (fields_at_allocates _)
              (fields_at_made _ _) h1 _ h0 Hvalidated Hlen1 name v Hin).
    intros x. rewrite keyword_app.
    destruct (keyword name unpacked) as [y|] eqn:Hy.
    + intros [= <-]. eapply made_parts; [exact Hdata | exact Hitems |].
      simpl. apply in_app_iff. right. eapply keywords_of_items_In; [exact Hkw | exact Hy].
    + simpl in Hname. repeat (destruct Hname as [<-|Hname]; [discriminate|]).
      destruct Hname.
Qed.
End Attributes.

(** ** The sample environment *)

Section Sample_runs.
#[local] Existing Instance Sample.pydantic.
#[local] Existing Instance Sample.imports.

Lemma Sample_imports_ok : ImportsOk.
Proof.
  split.
  - apply list_sound, float_sound.
  - apply model_sound; [discriminate | now apply distinct_names_NoDup | ].
    repeat first [apply List.Forall_nil | apply List.Forall_cons]; apply str_sound.
  - intros v Hv. destruct v; simpl in *; try discriminate. now rewrite Hv.
  - intros d (attrs & -> & Hty)%typed_model_inv.
    destruct attrs as [|[k1 v1] [|[k2 v2] [|]]]; simpl in Hty; try discriminate.
    + now rewrite andb_false_r in Hty.
    + rewrite !andb_true_iff in Hty.
      destruct Hty as [[->%String.eqb_eq Hv1] [[->%String.eqb_eq Hv2] _]].
      destruct v1; try discriminate. destruct v2; try discriminate.
      eexists. reflexivity.
    + now rewrite !andb_false_r in Hty.
Qed.
#[local] Existing Instance Sample_imports_ok.

Lemma from_index_chunk_extends_witness :
  typed (model IndexChunk) Sample.index_chunk = true
  /\ typed DocumentAccess Sample.public = true
  /\ typed (set_ str_) (PySet [PyStr "default"]) = true
  /\ typed int_ (PyInt 0) = true
  /\ exists chunk,
       from_index_chunk DocMetadataAwareIndexChunk Sample.index_chunk
         Sample.public (PySet [PyStr "default"]) (PyInt 0) = Ok chunk
       /\ (forall name,
             In name [ "chunk_id"; "blurb"; "content"; "source_links";
                       "section_continuation"; "source_document"; "title_prefix";
                       "metadata_suffix_semantic"; "metadata_suffix_keyword";
                       "mini_chunk_texts"; "large_chunk_reference_ids";
                       "embeddings"; "title_embedding" ] ->
             exists v, getattr Sample.index_chunk name = Ok v /\ getattr chunk name = Ok v)
       /\ getattr chunk "access" = Ok Sample.public
       /\ getattr chunk "document_sets" = Ok (PySet [PyStr "default"])
       /\ getattr chunk "boost" = Ok (PyInt 0).
Proof.
  repeat (split; [reflexivity|]).
  apply (from_index_chunk_extends Sample.index_chunk Sample.public
           (PySet [PyStr "default"]) (PyInt 0)); reflexivity.
Defined.

(** The end-to-end scenario of the spec: a chunk of document [D1] is
    constructed as an [IndexChunk] and extended with access, document sets
    and boost; its descriptor names chunk 0 of [D1], and its content is the
    content that was supplied. *)
Example end_to_end_scenario :
  (ic ← init IndexChunk Sample.index_chunk_input;
   chunk ← from_index_chunk DocMetadataAwareIndexChunk ic
             Sample.public (PySet [PyStr "default"]) (PyInt 0);
   descriptor ← to_short_descriptor chunk;
   content ← getattr chunk "content";
   mret (descriptor, content))
  = Ok ("Chunk ID: '0'; ID: 'D1'; Semantic ID: 'Handbook'", PyStr "Hello world").
Proof. reflexivity. Qed.

(** [from_index_chunk] is for instances of [IndexChunk] itself: the
    [.dict()] of a chunk that is already extended has [access],
    [document_sets] and [boost], and the call gives them twice. *)
Example from_index_chunk_of_extended_chunk :
  (ic ← init IndexChunk Sample.index_chunk_input;
   chunk ← from_index_chunk DocMetadataAwareIndexChunk ic
             Sample.public (PySet [PyStr "default"]) (PyInt 0);
   from_index_chunk DocMetadataAwareIndexChunk chunk
     Sample.public (PySet [PyStr "default"]) (PyInt 0))
  = Raise (TypeError "got multiple values for keyword argument").
Proof. reflexivity. Qed.

Lemma to_short_descriptor_returns_witness :
  In IndexChunk doc_aware_classes
  /\ typed (model IndexChunk) Sample.index_chunk = true
  /\ exists chunk_id source_document descriptor,
       getattr Sample.index_chunk "chunk_id" = Ok (PyInt chunk_id)
       /\ getattr Sample.index_chunk "source_document" = Ok source_document
       /\ Document_to_short_descriptor source_document = Ok descriptor
       /\ to_short_descriptor Sample.index_chunk
          = Ok ("Chunk ID: '" ++ str_of_int chunk_id ++ "'; " ++ descriptor)
       /\ forall (σ : store) self, σ !! self = Some Sample.index_chunk ->
            (first ← call_to_short_descriptor self;
             second ← call_to_short_descriptor self;
             mret (first, second)) σ
            = (Ok ("Chunk ID: '" ++ str_of_int chunk_id ++ "'; " ++ descriptor,
                   "Chunk ID: '" ++ str_of_int chunk_id ++ "'; " ++ descriptor), σ).
Proof.
  split; [in_list|]. split; [reflexivity|].
  apply (to_short_descriptor_returns IndexChunk Sample.index_chunk); [in_list | reflexivity].
Defined.

Lemma from_model_copies_witness :
  is_EmbeddingModel Sample.embedding_model = true
  /\ exists detail,
       from_model EmbeddingModelDetail Sample.embedding_model = Ok detail
       /\ (forall name,
             In name [ "model_name"; "model_dim"; "normalize"; "query_prefix";
                       "passage_prefix"; "cloud_provider_id" ] ->
             exists v, getattr Sample.embedding_model name = Ok v
                       /\ getattr detail name = Ok v)
       /\ getattr detail "cloud_provider_name" = Ok PyNone.
Proof.
  split; [reflexivity|].
  apply (from_model_copies Sample.embedding_model). reflexivity.
Defined.

Lemma embedded_text_round_trip_witness :
  In DocAwareChunk doc_aware_classes
  /\ typed (model DocAwareChunk) Sample.titled_chunk = true
  /\ exists content text,
       getattr Sample.titled_chunk "content" = Ok (PyStr content)
       /\ embedded_text semantic Sample.titled_chunk = Ok text
       /\ stripped_text semantic Sample.titled_chunk text = Ok content.
Proof.
  split; [in_list|]. split; [reflexivity|].
  apply (embedded_text_round_trip DocAwareChunk semantic Sample.titled_chunk);
    [in_list | reflexivity].
Defined.

Lemma missing_required_field_raises_witness :
  In BaseChunk module_classes
  /\ In "content" (required_fields BaseChunk)
  /\ assoc "content" Sample.no_content_input = None
  /\ exists errors,
       init BaseChunk Sample.no_content_input = Raise (ValidationError errors)
       /\ In ("content", missing) errors.
Proof.
  split; [in_list|]. split; [in_list|]. split; [reflexivity|].
  apply (missing_required_field_raises BaseChunk "content" Sample.no_content_input);
    [in_list | in_list | reflexivity].
Defined.

Lemma large_chunk_reference_ids_defaults_empty_witness :
  In DocAwareChunk doc_aware_classes
  /\ assoc "large_chunk_reference_ids" Sample.doc_aware_chunk_input = None
  /\ init DocAwareChunk Sample.doc_aware_chunk_input
     = Ok (instance_of DocAwareChunk Sample.doc_aware_chunk_input)
  /\ getattr (instance_of DocAwareChunk Sample.doc_aware_chunk_input)
       "large_chunk_reference_ids" = Ok (PyList []).
Proof.
  split; [in_list|]. split; [reflexivity|]. split; [reflexivity|].
  apply (large_chunk_reference_ids_defaults_empty DocAwareChunk
           Sample.doc_aware_chunk_input);
    [in_list | reflexivity | reflexivity].
Defined.

Lemma IndexChunk_keeps_texts_and_embeddings_witness :
  forallb (fits Sample.arity_mismatch_input) (cls_fields IndexChunk) = true
  /\ assoc "mini_chunk_texts" Sample.arity_mismatch_input = Some (PyList [PyStr "Hello"])
  /\ assoc "embeddings" Sample.arity_mismatch_input = Some (Sample.chunk_embedding [])
  /\ exists chunk,
       init IndexChunk Sample.arity_mismatch_input = Ok chunk
       /\ getattr chunk "mini_chunk_texts" = Ok (PyList [PyStr "Hello"])
       /\ getattr chunk "embeddings" = Ok (Sample.chunk_embedding []).
Proof.
  repeat (split; [reflexivity|]).
  apply (IndexChunk_keeps_texts_and_embeddings Sample.arity_mismatch_input); reflexivity.
Defined.

Lemma IndexChunk_keeps_title_embedding_witness :
  forallb (fits Sample.index_chunk_input) (cls_fields IndexChunk) = true
  /\ assoc "title_prefix" Sample.index_chunk_input = Some (PyStr "")
  /\ assoc "title_embedding" Sample.index_chunk_input = Some PyNone
  /\ exists chunk,
       init IndexChunk Sample.index_chunk_input = Ok chunk
       /\ getattr chunk "title_prefix" = Ok (PyStr "")
       /\ getattr chunk "title_embedding" = Ok PyNone.
Proof.
  repeat (split; [reflexivity|]).
  apply (IndexChunk_keeps_title_embedding Sample.index_chunk_input); reflexivity.
Defined.

Lemma objects_change_by_assignment_only_witness :
  [Sample.index_chunk] !! 0 = Some Sample.index_chunk
  /\ store_after
       (FromIndexChunk 0 Sample.public (PySet [PyStr "default"]) (PyInt 0))
       [Sample.index_chunk] !! 0
     = Some Sample.index_chunk
  /\ type_of Sample.index_chunk = Ok IndexChunk
  /\ In "content" (field_names IndexChunk)
  /\ exists obj',
       assign 0 "content" (PyStr "Goodbye") [Sample.index_chunk]
       = (Ok tt, <[0 := obj']> [Sample.index_chunk])
       /\ <[0 := obj']> [Sample.index_chunk] !! 0 = Some obj'
       /\ getattr obj' "content" = Ok (PyStr "Goodbye").
Proof.
  split; [reflexivity|].
  destruct (objects_change_by_assignment_only [Sample.index_chunk] 0 Sample.index_chunk
              eq_refl) as [Hops Hassign].
  split; [apply Hops|]. split; [reflexivity|]. split; [in_list|].
  apply (Hassign IndexChunk "content" (PyStr "Goodbye")); [reflexivity | in_list].
Defined.

#[local] Existing Instance Sample_heap.annotations.

(** The heap of the samples holds the sample chunk, the access descriptor
    and the document sets. *)
Example sample_heap_holds_the_samples :
  Sample_heap.placed
  = (Ok (Sample_heap.index_chunk, Sample_heap.access, Sample_heap.document_sets),
     Sample_heap.before)
  /\ value_at 4 Sample_heap.before Sample_heap.index_chunk = Some Sample.index_chunk
  /\ value_at 4 Sample_heap.before Sample_heap.access = Some Sample.public
  /\ value_at 4 Sample_heap.before Sample_heap.document_sets
     = Some More_samples.document_sets.
Proof. vm_compute. repeat split. Qed.

(** On the heap of the samples [from_index_chunk] returns a new object,
    whose value is the chunk that [from_index_chunk] makes of the values;
    the value of the argument is what it was. *)
Example from_index_chunk_on_the_sample_heap :
  Sample_heap.call = (Ok Sample_heap.chunk, Sample_heap.after)
  /\ length Sample_heap.before = 13
  /\ from_index_chunk DocMetadataAwareIndexChunk Sample.index_chunk
       Sample.public More_samples.document_sets (PyInt 0)
     = Ok More_samples.extended_chunk
  /\ value_at 4 Sample_heap.after Sample_heap.chunk = Some More_samples.extended_chunk
  /\ value_at 4 Sample_heap.after Sample_heap.index_chunk = Some Sample.index_chunk.
Proof. vm_compute. repeat split. Qed.

(** The new chunk has a list of its own: an element appended to its
    [large_chunk_reference_ids] is not in the list of the argument. *)
Example appending_to_the_new_chunk :
  exists h,
    Sample_heap.append_to_chunk Sample_heap.after = (Ok tt, h)
    /\ (ids ← getattr_at Sample_heap.chunk "large_chunk_reference_ids"; list_at ids) h
       = (Ok [RInt 7], h)
    /\ (ids ← getattr_at Sample_heap.index_chunk "large_chunk_reference_ids"; list_at ids) h
       = (Ok [], h)
    /\ value_at 4 h Sample_heap.index_chunk = Some Sample.index_chunk.
Proof. eexists. vm_compute. repeat split. Qed.

(** An instance that is given for a model field is copied, and the copy
    has the [__dict__] of the given instance: what is constructed from the
    field objects of a chunk shares with the chunk.  Address 6 is the
    [embeddings] of the sample chunk, address 5 its [__dict__]. *)
Example instance_given_for_a_model_field :
  getattr_at Sample_heap.index_chunk "embeddings" Sample_heap.before
  = (Ok (RAddr 6), Sample_heap.before)
  /\ Sample_heap.before !! 6 = Some (OModel ["ChunkEmbedding"; "BaseModel"] 5)
  /\ validate_at ChunkEmbedding_annotation (RAddr 6) Sample_heap.before
     = (Ok (RAddr 13),
        (Sample_heap.before ++ [OModel ["ChunkEmbedding"; "BaseModel"] 5])%list).
Proof. vm_compute. repeat split. Qed.

Lemma from_index_chunk_leaves_argument_witness :
  from_index_chunk_at DocMetadataAwareIndexChunk_annotation Sample_heap.recursion_limit
    Sample_heap.index_chunk Sample_heap.access Sample_heap.document_sets (RInt 0)
    Sample_heap.before
  = (Ok Sample_heap.chunk, Sample_heap.after)
  /\ (forall a o, Sample_heap.before !! a = Some o -> Sample_heap.after !! a = Some o)
  /\ (forall name v,
        getattr_at Sample_heap.index_chunk name Sample_heap.before
        = (Ok v, Sample_heap.before) ->
        getattr_at Sample_heap.index_chunk name Sample_heap.after
        = (Ok v, Sample_heap.after)
        /\ forall depth' value,
             value_at depth' Sample_heap.before v = Some value ->
             value_at depth' Sample_heap.after v = Some value)
  /\ (forall chunk,
        Ok Sample_heap.chunk = Ok chunk ->
        (exists c, chunk = RAddr c /\ length Sample_heap.before <= c)
        /\ forall name,
             In name [ "chunk_id"; "blurb"; "content"; "source_links";
                       "section_continuation"; "source_document"; "title_prefix";
                       "metadata_suffix_semantic"; "metadata_suffix_keyword";
                       "mini_chunk_texts"; "large_chunk_reference_ids";
                       "embeddings"; "title_embedding" ] ->
             exists v, getattr_at chunk name Sample_heap.after = (Ok v, Sample_heap.after)
                       /\ made true (length Sample_heap.before) Sample_heap.after v).
Proof.
  split; [vm_compute; reflexivity|].
  apply (from_index_chunk_leaves_argument Sample_heap.recursion_limit Sample_heap.before
           Sample_heap.index_chunk Sample_heap.access Sample_heap.document_sets (RInt 0)).
  vm_compute. reflexivity.
Defined.

(** C1 fails on the code.  A [DocMetadataAwareIndexChunk] is an
    [IndexChunk], for [isinstance] and for the annotation of the
    parameter; given one, [from_index_chunk] raises [TypeError].  And an
    [IndexChunk] whose [embeddings] is an instance of a subclass of
    [ChunkEmbedding] is constructed as it is given; [from_index_chunk]
    returns a chunk whose [embeddings] is another value, a
    [ChunkEmbedding] without the field of the subclass. *)
Lemma from_index_chunk_fails_on_subclass_instances :
  (isinstance More_samples.extended_chunk "IndexChunk" = true
   /\ validate (model IndexChunk) More_samples.extended_chunk
      = Some More_samples.extended_chunk
   /\ from_index_chunk DocMetadataAwareIndexChunk More_samples.extended_chunk
        Sample.public More_samples.document_sets (PyInt 0)
      = Raise (TypeError "got multiple values for keyword argument"))
  /\ (init IndexChunk Subclass_samples.tagged_input = Ok Subclass_samples.tagged_chunk
      /\ getattr Subclass_samples.tagged_chunk "embeddings"
         = Ok Subclass_samples.tagged_embedding
      /\ exists chunk,
           from_index_chunk DocMetadataAwareIndexChunk Subclass_samples.tagged_chunk
             Sample.public More_samples.document_sets (PyInt 0) = Ok chunk
           /\ getattr chunk "embeddings" = Ok (Sample.chunk_embedding [])
           /\ pyval_eqb (Sample.chunk_embedding []) Subclass_samples.tagged_embedding
              = false).
Proof. split; [repeat split|]. do 2 (split; [reflexivity|]). eexists. repeat split. Qed.

(** C2 fails on the code: an [IndexChunk] is constructed from one
    mini-chunk text and no mini-chunk embedding. *)
Lemma IndexChunk_accepts_arity_mismatch :
  exists chunk,
    init IndexChunk Sample.arity_mismatch_input = Ok chunk
    /\ getattr chunk "mini_chunk_texts" = Ok (PyList [PyStr "Hello"])
    /\ (embeddings ← getattr chunk "embeddings";
        getattr embeddings "mini_chunk_embeddings") = Ok (PyList []).
Proof. eexists. repeat split; reflexivity. Qed.

(** C7 fails on the code: an [IndexChunk] is constructed with an empty
    [title_prefix] and a title embedding. *)
Lemma IndexChunk_accepts_title_embedding_without_title :
  exists chunk,
    init IndexChunk Sample.untitled_input = Ok chunk
    /\ getattr chunk "title_prefix" = Ok (PyStr "")
    /\ getattr chunk "title_embedding" = Ok (PyList [Sample.f0_1; Sample.f0_2]).
Proof. eexists. repeat split; reflexivity. Qed.

(** C6 fails on the code: the assignment [chunk.content = "Goodbye"] on a
    constructed [BaseChunk] is carried out, and [content] is changed. *)
Lemma assignment_changes_constructed_chunk :
  exists (σ σ' : store) self,
    new BaseChunk Sample.base_chunk_input [] = (Ok self, σ)
    /\ (chunk ← load self; lift (getattr chunk "content")) σ
       = (Ok (PyStr "Hello world"), σ)
    /\ assign self "content" (PyStr "Goodbye") σ = (Ok tt, σ')
    /\ (chunk ← load self; lift (getattr chunk "content")) σ'
       = (Ok (PyStr "Goodbye"), σ').
Proof. do 3 eexists. repeat split; reflexivity. Qed.
End Sample_runs.

(** * Further properties of the methods *)

Lemma typed_attrs_app `{Pydantic} fs1 fs2 attrs1 attrs2 :
  typed_attrs fs1 attrs1 = true ->
  typed_attrs fs2 attrs2 = true ->
  typed_attrs (fs1 ++ fs2)%list (attrs1 ++ attrs2)%list = true.
Proof.
  revert attrs1. induction fs1 as [|f fs1 IH]; intros [|[k v] attrs1]; simpl;
    try discriminate; auto.
  intros [Hhead Hrest]%andb_prop Htail. rewrite Hhead. simpl. now apply IH.
Qed.

Lemma getattr_Raise self name e : getattr self name = Raise e -> e = AttributeError name.
Proof.
  unfold getattr. destruct self; try (now intros [= <-]);
    destruct (assoc name attrs); try discriminate; now intros [= <-].
Qed.

(** [to_short_descriptor] reads [chunk_id] and [source_document], and
    nothing else. *)
Lemma to_short_descriptor_reads `{Imports} chunk chunk' :
  getattr chunk' "chunk_id" = getattr chunk "chunk_id" ->
  getattr chunk' "source_document" = getattr chunk "source_document" ->
  to_short_descriptor chunk' = to_short_descriptor chunk.
Proof. intros Hid Hdoc. unfold to_short_descriptor. now rewrite Hid, Hdoc. Qed.

Section More_of_from_index_chunk.
Context `{Pydantic} `{Imports}.

Lemma from_index_chunk_duplicate cls mro attrs name access document_sets boost :
  In name ["access"; "document_sets"; "boost"] ->
  In name (keys attrs) ->
  from_index_chunk cls (PyModel mro attrs) access document_sets boost
  = Raise (TypeError "got multiple values for keyword argument").
Proof.
  intros Hname Hkey. unfold from_index_chunk. cbn [BaseModel_dict mbind result_bind bind].
  unfold call_kwargs. rewrite keys_dict_value.
  replace (existsb _ _) with true; [reflexivity|].
  symmetry. apply existsb_exists. exists name. split; [exact Hname | now apply mem_In].
Qed.

(** X1.  [from_index_chunk] does not take a chunk that is already
    extended: for a typed [DocMetadataAwareIndexChunk] the [.dict()] has
    [access], [document_sets] and [boost], the call gives each of them
    twice, and a [TypeError] is raised, whatever the class the method is
    called on and whatever the three arguments. *)
Theorem from_index_chunk_of_extended_raises cls chunk access document_sets boost :
  typed (model DocMetadataAwareIndexChunk) chunk = true ->
  from_index_chunk cls chunk access document_sets boost
  = Raise (TypeError "got multiple values for keyword argument").
Proof.
  intros (attrs & -> & Hty)%typed_model_inv.
  apply (from_index_chunk_duplicate cls _ attrs "access"); [in_list|].
  rewrite (typed_attrs_keys _ _ Hty). in_list.
Qed.

(** X2.  [from_index_chunk] on a chunk that has no embeddings, a typed
    [BaseChunk] or [DocAwareChunk], raises a validation error that reports
    [embeddings] as missing; no chunk is made. *)
Theorem from_index_chunk_without_embeddings_raises cls chunk access document_sets boost :
  In cls [BaseChunk; DocAwareChunk] ->
  typed (model cls) chunk = true ->
  exists errors,
    from_index_chunk DocMetadataAwareIndexChunk chunk access document_sets boost
    = Raise (ValidationError errors)
    /\ In ("embeddings", missing) errors.
Proof.
  intros Hcls (attrs & -> & Hty)%typed_model_inv.
  pose proof (typed_attrs_keys _ _ Hty) as Hkeys.
  assert (~ In "embeddings" (keys attrs)
          /\ existsb (fun k => mem k (keys attrs)) ["access"; "document_sets"; "boost"] = false)
    as [Hnone Hfresh].
  { rewrite Hkeys. simpl in Hcls.
    destruct Hcls as [<-|[<-|[]]]; (split; [simpl; intuition discriminate | reflexivity]). }
  unfold from_index_chunk. cbn [BaseModel_dict mbind result_bind bind].
  unfold call_kwargs. rewrite keys_dict_value. cbn [keys map fst]. rewrite Hfresh.
  cbn [mbind result_bind bind]. unfold init.
  pose proof (validate_model_missing (cls_fields DocMetadataAwareIndexChunk)
                (map (fun '(k, x) => (k, dict_value x)) attrs
                 ++ [("access", access); ("document_sets", document_sets); ("boost", boost)])%list
                (attr "embeddings" (model ChunkEmbedding))) as Hmiss.
  destruct (validate_model _ _) as [values errors]. exists errors.
  assert (In ("embeddings", missing) errors) as Hin.
  { apply Hmiss; [in_list | reflexivity |].
    rewrite assoc_app_r; [reflexivity|].
    apply assoc_None. now rewrite keys_dict_value. }
  split; [|exact Hin]. destruct errors; [contradiction | reflexivity].
Qed.

(** X3.  Whatever it is given, a chunk that [from_index_chunk] returns is
    an instance of the class the method was called on, with exactly the
    fields that class declares, in the order of the declaration: a field
    the argument has besides is dropped. *)
Theorem from_index_chunk_makes_instance_of_cls cls index_chunk access document_sets boost chunk :
  from_index_chunk cls index_chunk access document_sets boost = Ok chunk ->
  exists values,
    chunk = PyModel (cls_mro cls) values
    /\ keys values = field_names cls.
Proof.
  unfold from_index_chunk.
  destruct (BaseModel_dict index_chunk) as [data|]; [|discriminate].
  cbn [mbind result_bind bind].
  destruct (call_kwargs data _) as [input|]; [|discriminate].
  cbn [bind]. intros (values & -> & HF)%init_inv.
  exists values. split; [reflexivity|].
  unfold field_names. induction HF as [|f [k v] fs values [Hk _] _ IH]; simpl; [reflexivity|].
  simpl in Hk. now rewrite Hk, IH.
Qed.

Context `{!ImportsOk}.

(** X4.  The chunk that [from_index_chunk] makes of a typed [IndexChunk]
    is a typed [DocMetadataAwareIndexChunk]: each of its sixteen fields
    holds a value of the annotated type. *)
Theorem from_index_chunk_typed ic access document_sets boost :
  typed (model IndexChunk) ic = true ->
  typed DocumentAccess access = true ->
  typed (set_ str_) document_sets = true ->
  typed int_ boost = true ->
  exists chunk,
    from_index_chunk DocMetadataAwareIndexChunk ic access document_sets boost = Ok chunk
    /\ typed (model DocMetadataAwareIndexChunk) chunk = true.
Proof.
  intros (attrs & -> & Hty)%typed_model_inv Hacc Hsets Hboost.
  eexists. split; [now apply from_index_chunk_value|].
  cbn [typed model]. rewrite names_eqb_refl. cbn [andb].
  rewrite DocMetadataAwareIndexChunk_fields.
  apply typed_attrs_app; [exact Hty|].
  cbn [typed_attrs f_name f_type attr]. rewrite !String.eqb_refl, Hacc, Hsets, Hboost.
  reflexivity.
Qed.

(** X5.  Extending a chunk keeps its short descriptor: the chunk that
    [from_index_chunk] makes of a typed [IndexChunk] has the descriptor of
    the argument. *)
Theorem from_index_chunk_keeps_descriptor ic access document_sets boost :
  typed (model IndexChunk) ic = true ->
  typed DocumentAccess access = true ->
  typed (set_ str_) document_sets = true ->
  typed int_ boost = true ->
  exists chunk descriptor,
    from_index_chunk DocMetadataAwareIndexChunk ic access document_sets boost = Ok chunk
    /\ to_short_descriptor ic = Ok descriptor
    /\ to_short_descriptor chunk = Ok descriptor.
Proof.
  intros Hic Hacc Hsets Hboost.
  destruct (typed_getattr IndexChunk (attr "chunk_id" int_) ic) as (id & Hid & Htid);
    [in_list | in_list | exact Hic |].
  destruct (typed_getattr IndexChunk (attr "source_document" Document) ic)
    as (doc & Hdoc & Htdoc); [in_list | in_list | exact Hic |].
  cbn [f_name f_type attr] in Hid, Htid, Hdoc, Htdoc.
  destruct (typed_int_inv id Htid) as [z ->].
  destruct (Document_to_short_descriptor_returns doc Htdoc) as [s Hs].
  destruct (typed_model_inv _ _ Hic) as (attrs & -> & Hty).
  eexists _, ("Chunk ID: '" ++ str_of_int z ++ "'; " ++ s).
  split; [now apply from_index_chunk_value|].
  assert (to_short_descriptor (PyModel (cls_mro IndexChunk) attrs)
          = Ok ("Chunk ID: '" ++ str_of_int z ++ "'; " ++ s)) as Hdescr.
  { unfold to_short_descriptor. rewrite Hid. cbn [mbind result_bind bind format_value].
    rewrite Hdoc. cbn [mbind result_bind bind]. now rewrite Hs. }
  split; [exact Hdescr|]. rewrite <- Hdescr.
  cbn [getattr] in Hid, Hdoc.
  apply to_short_descriptor_reads; cbn [getattr].
  - destruct (assoc "chunk_id" attrs) as [v|] eqn:Hv; [|discriminate].
    now rewrite (assoc_app_l _ _ _ _ Hv).
  - destruct (assoc "source_document" attrs) as [v|] eqn:Hv; [|discriminate].
    now rewrite (assoc_app_l _ _ _ _ Hv).
Qed.
End More_of_from_index_chunk.

Section More_of_from_model.
Context `{Pydantic}.

(** X6.  [from_model] on a record that lacks one of the six attributes it
    reads raises [AttributeError] for one of the six; no detail is made. *)
Theorem from_model_missing_attribute cls m name :
  In name [ "model_name"; "model_dim"; "normalize"; "query_prefix";
            "passage_prefix"; "cloud_provider_id" ] ->
  getattr m name = Raise (AttributeError name) ->
  exists absent,
    In absent [ "model_name"; "model_dim"; "normalize"; "query_prefix";
                "passage_prefix"; "cloud_provider_id" ]
    /\ from_model cls m = Raise (AttributeError absent).
Proof.
  intros Hname Hraise. unfold from_model.
  repeat match goal with
         | |- context [getattr m ?n ≫= _] =>
             let Hn := fresh "Hn" in
             destruct (getattr m n) as [?|e] eqn:Hn;
               [cbn [mbind result_bind bind]
               |apply getattr_Raise in Hn; subst e; exists n; split; [in_list | reflexivity]]
         end.
  exfalso. simpl in Hname.
  repeat (destruct Hname as [<-|Hname]; [congruence|]). contradiction.
Qed.

(** X7.  The detail that [from_model] makes of a configuration record is a
    typed [EmbeddingModelDetail]: each of its seven fields holds a value of
    the annotated type. *)
Theorem from_model_typed m :
  is_EmbeddingModel m = true ->
  exists detail,
    from_model EmbeddingModelDetail m = Ok detail
    /\ typed (model EmbeddingModelDetail) detail = true.
Proof.
  unfold is_EmbeddingModel, EmbeddingModel_columns.
  cbn [forallb f_name f_type attr]. intros Hm.
  repeat (apply andb_prop in Hm as [? Hm]). clear Hm.
  unfold from_model.
  repeat match goal with
         | Hx : match getattr m ?n with Ok _ => _ | Raise _ => false end = true |- _ =>
             let v := fresh "v" in let Hv := fresh "Hv" in
             destruct (getattr m n) as [v|] eqn:Hv; [|discriminate]
         end.
  cbn [mbind result_bind bind].
  erewrite init_fits.
  - eexists. split; [reflexivity|].
    unfold instance_of. cbn -[Optional str_ int_ bool_].
    repeat match goal with Hx : typed _ _ = true |- _ => rewrite Hx; clear Hx end.
    reflexivity.
  - repeat first [apply List.Forall_nil | apply List.Forall_cons];
      cbn [f_type attr attr_default];
      auto using int_sound, str_sound, bool_sound, Optional_sound.
  - cbn -[typed Optional str_ int_ bool_]. unfold fits.
    cbn -[typed Optional str_ int_ bool_].
    repeat match goal with Hx : typed _ _ = true |- _ => rewrite Hx; clear Hx end.
    reflexivity.
Qed.
End More_of_from_model.

Section More_of_construction.
Context `{Pydantic}.

Lemma validate_model_reads fs input input' :
  (forall f, In f fs -> assoc (f_name f) input' = assoc (f_name f) input) ->
  validate_model fs input' = validate_model fs input.
Proof.
  induction fs as [|f fs IH]; intros Hsame; simpl; [reflexivity|].
  rewrite IH by (intros g Hg; apply Hsame; now right).
  now rewrite (Hsame f) by now left.
Qed.

(** X8.  A constructor ignores the keywords that name no field of its
    class: with such keywords added to the inputs it returns what it
    returns without them, the same instance or the same error. *)
Theorem init_ignores_unknown_keywords cls input unknown :
  (forall name, In name (keys unknown) -> ~ In name (field_names cls)) ->
  init cls (input ++ unknown)%list = init cls input.
Proof.
  intros Hunknown. unfold init. rewrite (validate_model_reads _ input); [reflexivity|].
  intros f Hf. destruct (assoc (f_name f) input) as [v|] eqn:Hv.
  - now apply assoc_app_l.
  - rewrite (assoc_app_r _ _ _ Hv). apply assoc_None. intros Hin.
    apply (Hunknown _ Hin). apply in_map_iff. now exists f.
Qed.
End More_of_construction.

Section More_of_the_classes.
Context `{Pydantic} `{Imports}.

(** X9.  An [EmbeddingModelDetail] constructed from inputs that supply
    neither [cloud_provider_id] nor [cloud_provider_name] has [None] in
    both. *)
Theorem cloud_provider_defaults_None input detail :
  assoc "cloud_provider_id" input = None ->
  assoc "cloud_provider_name" input = None ->
  init EmbeddingModelDetail input = Ok detail ->
  getattr detail "cloud_provider_id" = Ok PyNone
  /\ getattr detail "cloud_provider_name" = Ok PyNone.
Proof.
  intros Hid Hname Hinit.
  assert (NoDup (field_names EmbeddingModelDetail)) as Hnd
    by (apply module_field_names_NoDup; in_list).
  destruct (init_getattr EmbeddingModelDetail input detail
              (attr_default "cloud_provider_id" (Optional int_) PyNone) Hnd Hinit)
    as (v & Hv & Hval); [in_list|].
  destruct (init_getattr EmbeddingModelDetail input detail
              (attr_default "cloud_provider_name" (Optional str_) PyNone) Hnd Hinit)
    as (w & Hw & Hwal); [in_list|].
  unfold field_value in Hval, Hwal. cbn [f_name attr_default] in *.
  rewrite Hid in Hval. rewrite Hname in Hwal.
  destruct Hval as [_ ->]. destruct Hwal as [_ ->]. auto.
Qed.

(** X10.  A field annotated [T | None] that has no default, left out of
    the inputs: where the library takes such a field as optional the
    constructed instance has [None] there, and where it takes the field
    as required the constructor raises a validation error that reports
    the field as missing. *)
Theorem optional_field_left_out cls f input :
  In cls module_classes ->
  In f (cls_fields cls) ->
  f_default f = None ->
  allows_none (f_type f) = true ->
  assoc (f_name f) input = None ->
  if implicit_optional
  then forall self, init cls input = Ok self -> getattr self (f_name f) = Ok PyNone
  else exists errors,
         init cls input = Raise (ValidationError errors)
         /\ In (f_name f, missing) errors.
Proof.
  intros Hcls Hf Hdefault Hnone Hinput.
  assert (field_required f = negb implicit_optional) as Hreq
    by (unfold field_required; now rewrite Hdefault, Hnone).
  destruct implicit_optional.
  - intros self Hinit.
    destruct (init_getattr cls input self f
                (module_field_names_NoDup cls (or_intror Hcls)) Hinit Hf)
      as (v & Hv & Hval).
    unfold field_value in Hval. rewrite Hinput in Hval. destruct Hval as [_ ->].
    unfold field_default in Hv. now rewrite Hdefault in Hv.
  - pose proof (validate_model_missing _ input f Hf Hreq Hinput) as Hmiss.
    unfold init. destruct (validate_model (cls_fields cls) input) as [values errors].
    exists errors. split; [|exact Hmiss].
    destruct errors; [contradiction | reflexivity].
Qed.

Context `{!ImportsOk}.

(** X11.  For every class of the module, the [.dict()] of a typed
    instance, given to the constructor of the class, makes the instance
    again. *)
Theorem dict_then_init cls self :
  In cls module_classes ->
  typed (model cls) self = true ->
  (data ← BaseModel_dict self; init cls data) = Ok self.
Proof.
  intros Hcls (attrs & -> & Hty)%typed_model_inv.
  cbn [BaseModel_dict mbind result_bind bind].
  apply init_dict; [|now apply module_fields_sound|exact Hty].
  apply module_field_names_NoDup. now right.
Qed.
End More_of_the_classes.

Section More_of_assignment.
Context `{Pydantic} `{Imports}.

Lemma type_of_typed cls self :
  In cls module_classes -> typed (model cls) self = true -> type_of self = Ok cls.
Proof.
  intros Hcls (attrs & -> & _)%typed_model_inv. simpl in Hcls.
  repeat (destruct Hcls as [<-|Hcls]; [reflexivity|]). contradiction.
Qed.


(** X13.  The short descriptor of a chunk does not tell its other fields:
    after an assignment to a declared field other than [chunk_id] and
    [source_document], [to_short_descriptor] returns what it returned
    before. *)
Theorem assign_keeps_descriptor (σ : store) self chunk cls name value :
  σ !! self = Some chunk ->
  type_of chunk = Ok cls ->
  In name (field_names cls) ->
  name <> "chunk_id" ->
  name <> "source_document" ->
  exists σ',
    (_ ← assign self name value; call_to_short_descriptor self) σ
    = (to_short_descriptor chunk, σ')
    /\ call_to_short_descriptor self σ = (to_short_descriptor chunk, σ).
Proof.
  intros Hself Hcls Hname Hid Hdoc.
  destruct (assign_declared_field σ self chunk cls name value Hself Hcls Hname)
    as (chunk' & Hrun & _ & Hother).
  exists (<[self := chunk']> σ). split; [|now apply call_to_short_descriptor_eq].
  unfold mbind at 1. unfold M_bind. rewrite Hrun.
  rewrite (call_to_short_descriptor_eq _ self chunk').
  - f_equal. apply to_short_descriptor_reads; apply Hother; congruence.
  - apply list_lookup_insert_eq. now apply lookup_lt_Some in Hself.
Qed.

(** X14.  The short descriptor is made of the fields as they are when the
    method is called: after [chunk_id] of a typed chunk is assigned an int,
    [to_short_descriptor] names that int, with the descriptor of the same
    document. *)
Theorem assign_chunk_id_changes_descriptor `{!ImportsOk} (σ : store) self chunk cls n :
  σ !! self = Some chunk ->
  In cls doc_aware_classes ->
  typed (model cls) chunk = true ->
  exists source_document descriptor σ',
    getattr chunk "source_document" = Ok source_document
    /\ Document_to_short_descriptor source_document = Ok descriptor
    /\ (_ ← assign self "chunk_id" (PyInt n); call_to_short_descriptor self) σ
       = (Ok ("Chunk ID: '" ++ str_of_int n ++ "'; " ++ descriptor), σ').
Proof.
  intros Hself Hcls Hty.
  assert (In cls module_classes) as Hmod
    by (simpl in Hcls; decompose [or] Hcls; subst; try contradiction; in_list).
  destruct (typed_getattr cls (attr "source_document" Document) chunk Hmod)
    as (doc & Hdoc & Htdoc);
    [simpl in Hcls; decompose [or] Hcls; subst; try contradiction; in_list | exact Hty |].
  cbn [f_name f_type attr] in Hdoc, Htdoc.
  destruct (Document_to_short_descriptor_returns doc Htdoc) as [s Hs].
  destruct (assign_declared_field σ self chunk cls "chunk_id" (PyInt n) Hself)
    as (chunk' & Hrun & Hid & Hother).
  { now apply type_of_typed. }
  { simpl in Hcls; decompose [or] Hcls; subst; try contradiction; in_list. }
  exists doc, s, (<[self := chunk']> σ). split; [exact Hdoc|]. split; [exact Hs|].
  unfold mbind at 1. unfold M_bind. rewrite Hrun.
  rewrite (call_to_short_descriptor_eq _ self chunk').
  - f_equal. unfold to_short_descriptor. rewrite Hid.
    cbn [mbind result_bind bind format_value].
    rewrite (Hother "source_document"), Hdoc by discriminate.
    cbn [mbind result_bind bind]. now rewrite Hs.
  - apply list_lookup_insert_eq. now apply lookup_lt_Some in Hself.
Qed.
End More_of_assignment.

(** ** The short descriptor and the chunk id *)

Lemma str_of_int_inj z z' : str_of_int z = str_of_int z' -> z = z'.
Proof.
  unfold str_of_int. intros Heq. apply DecimalZ.to_int_inj.
  assert (forall n, Z.to_int n <> Decimal.Pos Decimal.Nil
                    /\ Z.to_int n <> Decimal.Neg Decimal.Nil) as Hnonnil.
  { intros [|p|p]; simpl; split; try discriminate;
      intros [= Hp]; exact (DecimalPos.Unsigned.to_uint_nonnil p Hp). }
  destruct (Hnonnil z) as [Hp Hn]. destruct (Hnonnil z') as [Hp' Hn'].
  pose proof (NilZero.isi (Z.to_int z) Hp Hn) as Hz.
  pose proof (NilZero.isi (Z.to_int z') Hp' Hn') as Hz'.
  rewrite Heq in Hz. congruence.
Qed.

Lemma append_inj_r (s s' t : string) : s ++ t = s' ++ t -> s = s'.
Proof.
  intros Heq.
  assert (String.length s = String.length s') as Hlen.
  { apply (f_equal String.length) in Heq. rewrite !length_append in Heq. lia. }
  revert s' Hlen Heq. induction s as [|a s IH]; intros [|a' s'] Hlen Heq;
    simpl in Hlen; try discriminate; [reflexivity|].
  simpl in Heq. injection Heq as -> Heq. f_equal. apply IH; [lia | exact Heq].
Qed.

Section Descriptor_and_chunk_id.
Context `{Pydantic} `{Imports} `{!ImportsOk}.

(** X15.  The short descriptor tells the chunks of one document apart:
    two typed chunks with the same source document and the same short
    descriptor have the same chunk id. *)
Theorem to_short_descriptor_tells_chunk_id cls cls' chunk chunk' :
  In cls doc_aware_classes ->
  In cls' doc_aware_classes ->
  typed (model cls) chunk = true ->
  typed (model cls') chunk' = true ->
  getattr chunk "source_document" = getattr chunk' "source_document" ->
  to_short_descriptor chunk = to_short_descriptor chunk' ->
  getattr chunk "chunk_id" = getattr chunk' "chunk_id".
Proof.
  intros Hcls Hcls' Hty Hty' Hdoc Hdescr.
  assert (forall c k, In c doc_aware_classes -> typed (model c) k = true ->
            exists z d s,
              getattr k "chunk_id" = Ok (PyInt z)
              /\ getattr k "source_document" = Ok d
              /\ Document_to_short_descriptor d = Ok s
              /\ to_short_descriptor k = Ok ("Chunk ID: '" ++ str_of_int z ++ "'; " ++ s))
    as Hvalue.
  { intros c k Hc Hk.
    assert (In c module_classes) as Hmod
      by (simpl in Hc; decompose [or] Hc; subst; try contradiction; in_list).
    destruct (typed_getattr c (attr "chunk_id" int_) k Hmod) as (v & Hid & Hv);
      [simpl in Hc; decompose [or] Hc; subst; try contradiction; in_list | exact Hk |].
    destruct (typed_getattr c (attr "source_document" Document) k Hmod) as (d & Hd & Htd);
      [simpl in Hc; decompose [or] Hc; subst; try contradiction; in_list | exact Hk |].
    cbn [f_name f_type attr] in Hid, Hv, Hd, Htd.
    destruct (typed_int_inv v Hv) as [z ->].
    destruct (Document_to_short_descriptor_returns d Htd) as [s Hs].
    exists z, d, s. repeat split; auto.
    unfold to_short_descriptor. rewrite Hid. cbn [mbind result_bind bind format_value].
    rewrite Hd. cbn [mbind result_bind bind]. now rewrite Hs. }
  destruct (Hvalue cls chunk Hcls Hty) as (z & d & s & Hid & Hd & Hs & Hcall).
  destruct (Hvalue cls' chunk' Hcls' Hty') as (z' & d' & s' & Hid' & Hd' & Hs' & Hcall').
  rewrite Hd, Hd' in Hdoc. injection Hdoc as <-.
  rewrite Hs in Hs'. injection Hs' as <-.
  rewrite Hcall, Hcall' in Hdescr. injection Hdescr as Heq.
  apply (append_inj_r _ _ ("'; " ++ s)) in Heq. apply str_of_int_inj in Heq.
  rewrite Hid, Hid'. now subst.
Qed.
End Descriptor_and_chunk_id.

(** ** The further properties, on the samples *)

Section More_sample_runs.
#[local] Existing Instance Sample.pydantic.
#[local] Existing Instance Sample.imports.
#[local] Existing Instance Sample_imports_ok.

Lemma from_index_chunk_of_extended_raises_witness :
  typed (model DocMetadataAwareIndexChunk) More_samples.extended_chunk = true
  /\ from_index_chunk DocMetadataAwareIndexChunk More_samples.extended_chunk
       Sample.public More_samples.document_sets (PyInt 0)
     = Raise (TypeError "got multiple values for keyword argument").
Proof.
  split; [reflexivity|].
  apply (from_index_chunk_of_extended_raises DocMetadataAwareIndexChunk
           More_samples.extended_chunk). reflexivity.
Defined.

Lemma from_index_chunk_without_embeddings_raises_witness :
  In DocAwareChunk [BaseChunk; DocAwareChunk]
  /\ typed (model DocAwareChunk) More_samples.doc_aware_chunk = true
  /\ exists errors,
       from_index_chunk DocMetadataAwareIndexChunk More_samples.doc_aware_chunk
         Sample.public More_samples.document_sets (PyInt 0)
       = Raise (ValidationError errors)
       /\ In ("embeddings", missing) errors.
Proof.
  split; [in_list|]. split; [reflexivity|].
  apply (from_index_chunk_without_embeddings_raises DocAwareChunk
           More_samples.doc_aware_chunk); [in_list | reflexivity].
Defined.

Lemma from_index_chunk_makes_instance_of_cls_witness :
  from_index_chunk DocMetadataAwareIndexChunk Sample.index_chunk
    Sample.public More_samples.document_sets (PyInt 0)
  = Ok More_samples.extended_chunk
  /\ exists values,
       More_samples.extended_chunk = PyModel (cls_mro DocMetadataAwareIndexChunk) values
       /\ keys values = field_names DocMetadataAwareIndexChunk.
Proof.
  split; [reflexivity|].
  apply (from_index_chunk_makes_instance_of_cls DocMetadataAwareIndexChunk
           Sample.index_chunk Sample.public More_samples.document_sets (PyInt 0)).
  reflexivity.
Defined.

Lemma from_index_chunk_typed_witness :
  typed (model IndexChunk) Sample.index_chunk = true
  /\ typed DocumentAccess Sample.public = true
  /\ typed (set_ str_) More_samples.document_sets = true
  /\ typed int_ (PyInt 0) = true
  /\ exists chunk,
       from_index_chunk DocMetadataAwareIndexChunk Sample.index_chunk
         Sample.public More_samples.document_sets (PyInt 0) = Ok chunk
       /\ typed (model DocMetadataAwareIndexChunk) chunk = true.
Proof.
  repeat (split; [reflexivity|]).
  apply (from_index_chunk_typed Sample.index_chunk Sample.public
           More_samples.document_sets (PyInt 0)); reflexivity.
Defined.

Lemma from_index_chunk_keeps_descriptor_witness :
  typed (model IndexChunk) Sample.index_chunk = true
  /\ typed DocumentAccess Sample.public = true
  /\ typed (set_ str_) More_samples.document_sets = true
  /\ typed int_ (PyInt 0) = true
  /\ exists chunk descriptor,
       from_index_chunk DocMetadataAwareIndexChunk Sample.index_chunk
         Sample.public More_samples.document_sets (PyInt 0) = Ok chunk
       /\ to_short_descriptor Sample.index_chunk = Ok descriptor
       /\ to_short_descriptor chunk = Ok descriptor.
Proof.
  repeat (split; [reflexivity|]).
  apply (from_index_chunk_keeps_descriptor Sample.index_chunk Sample.public
           More_samples.document_sets (PyInt 0)); reflexivity.
Defined.

Lemma from_model_missing_attribute_witness :
  In "cloud_provider_id"
    [ "model_name"; "model_dim"; "normalize"; "query_prefix";
      "passage_prefix"; "cloud_provider_id" ]
  /\ getattr More_samples.old_embedding_model "cloud_provider_id"
     = Raise (AttributeError "cloud_provider_id")
  /\ exists absent,
       In absent [ "model_name"; "model_dim"; "normalize"; "query_prefix";
                   "passage_prefix"; "cloud_provider_id" ]
       /\ from_model EmbeddingModelDetail More_samples.old_embedding_model
          = Raise (AttributeError absent).
Proof.
  split; [in_list|]. split; [reflexivity|].
  apply (from_model_missing_attribute EmbeddingModelDetail
           More_samples.old_embedding_model "cloud_provider_id");
    [in_list | reflexivity].
Defined.

Lemma from_model_typed_witness :
  is_EmbeddingModel Sample.embedding_model = true
  /\ exists detail,
       from_model EmbeddingModelDetail Sample.embedding_model = Ok detail
       /\ typed (model EmbeddingModelDetail) detail = true.
Proof.
  split; [reflexivity|].
  apply (from_model_typed Sample.embedding_model). reflexivity.
Defined.

Lemma init_ignores_unknown_keywords_witness :
  (forall name, In name (keys [("score", PyInt 1)]) -> ~ In name (field_names BaseChunk))
  /\ init BaseChunk (Sample.base_chunk_input ++ [("score", PyInt 1)])%list
     = init BaseChunk Sample.base_chunk_input.
Proof.
  assert (forall name, In name (keys [("score", PyInt 1)]) ->
            ~ In name (field_names BaseChunk)) as Hunknown
    by (intros name [<-|[]]; simpl; intuition discriminate).
  split; [exact Hunknown|].
  exact (init_ignores_unknown_keywords BaseChunk Sample.base_chunk_input
           [("score", PyInt 1)] Hunknown).
Defined.

Lemma cloud_provider_defaults_None_witness :
  assoc "cloud_provider_id" More_samples.detail_input = None
  /\ assoc "cloud_provider_name" More_samples.detail_input = None
  /\ init EmbeddingModelDetail More_samples.detail_input
     = Ok (instance_of EmbeddingModelDetail More_samples.detail_input)
  /\ getattr (instance_of EmbeddingModelDetail More_samples.detail_input)
       "cloud_provider_id" = Ok PyNone
  /\ getattr (instance_of EmbeddingModelDetail More_samples.detail_input)
       "cloud_provider_name" = Ok PyNone.
Proof.
  repeat (split; [reflexivity|]).
  apply (cloud_provider_defaults_None More_samples.detail_input); reflexivity.
Defined.

Lemma optional_field_left_out_witness :
  In BaseChunk module_classes
  /\ In (attr "source_links" (Optional (dict_ int_ str_))) (cls_fields BaseChunk)
  /\ assoc "source_links" More_samples.no_links_input = None
  /\ init BaseChunk More_samples.no_links_input
     = Ok (instance_of BaseChunk More_samples.no_links_input)
  /\ getattr (instance_of BaseChunk More_samples.no_links_input) "source_links"
     = Ok PyNone.
Proof.
  split; [in_list|]. split; [in_list|]. split; [reflexivity|]. split; [reflexivity|].
  exact (optional_field_left_out BaseChunk
           (attr "source_links" (Optional (dict_ int_ str_)))
           More_samples.no_links_input
           ltac:(in_list) ltac:(in_list) eq_refl eq_refl eq_refl
           (instance_of BaseChunk More_samples.no_links_input) eq_refl).
Defined.

Lemma dict_then_init_witness :
  In IndexChunk module_classes
  /\ typed (model IndexChunk) Sample.index_chunk = true
  /\ (data ← BaseModel_dict Sample.index_chunk; init IndexChunk data)
     = Ok Sample.index_chunk.
Proof.
  split; [in_list|]. split; [reflexivity|].
  apply (dict_then_init IndexChunk Sample.index_chunk); [in_list | reflexivity].
Defined.


Lemma assign_keeps_descriptor_witness :
  [Sample.index_chunk] !! 0 = Some Sample.index_chunk
  /\ type_of Sample.index_chunk = Ok IndexChunk
  /\ In "content" (field_names IndexChunk)
  /\ "content" <> "chunk_id"
  /\ "content" <> "source_document"
  /\ exists σ',
       (_ ← assign 0 "content" (PyStr "Goodbye"); call_to_short_descriptor 0)
         [Sample.index_chunk]
       = (to_short_descriptor Sample.index_chunk, σ')
       /\ call_to_short_descriptor 0 [Sample.index_chunk]
          = (to_short_descriptor Sample.index_chunk, [Sample.index_chunk]).
Proof.
  split; [reflexivity|]. split; [reflexivity|]. split; [in_list|].
  split; [discriminate|]. split; [discriminate|].
  apply (assign_keeps_descriptor [Sample.index_chunk] 0 Sample.index_chunk IndexChunk
           "content" (PyStr "Goodbye"));
    [reflexivity | reflexivity | in_list | discriminate | discriminate].
Defined.

Lemma assign_chunk_id_changes_descriptor_witness :
  [Sample.index_chunk] !! 0 = Some Sample.index_chunk
  /\ In IndexChunk doc_aware_classes
  /\ typed (model IndexChunk) Sample.index_chunk = true
  /\ exists source_document descriptor σ',
       getattr Sample.index_chunk "source_document" = Ok source_document
       /\ Document_to_short_descriptor source_document = Ok descriptor
       /\ (_ ← assign 0 "chunk_id" (PyInt 7); call_to_short_descriptor 0)
            [Sample.index_chunk]
          = (Ok ("Chunk ID: '" ++ str_of_int 7 ++ "'; " ++ descriptor), σ').
Proof.
  split; [reflexivity|]. split; [in_list|]. split; [reflexivity|].
  apply (assign_chunk_id_changes_descriptor [Sample.index_chunk] 0 Sample.index_chunk
           IndexChunk 7); [reflexivity | in_list | reflexivity].
Defined.

Lemma to_short_descriptor_tells_chunk_id_witness :
  In IndexChunk doc_aware_classes
  /\ In DocMetadataAwareIndexChunk doc_aware_classes
  /\ typed (model IndexChunk) Sample.index_chunk = true
  /\ typed (model DocMetadataAwareIndexChunk) More_samples.extended_chunk = true
  /\ getattr Sample.index_chunk "source_document"
     = getattr More_samples.extended_chunk "source_document"
  /\ to_short_descriptor Sample.index_chunk
     = to_short_descriptor More_samples.extended_chunk
  /\ getattr Sample.index_chunk "chunk_id"
     = getattr More_samples.extended_chunk "chunk_id".
Proof.
  split; [in_list|]. split; [in_list|]. do 4 (split; [reflexivity|]).
  apply (to_short_descriptor_tells_chunk_id IndexChunk DocMetadataAwareIndexChunk
           Sample.index_chunk More_samples.extended_chunk);
    [in_list | in_list | reflexivity | reflexivity | reflexivity | reflexivity].
Defined.

(** Two chunks of one document with different ids have different
    descriptors. *)
Example descriptors_of_two_chunks :
  to_short_descriptor Sample.index_chunk
  = Ok "Chunk ID: '0'; ID: 'D1'; Semantic ID: 'Handbook'"
  /\ to_short_descriptor More_samples.next_chunk
     = Ok "Chunk ID: '1'; ID: 'D1'; Semantic ID: 'Handbook'".
Proof. split; reflexivity. Qed.
End More_sample_runs.
